(** * The registry GraphQL utilities of the GovStack test-harness API

    A shallow embedding of
    [govstack_api/building_blocks/bb_digital_registries/registries/registry_qgl_utils.py]
    and the properties its specification states about it.

    Conventions of the embedding.
    - A Python [str] is a Rocq [string]; a character stands for the code point
      of the same number, so the text covered is the range U+0000..U+00FF.
      Text that leaves this range (the result of decoding longer UTF-8
      sequences, JSON [\uXXXX] escapes above [00ff]) and JSON floats are
      reported by the exception [OutsideModel].
    - A Python [bytes] is a [list byte].
    - A Python [dict] is an association list in insertion order with distinct
      keys: assigning to a present key keeps its position, assigning to a new
      key appends.
    - A call that raises returns [Raise e]; [e] names the Python exception
      class.
    - The two collaborators of the manager (the GraphQL client and the
      mutation log) and the generated uuid are parameters; every call to a
      collaborator is recorded in a trace. *)

From Stdlib Require Import String Ascii List ZArith Lia Bool DecimalString.
From Stdlib.Strings Require Import Byte.
From Stdlib Require DecimalPos DecimalFacts.
Import ListNotations.
Local Open Scope string_scope.
Local Open Scope Z_scope.

(** ** Python values *)

#[local] Set Warnings "-register-all".

Inductive pyval : Type :=
| PNone
| PBool (b : bool)
| PInt (z : Z)
| PStr (s : string)
| PList (l : list pyval)
| PDict (d : list (string * pyval)).

Inductive exn : Type :=
| MutationError (detail : pyval)
| AttributeError
| TypeError
| ValueError
| JSONDecodeError
| BinasciiError
| UnicodeDecodeError
| OutsideModel.

Inductive result (A : Type) : Type :=
| Ok (a : A)
| Raise (e : exn).

Arguments Ok {A} a.
Arguments Raise {A} e.

Definition bind {A B : Type} (m : result A) (k : A -> result B) : result B :=
  match m with
  | Ok a => k a
  | Raise e => Raise e
  end.

Notation "x <- m ;; k" := (bind m (fun x => k))
  (at level 61, m at next level, right associativity).

(** ** Characters and strings *)

Definition dq : string := String "034"%char EmptyString.
Definition nl : string := String "010"%char EmptyString.
Definition bsl : string := String "092"%char EmptyString.

Definition code (c : ascii) : Z := Z.of_N (N_of_ascii c).
Definition chr (z : Z) : ascii := ascii_of_N (Z.to_N z).

Definition is_empty (s : string) : bool :=
  match s with EmptyString => true | String _ _ => false end.

Fixpoint str_forallb (p : ascii -> bool) (s : string) : bool :=
  match s with
  | EmptyString => true
  | String c s' => p c && str_forallb p s'
  end.

Fixpoint str_existsb (p : ascii -> bool) (s : string) : bool :=
  match s with
  | EmptyString => false
  | String c s' => p c || str_existsb p s'
  end.

Definition has_char (c : ascii) (s : string) : bool := str_existsb (Ascii.eqb c) s.

(** [sep.join(parts)] *)
Fixpoint str_join (sep : string) (parts : list string) : string :=
  match parts with
  | [] => EmptyString
  | [p] => p
  | p :: ps => p ++ sep ++ str_join sep ps
  end.

(** [s.split(c)] for a separator of one character. *)
Fixpoint str_split (c : ascii) (s : string) : list string :=
  match s with
  | EmptyString => [EmptyString]
  | String a s' =>
      if Ascii.eqb a c then EmptyString :: str_split c s'
      else match str_split c s' with
           | [] => [String a EmptyString]
           | w :: ws => String a w :: ws
           end
  end.

(** [s.replace(c, by)] for a pattern of one character. *)
Fixpoint str_replace (c : ascii) (by_ : string) (s : string) : string :=
  match s with
  | EmptyString => EmptyString
  | String a s' =>
      (if Ascii.eqb a c then by_ else String a EmptyString) ++ str_replace c by_ s'
  end.

Fixpoint is_prefix (p s : string) : bool :=
  match p, s with
  | EmptyString, _ => true
  | String a p', String b s' => Ascii.eqb a b && is_prefix p' s'
  | String _ _, EmptyString => false
  end.

(** [p in s] on strings. *)
Fixpoint is_substring (p s : string) : bool :=
  is_prefix p s ||
  match s with
  | EmptyString => false
  | String _ s' => is_substring p s'
  end.

(** The text [hay] contains [needle]. *)
Definition contains (needle hay : string) : Prop :=
  exists pre post, hay = pre ++ needle ++ post.

(** [str(z)] of an [int]. *)
Definition str_of_Z (z : Z) : string := NilZero.string_of_int (Z.to_int z).

Definition is_ascii_digit (c : ascii) : bool :=
  (48 <=? code c) && (code c <=? 57).

(** [c.isdigit()]: within U+0000..U+00FF the characters of numeric type Digit
    or Decimal are [0]..[9] and the superscripts U+00B2, U+00B3, U+00B9. *)
Definition char_isdigit (c : ascii) : bool :=
  is_ascii_digit c || (code c =? 178) || (code c =? 179) || (code c =? 185).

(** [s.isdigit()] *)
Definition str_isdigit (s : string) : bool :=
  negb (is_empty s) && str_forallb char_isdigit s.

Fixpoint digits_value (acc : Z) (s : string) : Z :=
  match s with
  | EmptyString => acc
  | String c s' => digits_value (10 * acc + (code c - 48)) s'
  end.

(** [int(s)] for an [s] that passed [isdigit]: the superscript digits are not
    decimal digits and make [int] raise [ValueError]. *)
Definition int_of_digits (s : string) : result Z :=
  if str_forallb is_ascii_digit s then Ok (digits_value 0 s) else Raise ValueError.

Definition hex_digit (z : Z) : ascii :=
  if z <? 10 then chr (48 + z) else chr (87 + z).

Definition hex2 (z : Z) : string :=
  String (hex_digit (z / 16)) (String (hex_digit (z mod 16)) EmptyString).

(** ** [repr] and [str] *)

Definition printable (c : ascii) : bool :=
  let n := code c in
  if n <? 32 then false
  else if n <? 127 then true
  else if n <? 161 then false
  else negb (n =? 173).

Definition repr_char (quote : ascii) (c : ascii) : string :=
  if Ascii.eqb c quote || Ascii.eqb c "092"%char then bsl ++ String c EmptyString
  else if Ascii.eqb c "009"%char then bsl ++ "t"
  else if Ascii.eqb c "010"%char then bsl ++ "n"
  else if Ascii.eqb c "013"%char then bsl ++ "r"
  else if printable c then String c EmptyString
  else bsl ++ "x" ++ hex2 (code c).

Fixpoint str_flat_map (f : ascii -> string) (s : string) : string :=
  match s with
  | EmptyString => EmptyString
  | String c s' => f c ++ str_flat_map f s'
  end.

(** [repr(s)] of a [str]: single quotes unless the text has a single quote and
    no double quote. *)
Definition repr_str (s : string) : string :=
  let quote : ascii :=
    if has_char "039"%char s && negb (has_char "034"%char s)
    then "034"%char else "039"%char in
  String quote (str_flat_map (repr_char quote) s) ++ String quote EmptyString.

Fixpoint py_repr (v : pyval) : string :=
  match v with
  | PNone => "None"
  | PBool true => "True"
  | PBool false => "False"
  | PInt z => str_of_Z z
  | PStr s => repr_str s
  | PList l => "[" ++ str_join ", " (map py_repr l) ++ "]"
  | PDict d =>
      "{" ++ str_join ", " (map (fun kv => repr_str (fst kv) ++ ": " ++ py_repr (snd kv)) d)
          ++ "}"
  end.

(** [str(v)], which is also what an f-string field [{v}] renders. *)
Definition py_str (v : pyval) : string :=
  match v with
  | PStr s => s
  | _ => py_repr v
  end.

(** Truth value of [v] in an [if]. *)
Definition truthy (v : pyval) : bool :=
  match v with
  | PNone => false
  | PBool b => b
  | PInt z => negb (z =? 0)
  | PStr s => negb (is_empty s)
  | PList l => match l with [] => false | _ => true end
  | PDict d => match d with [] => false | _ => true end
  end.

(** ** Dictionaries *)

Definition dict (V : Type) : Type := list (string * V).

Section Dict.
Context {V : Type}.

Fixpoint dict_get (k : string) (d : dict V) : option V :=
  match d with
  | [] => None
  | (k', v) :: d' => if String.eqb k k' then Some v else dict_get k d'
  end.

Definition dict_mem (k : string) (d : dict V) : bool :=
  match dict_get k d with Some _ => true | None => false end.

(** [d[k] = v] *)
Fixpoint dict_set (k : string) (v : V) (d : dict V) : dict V :=
  match d with
  | [] => [(k, v)]
  | (k', v') :: d' =>
      if String.eqb k k' then (k, v) :: d' else (k', v') :: dict_set k v d'
  end.

(** [del d[k]], also [d.pop(k, None)] with the value dropped. *)
Fixpoint dict_del (k : string) (d : dict V) : dict V :=
  match d with
  | [] => []
  | (k', v') :: d' =>
      if String.eqb k k' then dict_del k d' else (k', v') :: dict_del k d'
  end.

(** [d.update(other)] *)
Definition dict_update (d other : dict V) : dict V :=
  fold_left (fun acc kv => dict_set (fst kv) (snd kv) acc) other d.

Definition dict_keys (d : dict V) : list string := map fst d.
Definition dict_values (d : dict V) : list V := map snd d.
End Dict.

(** [k in l] for a list of strings. *)
Definition mem (k : string) (l : list string) : bool := existsb (String.eqb k) l.

(** [v.get(k, default)]: only a [dict] has the method. *)
Definition py_get (v : pyval) (k : string) (default : pyval) : result pyval :=
  match v with
  | PDict d => Ok (match dict_get k d with Some x => x | None => default end)
  | _ => Raise AttributeError
  end.

(** ** UTF-8, as [str.encode()] and [bytes.decode()] use it *)

Definition byteZ (b : byte) : Z := Z.of_N (Byte.to_N b).

(** The cast of a C [int] to [unsigned char]. *)
Definition byte_ofZ (z : Z) : byte :=
  match Byte.of_N (Z.to_N (z mod 256)) with
  | Some b => b
  | None => x00
  end.

Definition utf8_char (c : ascii) : list byte :=
  if code c <? 128 then [byte_ofZ (code c)]
  else [byte_ofZ (Z.lor 192 (Z.shiftr (code c) 6));
        byte_ofZ (Z.lor 128 (Z.land (code c) 63))].

(** [s.encode()] *)
Fixpoint str_encode (s : string) : list byte :=
  match s with
  | EmptyString => []
  | String c s' => (utf8_char c ++ str_encode s')%list
  end.

(** [bs.decode()]: one-byte sequences and the two-byte sequences of
    U+0080..U+00FF are decoded; lead bytes [C4]..[F4] start text beyond
    U+00FF; every other byte is invalid at the start of a sequence. *)
Fixpoint bytes_decode (bs : list byte) : result string :=
  match bs with
  | [] => Ok EmptyString
  | b :: rest =>
      let n := byteZ b in
      if n <? 128 then
        s <- bytes_decode rest ;; Ok (String (chr n) s)
      else if n <? 194 then Raise UnicodeDecodeError
      else if n <? 196 then
        match rest with
        | b2 :: rest' =>
            if (128 <=? byteZ b2) && (byteZ b2 <? 192) then
              s <- bytes_decode rest' ;;
              Ok (String (chr (Z.lor (Z.shiftl (Z.land n 31) 6) (Z.land (byteZ b2) 63))) s)
            else Raise UnicodeDecodeError
        | [] => Raise UnicodeDecodeError
        end
      else if n <? 245 then Raise OutsideModel
      else Raise UnicodeDecodeError
  end.

(** ** Base64, after CPython's [binascii] *)

Module Base64.

Definition alphabet : string :=
  "ABCDEFGHIJKLMNOPQRSTUVWXYZabcdefghijklmnopqrstuvwxyz0123456789+/".

Definition pad : byte := byte_ofZ 61.

(** [table_b2a_base64] *)
Definition b2a (n : Z) : byte :=
  match String.get (Z.to_nat n) alphabet with
  | Some c => byte_of_ascii c
  | None => pad
  end.

(** [table_a2b_base64], [None] for the entries marked invalid. *)
Definition a2b (b : byte) : option Z :=
  let n := byteZ b in
  if (65 <=? n) && (n <=? 90) then Some (n - 65)
  else if (97 <=? n) && (n <=? 122) then Some (n - 71)
  else if (48 <=? n) && (n <=? 57) then Some (n + 4)
  else if n =? 43 then Some 62
  else if n =? 47 then Some 63
  else None.

(** [binascii.b2a_base64(data, newline=False)], three bytes at a time. *)
Fixpoint b2a_base64 (data : list byte) : list byte :=
  match data with
  | [] => []
  | [x] =>
      let a := byteZ x in
      [b2a (Z.shiftr a 2); b2a (Z.shiftl (Z.land a 3) 4); pad; pad]
  | [x; y] =>
      let a := byteZ x in
      let b := byteZ y in
      [b2a (Z.shiftr a 2);
       b2a (Z.lor (Z.shiftl (Z.land a 3) 4) (Z.shiftr b 4));
       b2a (Z.shiftl (Z.land b 15) 2); pad]
  | x :: y :: z :: rest =>
      let a := byteZ x in
      let b := byteZ y in
      let c := byteZ z in
      b2a (Z.shiftr a 2)
      :: b2a (Z.lor (Z.shiftl (Z.land a 3) 4) (Z.shiftr b 4))
      :: b2a (Z.lor (Z.shiftl (Z.land b 15) 2) (Z.shiftr c 6))
      :: b2a (Z.land c 63)
      :: b2a_base64 rest
  end.

(** The loop of [binascii.a2b_base64] without strict mode.  [quad_pos],
    [leftchar] and [pads] are the C variables; the bytes written so far are
    returned in front of what the rest of the input yields.  A pad that
    completes a quad ends the parse ([goto done]); other pads and the bytes
    outside the alphabet are skipped; input that ends inside a quad raises
    [binascii.Error]. *)
Fixpoint a2b_loop (data : list byte) (quad_pos leftchar pads : Z)
  : result (list byte) :=
  match data with
  | [] => if quad_pos =? 0 then Ok [] else Raise BinasciiError
  | this_ch :: rest =>
      if byteZ this_ch =? 61 then
        if (2 <=? quad_pos) && (4 <=? quad_pos + (pads + 1)) then Ok []
        else a2b_loop rest quad_pos leftchar
               (if 2 <=? quad_pos then pads + 1 else pads)
      else
        match a2b this_ch with
        | None => a2b_loop rest quad_pos leftchar pads
        | Some v =>
            if quad_pos =? 0 then a2b_loop rest 1 v 0
            else if quad_pos =? 1 then
              out <- a2b_loop rest 2 (Z.land v 15) 0 ;;
              Ok (byte_ofZ (Z.lor (Z.shiftl leftchar 2) (Z.shiftr v 4)) :: out)
            else if quad_pos =? 2 then
              out <- a2b_loop rest 3 (Z.land v 3) 0 ;;
              Ok (byte_ofZ (Z.lor (Z.shiftl leftchar 4) (Z.shiftr v 2)) :: out)
            else
              out <- a2b_loop rest 0 0 0 ;;
              Ok (byte_ofZ (Z.lor (Z.shiftl leftchar 6) v) :: out)
        end
  end.

Definition a2b_base64 (data : list byte) : result (list byte) :=
  a2b_loop data 0 0 0.

(** [base64.b64encode(s)] *)
Definition b64encode (s : list byte) : list byte := b2a_base64 s.

(** [base64.b64decode(s)]: text must be ASCII ([ValueError] otherwise); a
    value that is neither text nor bytes raises [TypeError]. *)
Definition b64decode (s : pyval) : result (list byte) :=
  match s with
  | PStr t =>
      if str_forallb (fun c => code c <? 128) t
      then a2b_base64 (map byte_of_ascii (list_ascii_of_string t))
      else Raise ValueError
  | _ => Raise TypeError
  end.

End Base64.

(** ** JSON, after CPython's [json] with its default options *)

Module Json.

(** One character of a string under [ensure_ascii=True]. *)
Definition escape_char (c : ascii) : string :=
  let n := code c in
  if n =? 34 then bsl ++ dq
  else if n =? 92 then bsl ++ bsl
  else if n =? 10 then bsl ++ "n"
  else if n =? 13 then bsl ++ "r"
  else if n =? 9 then bsl ++ "t"
  else if n =? 8 then bsl ++ "b"
  else if n =? 12 then bsl ++ "f"
  else if (32 <=? n) && (n <=? 126) then String c EmptyString
  else bsl ++ "u00" ++ hex2 n.

Definition encode_str (s : string) : string :=
  dq ++ str_flat_map escape_char s ++ dq.

(** [json.dumps(v)]: separators [", "] and [": "]. *)
Fixpoint dumps (v : pyval) : string :=
  match v with
  | PNone => "null"
  | PBool true => "true"
  | PBool false => "false"
  | PInt z => str_of_Z z
  | PStr s => encode_str s
  | PList l => "[" ++ str_join ", " (map dumps l) ++ "]"
  | PDict d =>
      "{" ++ str_join ", " (map (fun kv => encode_str (fst kv) ++ ": " ++ dumps (snd kv)) d)
          ++ "}"
  end.

Definition is_ws (c : ascii) : bool :=
  (code c =? 32) || (code c =? 9) || (code c =? 10) || (code c =? 13).

Fixpoint skip_ws (s : string) : string :=
  match s with
  | String c s' => if is_ws c then skip_ws s' else s
  | EmptyString => s
  end.

(** The longest prefix of decimal digits, and what follows it. *)
Fixpoint span_digits (s : string) : string * string :=
  match s with
  | String c s' =>
      if is_ascii_digit c
      then let (ds, rest) := span_digits s' in (String c ds, rest)
      else (EmptyString, s)
  | EmptyString => (EmptyString, s)
  end.

Definition starts_with_digit (s : string) : bool :=
  match s with String c _ => is_ascii_digit c | EmptyString => false end.

(** Does a fraction [.d+] or an exponent [[eE][+-]?d+] start [s]? *)
Definition float_suffix (s : string) : bool :=
  match s with
  | String c s' =>
      if code c =? 46 then starts_with_digit s'
      else if (code c =? 101) || (code c =? 69) then
        match s' with
        | String g s'' =>
            if (code g =? 43) || (code g =? 45) then starts_with_digit s''
            else is_ascii_digit g
        | EmptyString => false
        end
      else false
  | EmptyString => false
  end.

(** [NUMBER_RE] on an unsigned numeral: [0] or a numeral without a leading
    zero.  [None] when the text does not start with a number. *)
Definition scan_natural (s : string) : option (Z * string) :=
  match s with
  | String c s' =>
      if code c =? 48 then Some (0, s')
      else if is_ascii_digit c then
        let (ds, rest) := span_digits s in Some (digits_value 0 ds, rest)
      else None
  | EmptyString => None
  end.

Definition hex_value (c : ascii) : option Z :=
  let n := code c in
  if (48 <=? n) && (n <=? 57) then Some (n - 48)
  else if (97 <=? n) && (n <=? 102) then Some (n - 87)
  else if (65 <=? n) && (n <=? 70) then Some (n - 55)
  else None.

Definition unescape (c : ascii) : option ascii :=
  let n := code c in
  if n =? 34 then Some c
  else if n =? 92 then Some c
  else if n =? 47 then Some c
  else if n =? 98 then Some (chr 8)
  else if n =? 102 then Some (chr 12)
  else if n =? 110 then Some (chr 10)
  else if n =? 114 then Some (chr 13)
  else if n =? 116 then Some (chr 9)
  else None.

(** [scanstring] in strict mode, from just after the opening quote: the
    decoded text and what follows the closing quote. *)
Fixpoint scan_string (s : string) : result (string * string) :=
  match s with
  | EmptyString => Raise JSONDecodeError
  | String c s' =>
      if code c =? 34 then Ok (EmptyString, s')
      else if code c =? 92 then
        match s' with
        | EmptyString => Raise JSONDecodeError
        | String e s'' =>
            if code e =? 117 then
              match s'' with
              | String h1 (String h2 (String h3 (String h4 t))) =>
                  match hex_value h1, hex_value h2, hex_value h3, hex_value h4 with
                  | Some a, Some b, Some c', Some d =>
                      if (a =? 0) && (b =? 0) then
                        r <- scan_string t ;;
                        Ok (String (chr (16 * c' + d)) (fst r), snd r)
                      else Raise OutsideModel
                  | _, _, _, _ => Raise JSONDecodeError
                  end
              | _ => Raise JSONDecodeError
              end
            else
              match unescape e with
              | Some ch => r <- scan_string s'' ;; Ok (String ch (fst r), snd r)
              | None => Raise JSONDecodeError
              end
        end
      else if code c <? 32 then Raise JSONDecodeError
      else r <- scan_string s' ;; Ok (String c (fst r), snd r)
  end.

Definition expect_quote (s : string) : result string :=
  match s with
  | String c s' => if code c =? 34 then Ok s' else Raise JSONDecodeError
  | EmptyString => Raise JSONDecodeError
  end.

(** [scan_once], [JSONObject] and [JSONArray]; [fuel] bounds the depth of
    the calls. *)
Fixpoint scan_once (fuel : nat) (s : string) {struct fuel} : result (pyval * string) :=
  match fuel with
  | O => Raise OutsideModel
  | S n =>
      match s with
      | EmptyString => Raise JSONDecodeError
      | String c s' =>
          if code c =? 34 then
            r <- scan_string s' ;; Ok (PStr (fst r), snd r)
          else if code c =? 123 then
            match skip_ws s' with
            | String c1 s1 =>
                if code c1 =? 125 then Ok (PDict [], s1)
                else if code c1 =? 34 then scan_members n s1 []
                else Raise JSONDecodeError
            | EmptyString => Raise JSONDecodeError
            end
          else if code c =? 91 then
            match skip_ws s' with
            | String c1 s1 =>
                if code c1 =? 93 then Ok (PList [], s1)
                else scan_elements n (String c1 s1) []
            | EmptyString => Raise JSONDecodeError
            end
          else if is_prefix "null" s then Ok (PNone, substring 4 (String.length s - 4) s)
          else if is_prefix "true" s then Ok (PBool true, substring 4 (String.length s - 4) s)
          else if is_prefix "false" s then Ok (PBool false, substring 5 (String.length s - 5) s)
          else
            match scan_natural (if code c =? 45 then s' else s) with
            | Some (z, rest) =>
                if float_suffix rest then Raise OutsideModel
                else Ok (PInt (if code c =? 45 then - z else z), rest)
            | None =>
                if is_prefix "NaN" s || is_prefix "Infinity" s || is_prefix "-Infinity" s
                then Raise OutsideModel
                else Raise JSONDecodeError
            end
      end
  end

(** The members of an object, from just after the opening quote of a key. *)
with scan_members (fuel : nat) (s : string) (acc : dict pyval) {struct fuel}
  : result (pyval * string) :=
  match fuel with
  | O => Raise OutsideModel
  | S n =>
      kr <- scan_string s ;;
      match skip_ws (snd kr) with
      | String c s1 =>
          if code c =? 58 then
            vr <- scan_once n (skip_ws s1) ;;
            let acc' := dict_set (fst kr) (fst vr) acc in
            match skip_ws (snd vr) with
            | String c2 s2 =>
                if code c2 =? 125 then Ok (PDict acc', s2)
                else if code c2 =? 44 then
                  s3 <- expect_quote (skip_ws s2) ;; scan_members n s3 acc'
                else Raise JSONDecodeError
            | EmptyString => Raise JSONDecodeError
            end
          else Raise JSONDecodeError
      | EmptyString => Raise JSONDecodeError
      end
  end

(** The elements of an array, from the start of an element. *)
with scan_elements (fuel : nat) (s : string) (acc : list pyval) {struct fuel}
  : result (pyval * string) :=
  match fuel with
  | O => Raise OutsideModel
  | S n =>
      vr <- scan_once n s ;;
      let acc' := (acc ++ [fst vr])%list in
      match skip_ws (snd vr) with
      | String c2 s2 =>
          if code c2 =? 93 then Ok (PList acc', s2)
          else if code c2 =? 44 then scan_elements n (skip_ws s2) acc'
          else Raise JSONDecodeError
      | EmptyString => Raise JSONDecodeError
      end
  end.

(** [json.loads(v)]: a value that is not text raises [TypeError]; text after
    the value other than white space raises [JSONDecodeError]. *)
Definition loads (v : pyval) : result pyval :=
  match v with
  | PStr s =>
      r <- scan_once (2 * String.length s + 2) (skip_ws s) ;;
      if is_empty (skip_ws (snd r)) then Ok (fst r) else Raise JSONDecodeError
  | _ => Raise TypeError
  end.

End Json.

(** ** Iteration and [dict.update] on arbitrary values *)

(** The elements [for x in v] visits: the items of a list, the keys of a dict,
    the characters of a string; other values are not iterable. *)
Definition py_iter (v : pyval) : result (list pyval) :=
  match v with
  | PList l => Ok l
  | PDict d => Ok (map (fun kv => PStr (fst kv)) d)
  | PStr s => Ok (map (fun c => PStr (String c EmptyString)) (list_ascii_of_string s))
  | _ => Raise TypeError
  end.

(** One element of the sequence given to [dict.update]: it must have exactly
    two items, the first a key.  Keys other than text are outside the model
    when hashable and raise [TypeError] when not. *)
Definition update_pair (d : dict pyval) (elt : pyval) : result (dict pyval) :=
  match py_iter elt with
  | Raise e => Raise e
  | Ok [PStr k; v] => Ok (dict_set k v d)
  | Ok [PList _; _] => Raise TypeError
  | Ok [PDict _; _] => Raise TypeError
  | Ok [_; _] => Raise OutsideModel
  | Ok _ => Raise ValueError
  end.

Fixpoint update_pairs (d : dict pyval) (elts : list pyval) : result (dict pyval) :=
  match elts with
  | [] => Ok d
  | e :: rest => d' <- update_pair d e ;; update_pairs d' rest
  end.

(** [d.update(other)] for any [other]. *)
Definition py_update (d : dict pyval) (other : pyval) : result (dict pyval) :=
  match other with
  | PDict o => Ok (dict_update d o)
  | _ => elts <- py_iter other ;; update_pairs d elts
  end.

(** ** [class DataConverterUtils] *)

Module DataConverterUtils.

(** [decode_id], lines 39-43. *)
Definition decode_id (encoded_id : pyval) : result pyval :=
  raw <- Base64.b64decode encoded_id ;;
  decoded_string <- bytes_decode raw ;;
  match str_split ":" decoded_string with
  | [_; id_value] => Ok (PStr id_value)
  | _ => Raise ValueError
  end.

(** [encode_id], lines 32-37; [model_name] is not used by the source. *)
Definition encode_id (mapped_data : dict pyval) (model_name : string)
  : result (dict pyval) :=
  match dict_get "id" mapped_data with
  | Some id_value =>
      text <- bytes_decode (Base64.b64encode (str_encode (py_str id_value))) ;;
      Ok (dict_set "id" (PStr text) mapped_data)
  | None => Ok mapped_data
  end.

(** Lines 24-25 of [extract_records], on a record that is a dict. *)
Definition decode_record_id (record : dict pyval) : result (dict pyval) :=
  match dict_get "id" record with
  | Some i => v <- decode_id i ;; Ok (dict_set "id" v record)
  | None => Ok record
  end.

(** Lines 26-28 of [extract_records], on a record that is a dict: the blob
    is popped, parsed and merged when [record.get('jsonExt')] is true. *)
Definition merge_json_ext (record : dict pyval) : result (dict pyval) :=
  match dict_get "jsonExt" record with
  | Some blob =>
      if truthy blob then
        json_ext <- Json.loads blob ;;
        py_update (dict_del "jsonExt" record) json_ext
      else Ok record
  | None => Ok record
  end.

(** The body of the loop of [extract_records], lines 24-28, on one record.
    A record that is not a dict fails at ['id' in record], at
    [record['id']] or at [record.get]. *)
Definition convert_record (record : pyval) : result pyval :=
  match record with
  | PDict d =>
      d1 <- decode_record_id d ;;
      d2 <- merge_json_ext d1 ;;
      Ok (PDict d2)
  | PList l =>
      if existsb (fun x => match x with PStr s => String.eqb s "id" | _ => false end) l
      then Raise TypeError else Raise AttributeError
  | PStr s => if is_substring "id" s then Raise TypeError else Raise AttributeError
  | _ => Raise TypeError
  end.

Fixpoint map_result {A B : Type} (f : A -> result B) (l : list A) : result (list B) :=
  match l with
  | [] => Ok []
  | x :: rest => y <- f x ;; ys <- map_result f rest ;; Ok (y :: ys)
  end.

(** [extract_records], lines 19-29. *)
Definition extract_records (result_ : pyval) (query_get : string)
  : result (list pyval) :=
  data <- py_get result_ "data" (PDict []) ;;
  conn <- py_get data query_get (PDict []) ;;
  edges <- py_get conn "edges" (PList []) ;;
  edge_list <- py_iter edges ;;
  records <- map_result (fun edge => py_get edge "node" (PDict [])) edge_list ;;
  map_result convert_record records.

Section Xml.

(** [minidom.parseString(ET.tostring(root)).toprettyxml()] for the element
    [root] with one child named [key] whose text is [text]; the XML libraries
    are not modelled. *)
Variable prettyxml_of_child : string -> string -> result string.



End Xml.

End DataConverterUtils.

(** ** [class DataMapper] *)

Module DataMapper.

Record t : Type := {
  fields_mapping : dict string;
  special_fields : list string;
  meta_fields : list string;
  default_values : dict string
}.

(** [__init__], lines 66-79: [meta_fields or ['uuid', 'uuids']]. *)
Definition init (fields_mapping : dict string) (special_fields : list string)
    (default_values : dict string) (meta_fields : option (list string)) : t :=
  {| fields_mapping := fields_mapping;
     special_fields := special_fields;
     meta_fields := match meta_fields with
                    | Some (m :: ms) => m :: ms
                    | _ => ["uuid"; "uuids"]
                    end;
     default_values := default_values |}.

(** [repr] of a list of strings. *)
Definition repr_names (names : list string) : string := py_repr (PList (map PStr names)).

(** The message of lines 94-95. *)
Definition unsupported_field_message (self : t) (http_field : string) : string :=
  "Unsupported field: `" ++ http_field ++ "`. Allowed fields for registry: " ++ nl
    ++ repr_names (dict_keys self.(fields_mapping)) ++ nl
    ++ repr_names self.(special_fields).

(** The loop of [map_to_graphql], lines 84-96, over the items still to
    visit, with the two dicts built so far. *)
Fixpoint map_fields (self : t) (items : dict pyval) (mapped_data json_ext : dict pyval)
  : result (dict pyval * dict pyval) :=
  match items with
  | [] => Ok (mapped_data, json_ext)
  | (http_field, value) :: rest =>
      match dict_get http_field self.(fields_mapping) with
      | Some graphql_field =>
          map_fields self rest (dict_set graphql_field value mapped_data) json_ext
      | None =>
          if mem http_field self.(special_fields) then
            map_fields self rest mapped_data (dict_set http_field value json_ext)
          else if mem http_field self.(meta_fields) then
            map_fields self rest (dict_set http_field value mapped_data) json_ext
          else Raise (MutationError (PStr (unsupported_field_message self http_field)))
      end
  end.

(** [map_to_graphql], lines 81-100. *)
Definition map_to_graphql (self : t) (validated_data : dict pyval)
  : result (dict pyval) :=
  r <- map_fields self validated_data [] [] ;;
  match snd r with
  | [] => Ok (fst r)
  | json_ext => Ok (dict_set "jsonExt" (PStr (Json.dumps (PDict json_ext))) (fst r))
  end.

(** [{v: k for k, v in self.fields_mapping.items()}], line 105. *)
Definition reversed_fields_mapping (self : t) : dict string :=
  fold_left (fun acc kv => dict_set (snd kv) (fst kv) acc) self.(fields_mapping) [].

(** The inner loop of [map_to_registry], lines 108-114. *)
Fixpoint map_entry (self : t) (items : dict pyval) (mapped_entry : dict pyval)
  : dict pyval :=
  match items with
  | [] => mapped_entry
  | (k, v) :: rest =>
      if mem k self.(meta_fields) then map_entry self rest mapped_entry
      else
        let e1 := match dict_get k (reversed_fields_mapping self) with
                  | Some http_field => dict_set http_field v mapped_entry
                  | None => mapped_entry
                  end in
        let e2 := if mem k self.(special_fields) then dict_set k v e1 else e1 in
        map_entry self rest e2
  end.

(** [map_to_registry], lines 102-116; a record that is not a dict has no
    [items]. *)
Fixpoint map_to_registry (self : t) (graphql_data : list pyval)
  : result (list (dict pyval)) :=
  match graphql_data with
  | [] => Ok []
  | PDict next_record :: rest =>
      tl <- map_to_registry self rest ;;
      Ok (map_entry self next_record [] :: tl)
  | _ :: _ => Raise AttributeError
  end.

End DataMapper.

(** ** [class GQLPayloadTemplate] *)

Module GQLPayloadTemplate.

Fixpoint indent (n : nat) : string :=
  match n with
  | O => EmptyString
  | S n' => String " "%char (indent n')
  end.

(** One line of a template: its indentation, its text, a newline. *)
Definition line (n : nat) (text : string) : string := indent n ++ text ++ nl.

(** [" ".join(default_values.values())]: every value must be text. *)
Fixpoint texts (vs : list pyval) : result (list string) :=
  match vs with
  | [] => Ok []
  | PStr s :: rest => ss <- texts rest ;; Ok (s :: ss)
  | _ :: _ => Raise TypeError
  end.

(** [get_mutation], lines 120-140; [uuid4] is the text of the identifier
    that [uuid.uuid4()] generated for this call. *)
Definition get_mutation (uuid4 : string) (mutation_name arguments_with_values : string)
    (default_values : dict pyval) : result string :=
  default_values_str <-
    match default_values with
    | [] => Ok EmptyString
    | _ => ss <- texts (dict_values default_values) ;; Ok (str_join " " ss)
    end ;;
  Ok (nl
      ++ line 16 "mutation {"
      ++ line 20 (mutation_name ++ "(")
      ++ line 24 "input: {"
      ++ line 28 ("clientMutationId: " ++ dq ++ uuid4 ++ dq)
      ++ line 28 ("clientMutationLabel: " ++ dq ++ "GovStack Digital Registry BB Action" ++ dq)
      ++ line 28 arguments_with_values
      ++ line 28 default_values_str
      ++ line 24 "}"
      ++ line 20 ") {"
      ++ line 24 "clientMutationId"
      ++ line 24 "internalId"
      ++ line 20 "}"
      ++ line 16 "}"
      ++ indent 16).

(** [get_single_model_query], lines 142-156. *)
Definition get_single_model_query (query_name arguments_with_variables fetched_fields : string)
  : string :=
  nl
  ++ line 16 "query {"
  ++ line 20 (query_name ++ "(" ++ arguments_with_variables ++ ") {")
  ++ line 20 "totalCount"
  ++ line 20 "pageInfo { hasNextPage, endCursor }"
  ++ line 24 "edges{"
  ++ line 28 "cursor"
  ++ line 28 "node{"
  ++ line 32 fetched_fields
  ++ line 28 "}"
  ++ line 24 "}"
  ++ line 20 "}"
  ++ line 16 "}"
  ++ indent 16.

End GQLPayloadTemplate.

(** ** [class GQLPayloadBuilder] *)

Module GQLPayloadBuilder.

Record t : Type := {
  fields_mapping : dict string;
  special_fields : list string;
  default_values : dict string;
  id_field : string;
  gql_mapper : DataMapper.t
}.

(** [__init__], lines 162-169: the builder keeps a mapper of its own, made
    without [meta_fields]. *)
Definition init (mapper : DataMapper.t) (id_field : string) : t :=
  {| fields_mapping := DataMapper.fields_mapping mapper;
     special_fields := DataMapper.special_fields mapper;
     default_values := DataMapper.default_values mapper;
     id_field := id_field;
     gql_mapper := DataMapper.init (DataMapper.fields_mapping mapper)
                     (DataMapper.special_fields mapper)
                     (DataMapper.default_values mapper) None |}.

(** One turn of the loop of [create_arguments_with_values], lines 197-210:
    the text appended to [arguments]. *)
Definition argument (field : string) (value : pyval) : result string :=
  match String.eqb field "jsonExt", value with
  | true, PStr s =>
      Ok (field ++ ": " ++ dq ++ str_replace "034"%char (bsl ++ dq) s ++ dq)
  | _, _ =>
      if String.eqb field "id" then
        match value with
        | PStr s =>
            if str_isdigit s then
              n <- int_of_digits s ;; Ok (field ++ ": " ++ str_of_Z n)
            else Ok (field ++ ": " ++ dq ++ s ++ dq)
        | _ => Raise AttributeError
        end
      else
        match value with
        | PList _ => Ok (field ++ ": " ++ Json.dumps value)
        | _ => Ok (field ++ ": " ++ dq ++ py_str value ++ dq)
        end
  end.

Fixpoint arguments (mapped_data : dict pyval) : result (list string) :=
  match mapped_data with
  | [] => Ok []
  | (field, value) :: rest =>
      a <- argument field value ;; tl <- arguments rest ;; Ok (a :: tl)
  end.

(** [create_arguments_with_values], lines 193-211. *)
Definition create_arguments_with_values (mapped_data : dict pyval) : result string :=
  args <- arguments mapped_data ;; Ok (str_join ", " args).

(** [if n:] for an optional integer. *)
Definition given (n : option Z) : bool :=
  match n with
  | Some z => negb (z =? 0)
  | None => false
  end.

(** [if s:] for an optional text. *)
Definition given_text (s : option string) : bool :=
  match s with
  | Some t => negb (is_empty t)
  | None => false
  end.

Definition render (n : option Z) : string :=
  match n with
  | Some z => str_of_Z z
  | None => "None"
  end.

(** [page * page_size]: [None] as a factor raises [TypeError]. *)
Definition times (page page_size : option Z) : result Z :=
  match page, page_size with
  | Some p, Some s => Ok (p * s)
  | _, _ => Raise TypeError
  end.

(** Lines 177-188 of [build_list_query]: the value of
    [arguments_with_values] when the template is filled, from the mapped
    data. *)
Definition list_query_arguments (mapped_data0 : dict pyval)
    (ordering : option string) (page page_size : option Z) : result string :=
  let mapped_data := dict_del "jsonExt" mapped_data0 in
  a0 <- create_arguments_with_values mapped_data ;;
  let a1 := if given page_size then a0 ++ " first:" ++ render page_size else a0 in
  a2 <- (if given page
         then offset <- times page page_size ;; Ok (a1 ++ " offset: " ++ str_of_Z offset)
         else Ok a1) ;;
  match mapped_data with
  | (sort_field, _) :: _ =>
      if given_text ordering then
        let order_arg :=
          if match ordering with
             | Some o => String.eqb o "descending"
             | None => false
             end
          then dq ++ "-" ++ sort_field ++ dq
          else dq ++ sort_field ++ dq in
        Ok (a2 ++ " orderBy: [" ++ order_arg ++ "]")
      else Ok a2
  | [] => Ok a2
  end.

(** [build_list_query], lines 171-191. *)
Definition build_list_query (self : t) (query_name : string) (data : dict pyval)
    (ordering : option string) (page page_size : option Z) : result string :=
  mapped_data <- DataMapper.map_to_graphql self.(gql_mapper) data ;;
  let fetched_fields := str_join " " (dict_values self.(fields_mapping)) ++ " jsonExt" in
  arguments_with_values <- list_query_arguments mapped_data ordering page page_size ;;
  Ok (GQLPayloadTemplate.get_single_model_query query_name arguments_with_values
        fetched_fields).

(** [fill_payload_with_defaults], lines 224-235. *)
Definition fill_payload_with_defaults (self : t) (mapped_data : dict pyval)
  : dict pyval :=
  let adapted0 : dict pyval := map (fun kv => (fst kv, PStr (snd kv))) self.(default_values) in
  let adapted1 := dict_update adapted0 mapped_data in
  let adapted2 :=
    match dict_get "id" mapped_data with
    | Some i =>
        if dict_mem self.(id_field) adapted1 then adapted1
        else dict_set self.(id_field)
               (PStr (self.(id_field) ++ ": " ++ dq ++ py_str i ++ dq)) adapted1
    | None => adapted1
    end in
  fold_left (fun acc key => dict_del key acc) (dict_keys mapped_data) adapted2.

(** [build_mutation], lines 213-222. *)
Definition build_mutation (uuid4 : string) (self : t) (data_to_write : dict pyval)
    (mutation_name : string) (use_defaults : bool) : result string :=
  mapped_data <- DataMapper.map_to_graphql self.(gql_mapper) data_to_write ;;
  let default_data_values :=
    if use_defaults then fill_payload_with_defaults self mapped_data else [] in
  arguments_with_values <- create_arguments_with_values mapped_data ;;
  GQLPayloadTemplate.get_mutation uuid4 mutation_name arguments_with_values
    default_data_values.

(** Lines 247-252 of [build_record_query]: the value of
    [arguments_with_values] when the template is filled, from the mapped
    data after the identifier key was renamed. *)
Definition record_query_arguments (mapped_data0 : dict pyval)
    (after_cursor : option string) (first : option Z) : result string :=
  let mapped_data := dict_del "jsonExt" mapped_data0 in
  a0 <- create_arguments_with_values mapped_data ;;
  let a1 := if given first then a0 ++ " first:" ++ render first else a0 in
  Ok (match after_cursor with
      | Some c => if is_empty c then a1 else "after: " ++ c
      | None => a1
      end).

(** Lines 241-246 of [build_record_query]. *)
Definition record_fetched_fields (self : t) (fetched_fields : pyval) : result string :=
  if negb (truthy fetched_fields) then
    let default_fetched_fields :=
      (map snd (filter (fun kv => negb (String.eqb (fst kv) "uuid")) self.(fields_mapping))
         ++ [" jsonExt"])%list in
    Ok (str_join " " default_fetched_fields)
  else
    match fetched_fields with
    | PList l => ss <- GQLPayloadTemplate.texts l ;; Ok (str_join ", " ss)
    | _ => Ok (py_str fetched_fields)
    end.

(** Lines 239-240 of [build_record_query]: the generic [id] key takes the
    name of the identifier field when that name is not a key already. *)
Definition rename_id (self : t) (mapped_data : dict pyval) : dict pyval :=
  match dict_get "id" mapped_data with
  | Some i =>
      if dict_mem self.(id_field) mapped_data then mapped_data
      else dict_set self.(id_field) i (dict_del "id" mapped_data)
  | None => mapped_data
  end.

(** [build_record_query], lines 237-255. *)
Definition build_record_query (self : t) (query_name : string) (data : dict pyval)
    (after_cursor : option string) (fetched_fields : pyval) (first : option Z)
  : result string :=
  mapped_data <- DataMapper.map_to_graphql self.(gql_mapper) data ;;
  let mapped_data' := rename_id self mapped_data in
  fields <- record_fetched_fields self fetched_fields ;;
  arguments_with_values <- record_query_arguments mapped_data' after_cursor first ;;
  Ok (GQLPayloadTemplate.get_single_model_query query_name arguments_with_values fields).

End GQLPayloadBuilder.

(** ** [class RegistryGQLManager] and its collaborators *)

(** Modelled from the spec: the status of a [MutationLog] of [core.models],
    which is not part of this repository; the spec's MutationCorrelation has
    the statuses Pending, Success and Error. *)
Inductive mutation_status : Type := Pending | Success | Error.

(** What the manager reads of a [MutationLog]. *)
Record MutationLog : Type := {
  status : mutation_status;
  error : pyval
}.

Definition is_error (s : mutation_status) : bool :=
  match s with Error => true | _ => false end.

(** [RegistryGQLManagerActionResult], lines 263-266. *)
Record RegistryGQLManagerActionResult : Type := {
  success : Z;
  data : pyval
}.

(** The calls a manager makes to its collaborators. *)
Inductive event : Type :=
| Executed (query : string)
| LookedUp (client_mutation_id : pyval).

(** A computation that may call collaborators: from the calls made so far to
    the calls made afterwards and the outcome. *)
Definition io (A : Type) : Type := list event -> list event * result A.

Definition io_ret {A : Type} (a : A) : io A := fun tr => (tr, Ok a).
Definition io_raise {A : Type} (e : exn) : io A := fun tr => (tr, Raise e).
Definition io_lift {A : Type} (r : result A) : io A := fun tr => (tr, r).

Definition io_bind {A B : Type} (m : io A) (k : A -> io B) : io B :=
  fun tr =>
    match m tr with
    | (tr', Ok a) => k a tr'
    | (tr', Raise e) => (tr', Raise e)
    end.

Notation "x <~ m ;; k" := (io_bind m (fun x => k))
  (at level 61, m at next level, right associativity).

Definition run {A : Type} (m : io A) : list event * result A := m [].

(** The outcome of a call that may also raise [KeyError], with the missing
    key. *)
Inductive outcome (A : Type) : Type :=
| Returned (a : A)
| Raised (e : exn)
| RaisedKeyError (key : string).

Arguments Returned {A} a.
Arguments Raised {A} e.
Arguments RaisedKeyError {A} key.

Definition outcome_bind {A B : Type} (m : outcome A) (k : A -> outcome B) : outcome B :=
  match m with
  | Returned a => k a
  | Raised e => Raised e
  | RaisedKeyError key => RaisedKeyError key
  end.

Notation "x <-? m ;; k" := (outcome_bind m (fun x => k))
  (at level 61, m at next level, right associativity).

(** [v[k]] for a text key: a dict without the key raises [KeyError], any other
    value raises [TypeError]. *)
Definition py_getitem (v : pyval) (k : string) : outcome pyval :=
  match v with
  | PDict d =>
      match dict_get k d with
      | Some x => Returned x
      | None => RaisedKeyError k
      end
  | _ => Raised TypeError
  end.

Module RegistryGQLManager.

Record t : Type := {
  qgl_mapper : DataMapper.t;
  payload_builder : GQLPayloadBuilder.t
}.

(** [__init__], lines 270-273; the client is the parameter [execute_query]
    below. *)
Definition init (qgl_mapper : DataMapper.t) (id_field : string) : t :=
  {| qgl_mapper := qgl_mapper;
     payload_builder := GQLPayloadBuilder.init qgl_mapper id_field |}.

Section Collaborators.

(** [GrapheneClient.execute_query]: the parsed response, or the exception
    the client raised. *)
Variable execute_query : string -> result pyval.

(** [MutationLog.objects.filter(client_mutation_id=...).first()] *)
Variable mutation_log_first : pyval -> option MutationLog.

(** The text of the [uuid.uuid4()] of this call. *)
Variable uuid4 : string.

Definition client_execute_query (query : string) : io pyval :=
  fun tr => ((tr ++ [Executed query])%list, execute_query query).

Definition mutation_log_lookup (client_mutation_id : pyval) : io (option MutationLog) :=
  fun tr => ((tr ++ [LookedUp client_mutation_id])%list,
             Ok (mutation_log_first client_mutation_id)).

(** The message of lines 284-285. *)
Definition invalid_mutation_data (mutation_result : pyval) : string :=
  "Invalid mutation data, expected to get data.clientMutationId, mutation result:"
    ++ nl ++ py_str mutation_result.

(** Line 281. *)
Definition get_client_mutation_id (mutation_result : pyval) (mutation_name : string)
  : result pyval :=
  d <- py_get mutation_result "data" (PDict []) ;;
  m <- py_get d mutation_name (PDict []) ;;
  py_get m "clientMutationId" PNone.

(** Lines 278-291 of [mutate_registry_record]: what follows the execution
    of the query. *)
Definition resolve_mutation (mutation_name : string) (mutation_result : pyval)
  : io RegistryGQLManagerActionResult :=
  errors <~ io_lift (py_get mutation_result "errors" PNone) ;;
  if truthy errors then io_raise (MutationError errors)
  else
    client_mutation_id <~ io_lift (get_client_mutation_id mutation_result mutation_name) ;;
    if negb (truthy client_mutation_id) then
      io_raise (MutationError (PStr (invalid_mutation_data mutation_result)))
    else
      mutation_log <~ mutation_log_lookup client_mutation_id ;;
      match mutation_log with
      | None => io_raise AttributeError
      | Some log =>
          if is_error (status log) then io_raise (MutationError (error log))
          else io_ret {| success := 1; data := PNone |}
      end.

(** [mutate_registry_record], lines 275-291. *)
Definition mutate_registry_record (self : t) (mutation_name : string)
    (data : dict pyval) (use_defaults : bool) : io RegistryGQLManagerActionResult :=
  query <~ io_lift (GQLPayloadBuilder.build_mutation uuid4 self.(payload_builder)
                      data mutation_name use_defaults) ;;
  mutation_result <~ client_execute_query query ;;
  resolve_mutation mutation_name mutation_result.

(** [result['data'][query_name]['totalCount']], lines 315 and 318. *)
Definition total_count (result_ : pyval) (query_name : string) : outcome pyval :=
  d <-? py_getitem result_ "data" ;;
  c <-? py_getitem d query_name ;;
  py_getitem c "totalCount".

(** [result['data'][query_name]['pageInfo']['hasNextPage']], line 319. *)
Definition has_next_page (result_ : pyval) (query_name : string) : outcome pyval :=
  d <-? py_getitem result_ "data" ;;
  c <-? py_getitem d query_name ;;
  i <-? py_getitem c "pageInfo" ;;
  py_getitem i "hasNextPage".

(** Lines 304-313 of [retrieve_filtered_records]: the response and the
    records mapped back. *)
Definition fetch_filtered (self : t) (data : dict pyval) (query_name : string)
    (page page_size : option Z) (ordering : option string)
  : io (pyval * list (dict pyval)) :=
  query <~ io_lift (GQLPayloadBuilder.build_list_query self.(payload_builder)
                      query_name data ordering page page_size) ;;
  result_ <~ client_execute_query query ;;
  extracted_records <~ io_lift (DataConverterUtils.extract_records result_ query_name) ;;
  entries <~ io_lift (DataMapper.map_to_registry self.(qgl_mapper) extracted_records) ;;
  io_ret (result_, entries).

(** [retrieve_filtered_records], lines 293-320.  The dict [response_data] of
    the source is filled and never read; its line 315 evaluates the count
    once more, before the result is built. *)
Definition retrieve_filtered_records (self : t) (data : dict pyval) (query_name : string)
    (page page_size : option Z) (ordering : option string)
  : list event * outcome RegistryGQLManagerActionResult :=
  match run (fetch_filtered self data query_name page page_size ordering) with
  | (tr, Raise e) => (tr, Raised e)
  | (tr, Ok (result_, entries)) =>
      (tr,
       _ <-? total_count result_ query_name ;;
       count <-? total_count result_ query_name ;;
       next <-? has_next_page result_ query_name ;;
       Returned {| success := 1;
                   data := PDict [("entries", PList (map PDict entries));
                                  ("count", count);
                                  ("has_next_page", next)] |})
  end.

(** [get_record], lines 322-341; [first] is given by the caller. *)
Definition get_record (self : t) (data : dict pyval) (query_name : string)
    (fetched_fields : pyval) (only_first : bool) (after_cursor : option string)
    (first : option Z) (skip_mapping : bool) : io RegistryGQLManagerActionResult :=
  query <~ io_lift (GQLPayloadBuilder.build_record_query self.(payload_builder)
                      query_name data after_cursor fetched_fields first) ;;
  result_ <~ client_execute_query query ;;
  extracted_records <~ io_lift (DataConverterUtils.extract_records result_ query_name) ;;
  records <~ io_lift (if skip_mapping then Ok extracted_records
                      else entries <- DataMapper.map_to_registry self.(qgl_mapper)
                                        extracted_records ;;
                           Ok (map PDict entries)) ;;
  match only_first, records with
  | true, r :: _ => io_ret {| success := 1; data := r |}
  | _, _ => io_ret {| success := 1; data := PList records |}
  end.

End Collaborators.

End RegistryGQLManager.

(** ** [class UpdateOrCreateRecordView] *)

Module UpdateOrCreateRecordView.

(** A [rest_framework] response: its body, if any, and its status. *)
Record Response : Type := {
  body : option pyval;
  status_code : Z
}.

Section Collaborators.

(** [CombinedValidatorSerializer(data=...)]: [Some data] when [is_valid()],
    with the serializer's [data]. *)
Variable validate : pyval -> option pyval.

(** [create_or_update_record_controller]: the status code and the record. *)
Variable create_or_update_record_controller :
  pyval -> pyval -> string -> string -> Z * pyval.

(** [post], lines 20-30 of [update_or_create_record_view.py]; the second
    component tells whether the controller was called. *)
Definition post (request : pyval) (registryname versionnumber : string)
  : Response * bool :=
  match validate request with
  | Some serializer_data =>
      let (code, registry_record) :=
        create_or_update_record_controller request serializer_data registryname
          versionnumber in
      if code =? 200
      then ({| body := Some registry_record; status_code := 200 |}, true)
      else ({| body := Some serializer_data; status_code := code |}, true)
  | None => ({| body := None; status_code := 400 |}, false)
  end.

End Collaborators.

End UpdateOrCreateRecordView.

(** ** Definitions used by the statements and proofs below *)

(** Every byte, in order. *)
Definition all_bytes : list byte := map (fun n => byte_ofZ (Z.of_nat n)) (seq 0 256).

(** The six-bit values, in order. *)
Definition all_sextets : list Z := map Z.of_nat (seq 0 64).

(** The text whose characters have the codes [bs]. *)
Definition ascii_text (bs : list byte) : string :=
  string_of_list_ascii (map ascii_of_byte bs).

Definition is_ascii_byte (b : byte) : bool := byteZ b <? 128.

Fixpoint bytes_eqb (l1 l2 : list byte) : bool :=
  match l1, l2 with
  | [], [] => true
  | x :: l1', y :: l2' => Byte.eqb x y && bytes_eqb l1' l2'
  | _, _ => false
  end.

(** [r] is the result [Ok expected]. *)
Definition returns_bytes (r : result (list byte)) (expected : list byte) : bool :=
  match r with
  | Ok l => bytes_eqb l expected
  | Raise _ => false
  end.

(** The pieces of a base64 quad, as [Base64.b2a_base64] computes them. *)
Definition sextet1 (x : byte) : Z := Z.shiftr (byteZ x) 2.
Definition sextet2 (x y : byte) : Z :=
  Z.lor (Z.shiftl (Z.land (byteZ x) 3) 4) (Z.shiftr (byteZ y) 4).
Definition sextet3 (y z : byte) : Z :=
  Z.lor (Z.shiftl (Z.land (byteZ y) 15) 2) (Z.shiftr (byteZ z) 6).
Definition sextet4 (z : byte) : Z := Z.land (byteZ z) 63.

Definition is_sextet (v : Z) : bool := (0 <=? v) && (v <? 64).

(** A list of names without repetition. *)
Fixpoint distinct (l : list string) : bool :=
  match l with
  | [] => true
  | x :: l' => negb (mem x l') && distinct l'
  end.

(** [http_field] is a mapped, special or meta field name of [self]: one of the
    three branches of [map_to_graphql] takes it. *)
Definition allowed (self : DataMapper.t) (http_field : string) : bool :=
  dict_mem http_field (DataMapper.fields_mapping self)
  || mem http_field (DataMapper.special_fields self)
  || mem http_field (DataMapper.meta_fields self).

(** The first field name of a record that is not allowed. *)
Definition first_unsupported (self : DataMapper.t) (record : dict pyval) : option string :=
  find (fun k => negb (allowed self k)) (dict_keys record).

(** The name under which [map_to_graphql] stores a field that is mapped or
    meta: the mapped name when there is one, the field name itself
    otherwise. *)
Definition forward_key (self : DataMapper.t) (http_field : string) : string :=
  match dict_get http_field (DataMapper.fields_mapping self) with
  | Some graphql_field => graphql_field
  | None => http_field
  end.

Definition forward_image (self : DataMapper.t) (record : dict pyval) : dict pyval :=
  map (fun kv => (forward_key self (fst kv), snd kv)) record.

(** The fields of a record whose names are mapped. *)
Definition mapped_part (self : DataMapper.t) (record : dict pyval) : dict pyval :=
  filter (fun kv => dict_mem (fst kv) (DataMapper.fields_mapping self)) record.

(** A field name that is mapped, or meta and not special: the fields C4 is
    about. *)
Definition mapped_or_meta (self : DataMapper.t) (http_field : string) : bool :=
  dict_mem http_field (DataMapper.fields_mapping self)
  || (mem http_field (DataMapper.meta_fields self)
      && negb (mem http_field (DataMapper.special_fields self))).

(** A mapped name that is neither a meta nor a special name. *)
Definition plain_target (self : DataMapper.t) (graphql_field : string) : bool :=
  negb (mem graphql_field (DataMapper.meta_fields self))
  && negb (mem graphql_field (DataMapper.special_fields self)).

Definition swap (kv : string * string) : string * string := (snd kv, fst kv).

(** The mapper, the input record of the spec's examples and the two mappers
    that accept its [id] field. *)
Definition example_mapper : DataMapper.t :=
  DataMapper.init [("name", "firstName")] ["note"] [] None.





(** The three arguments of the spec's example, as GraphQL text:
    [firstName: "Jo"], [id: 5] and [jsonExt: "{\"note\": \"hi\"}"]. *)
Definition example_firstName_argument : string := "firstName: " ++ dq ++ "Jo" ++ dq.


Definition is_list (v : pyval) : bool :=
  match v with PList _ => true | _ => false end.

Definition is_text (v : pyval) : bool :=
  match v with PStr _ => true | _ => false end.

(** The three arguments the list query builder appends, each as the spec
    words it; [list_query_arguments] is compared with them below. *)
Definition first_argument (page_size : option Z) : string :=
  match page_size with
  | Some s => if s =? 0 then EmptyString else " first:" ++ str_of_Z s
  | None => EmptyString
  end.

Definition offset_argument (page page_size : option Z) : result string :=
  match page with
  | Some p =>
      if p =? 0 then Ok EmptyString
      else match page_size with
           | Some s => Ok (" offset: " ++ str_of_Z (p * s))
           | None => Raise TypeError
           end
  | None => Ok EmptyString
  end.

Definition order_argument (mapped_data : dict pyval) (ordering : option string) : string :=
  match mapped_data, ordering with
  | (sort_field, _) :: _, Some o =>
      if is_empty o then EmptyString
      else if String.eqb o "descending"
           then " orderBy: [" ++ dq ++ "-" ++ sort_field ++ dq ++ "]"
           else " orderBy: [" ++ dq ++ sort_field ++ dq ++ "]"
  | _, _ => EmptyString
  end.

(** The mapped data of the spec's ordering examples: [{"firstName": "Jo"}]. *)
Definition example_mapped : dict pyval := [("firstName", PStr "Jo")].

Definition example_order_descending : string := "orderBy: [" ++ dq ++ "-firstName" ++ dq ++ "]".
Definition example_order_ascending : string := "orderBy: [" ++ dq ++ "firstName" ++ dq ++ "]".

(** [v] is a blank extension blob: [record.get('jsonExt')] is false. *)
Definition blank (record : dict pyval) : bool :=
  match dict_get "jsonExt" record with
  | Some blob => negb (truthy blob)
  | None => true
  end.

(** An extension blob that has a key named like the blob field:
    [{"jsonExt": "again", "b": 2}]. *)
Definition example_blob_with_own_key : string :=
  "{" ++ dq ++ "jsonExt" ++ dq ++ ": " ++ dq ++ "again" ++ dq ++ ", "
      ++ dq ++ "b" ++ dq ++ ": 2}".

(** The blob of the record [{"note": "hi"}]. *)
Definition example_blob : string :=
  "{" ++ dq ++ "note" ++ dq ++ ": " ++ dq ++ "hi" ++ dq ++ "}".

(** A connection-shaped response with the given edges. *)
Definition connection (query_name : string) (edges : list pyval) : pyval :=
  PDict [("data", PDict [(query_name, PDict [("edges", PList edges)])])].

(** A manager for the example mapper, a record it accepts, the document its
    builder renders for it with the uuid [example_uuid], and responses of the
    client. *)
Definition example_manager : RegistryGQLManager.t := RegistryGQLManager.init example_mapper "id".
Definition example_record : dict pyval := [("name", PStr "Jo")].
Definition example_uuid : string := "0b5c8f1e-7a50-4c7e-9a53-1f2e3d4c5b6a".

Definition example_document : string :=
  match GQLPayloadBuilder.build_mutation example_uuid
          (RegistryGQLManager.payload_builder example_manager) example_record
          "createInsuree" true with
  | Ok document => document
  | Raise _ => EmptyString
  end.

(** [{"data": {"createInsuree": {"clientMutationId": uuid, "internalId": "1"}}}] *)
Definition response_accepted : pyval :=
  PDict [("data", PDict [("createInsuree",
                          PDict [("clientMutationId", PStr example_uuid);
                                 ("internalId", PStr "1")])])].

(** [{"errors": [{"message": "denied"}], "data": {"createInsuree": null}}] *)
Definition response_errors : pyval :=
  PDict [("errors", PList [PDict [("message", PStr "denied")]]);
         ("data", PDict [("createInsuree", PNone)])].

(** [{"data": {}}] *)
Definition response_without_id : pyval := PDict [("data", PDict [])].

Definition log_success : MutationLog := {| status := Success; error := PNone |}.
Definition log_pending : MutationLog := {| status := Pending; error := PNone |}.
Definition log_error : MutationLog := {| status := Error; error := PStr "duplicate insuree" |}.

Definition action_success : RegistryGQLManagerActionResult := {| success := 1; data := PNone |}.

(** ** Definitions used by the further properties *)

(** The number of occurrences of [c] in [s]. *)
Fixpoint count_char (c : ascii) (s : string) : nat :=
  match s with
  | EmptyString => O
  | String a s' => if Ascii.eqb a c then S (count_char c s') else count_char c s'
  end.

(** The text [encode_id] stores for the identifier text [s]. *)
Definition encoded (s : string) : string :=
  ascii_text (Base64.b64encode (str_encode s)).

(** A field name that only the special branch of [map_to_graphql] takes. *)
Definition special_only (self : DataMapper.t) (http_field : string) : bool :=
  negb (dict_mem http_field (DataMapper.fields_mapping self))
  && mem http_field (DataMapper.special_fields self).

Definition special_part (self : DataMapper.t) (record : dict pyval) : dict pyval :=
  filter (fun kv => special_only self (fst kv)) record.

Definition plain_part (self : DataMapper.t) (record : dict pyval) : dict pyval :=
  filter (fun kv => negb (special_only self (fst kv))) record.

(** Line 98-99 of [map_to_graphql]: the blob of the special fields is attached
    when there are any. *)
Definition attach_json_ext (json_ext mapped_data : dict pyval) : dict pyval :=
  match json_ext with
  | [] => mapped_data
  | _ => dict_set "jsonExt" (PStr (Json.dumps (PDict json_ext))) mapped_data
  end.

Definition is_dict (v : pyval) : bool :=
  match v with PDict _ => true | _ => false end.

(** The data of the result of [retrieve_filtered_records]. *)
Definition page_data (entries : list (dict pyval)) (count next : pyval) : pyval :=
  PDict [("entries", PList (map PDict entries)); ("count", count); ("has_next_page", next)].

(** What [get_record] returns for the records it read. *)
Definition record_data (only_first : bool) (records : list pyval) : pyval :=
  match only_first, records with
  | true, r :: _ => r
  | _, _ => PList records
  end.

(** A page of one insuree, as the backend returns it:
    [{"data": {"insurees": {"totalCount": 1, "pageInfo": {"hasNextPage": false},
    "edges": [{"node": {"firstName": "Jo", "uuid": "u1"}}]}}}]. *)
Definition response_page : pyval :=
  PDict [("data",
          PDict [("insurees",
                  PDict [("totalCount", PInt 1);
                         ("pageInfo", PDict [("hasNextPage", PBool false)]);
                         ("edges",
                          PList [PDict [("node", PDict [("firstName", PStr "Jo");
                                                        ("uuid", PStr "u1")])]])])])].

Definition example_list_query : string :=
  match GQLPayloadBuilder.build_list_query (RegistryGQLManager.payload_builder example_manager)
          "insurees" example_record None None None with
  | Ok document => document
  | Raise _ => EmptyString
  end.

Definition example_record_query : string :=
  match GQLPayloadBuilder.build_record_query
          (RegistryGQLManager.payload_builder example_manager)
          "insurees" example_record None PNone (Some 10) with
  | Ok document => document
  | Raise _ => EmptyString
  end.

(** A value all of whose dicts have distinct keys, as the dicts of Python
    do. *)
Fixpoint well_formed (v : pyval) : bool :=
  match v with
  | PList l => forallb well_formed l
  | PDict d => distinct (map fst d) && forallb (fun kv => well_formed (snd kv)) d
  | _ => true
  end.

(** A bound on the depth of the calls that scanning the JSON text of [v]
    makes. *)
Fixpoint weight (v : pyval) : nat :=
  match v with
  | PList l => S (list_sum (map (fun x => S (weight x)) l))
  | PDict d => S (list_sum (map (fun kv => S (weight (snd kv))) d))
  | _ => 1%nat
  end.

(** Text that may follow a value inside JSON text: nothing, a comma or a
    closing bracket. *)
Definition follows (rest : string) : bool :=
  match rest with
  | EmptyString => true
  | String c _ => (code c =? 44) || (code c =? 93) || (code c =? 125)
  end.

(** One member of a JSON object, as [json.dumps] writes it. *)
Definition member_text (kv : string * pyval) : string :=
  Json.encode_str (fst kv) ++ ": " ++ Json.dumps (snd kv).

(** What follows the first element of a JSON array, and the first member of a
    JSON object, in the text [json.dumps] writes. *)
Definition elements_tail (l : list pyval) (rest : string) : string :=
  match l with
  | [] => "]" ++ rest
  | _ => ", " ++ str_join ", " (map Json.dumps l) ++ "]" ++ rest
  end.

Definition members_tail (d : dict pyval) (rest : string) : string :=
  match d with
  | [] => "}" ++ rest
  | _ => ", " ++ str_join ", " (map member_text d) ++ "}" ++ rest
  end.

(** The text of a member after its opening quote. *)
Definition member_after_quote (kv : string * pyval) (tail : string) : string :=
  str_flat_map Json.escape_char (fst kv) ++ dq ++ ": " ++ Json.dumps (snd kv) ++ tail.

(** Text that starts with a character that is neither white space nor a
    closing bracket. *)
Definition starts_value (s : string) : bool :=
  match s with
  | EmptyString => false
  | String c _ => negb (Json.is_ws c) && negb (code c =? 93)
  end.

(** * Properties *)

(** ** Strings *)

Lemma str_app_assoc (a b c : string) : (a ++ b) ++ c = a ++ (b ++ c).
Proof. induction a as [|x a IH]; simpl; [reflexivity | now rewrite IH]. Qed.

Lemma str_app_nil_r (a : string) : a ++ EmptyString = a.
Proof. induction a as [|x a IH]; simpl; [reflexivity | now rewrite IH]. Qed.

Lemma contains_refl (s : string) : contains s s.
Proof. exists EmptyString, EmptyString. simpl. now rewrite str_app_nil_r. Qed.

Lemma contains_app_l (p a b : string) : contains p a -> contains p (a ++ b).
Proof.
  intros (pre & post & ->). exists pre, (post ++ b).
  now rewrite !str_app_assoc.
Qed.

Lemma contains_app_r (p a b : string) : contains p b -> contains p (a ++ b).
Proof.
  intros (pre & post & ->). exists (a ++ pre), post.
  now rewrite !str_app_assoc.
Qed.


Lemma is_prefix_app (p s : string) : is_prefix p (p ++ s) = true.
Proof.
  induction p as [|c p IH]; simpl; [reflexivity|].
  now rewrite Ascii.eqb_refl, IH.
Qed.

Lemma is_prefix_inv (p s : string) :
  is_prefix p s = true -> exists post, s = p ++ post.
Proof.
  revert s. induction p as [|c p IH]; intros s H; simpl in *.
  - now exists s.
  - destruct s as [|d s]; [discriminate|].
    apply andb_true_iff in H as [Hc Hp]. apply Ascii.eqb_eq in Hc as ->.
    destruct (IH _ Hp) as [post ->]. now exists post.
Qed.

Lemma is_substring_unfold (p s : string) :
  is_substring p s =
  is_prefix p s || match s with EmptyString => false | String _ s' => is_substring p s' end.
Proof. destruct s; reflexivity. Qed.

(** [is_substring] decides [contains]. *)
Lemma contains_iff (p s : string) : contains p s <-> is_substring p s = true.
Proof.
  split.
  - intros (pre & post & ->). induction pre as [|c pre IH].
    + simpl. rewrite is_substring_unfold, is_prefix_app. reflexivity.
    + change (String c pre ++ p ++ post) with (String c (pre ++ p ++ post)).
      rewrite is_substring_unfold, IH. apply orb_true_r.
  - induction s as [|c s IH]; rewrite is_substring_unfold; intros H.
    + rewrite orb_false_r in H. destruct (is_prefix_inv _ _ H) as [post ->].
      exists EmptyString, post. reflexivity.
    + apply orb_true_iff in H as [H|H].
      * destruct (is_prefix_inv _ _ H) as [post ->]. exists EmptyString, post. reflexivity.
      * destruct (IH H) as (pre & post & ->). exists (String c pre), post. reflexivity.
Qed.

Lemma not_contains (p s : string) : is_substring p s = false -> ~ contains p s.
Proof. intros H C. apply contains_iff in C. congruence. Qed.

Lemma str_split_head (c : ascii) (s : string) :
  exists w ws, str_split c s = w :: ws.
Proof.
  induction s as [|a s (w & ws & IH)]; simpl; [now eexists _, _|].
  destruct (Ascii.eqb a c); [now eexists _, _|]. rewrite IH. now eexists _, _.
Qed.

(** Text without the separator is one piece. *)
Lemma str_split_none (c : ascii) (s : string) :
  has_char c s = false -> str_split c s = [s].
Proof.
  induction s as [|a s IH]; simpl; intros H; [reflexivity|].
  unfold has_char in *. simpl in H. apply orb_false_iff in H as [Ha Hs].
  rewrite Ascii.eqb_sym, Ha, (IH Hs). reflexivity.
Qed.

(** The first separator ends the first piece. *)
Lemma str_split_app (c : ascii) (t r : string) :
  has_char c t = false ->
  str_split c (t ++ String c r) = t :: str_split c r.
Proof.
  induction t as [|a t IH]; simpl; intros H.
  - now rewrite Ascii.eqb_refl.
  - unfold has_char in *. simpl in H. apply orb_false_iff in H as [Ha Ht].
    rewrite Ascii.eqb_sym, Ha, (IH Ht). reflexivity.
Qed.

(** ** Bytes, UTF-8 and Base64 *)

Lemma list_ind3 {A : Type} (P : list A -> Prop) :
  P [] ->
  (forall x, P [x]) ->
  (forall x y, P [x; y]) ->
  (forall x y z l, P l -> P (x :: y :: z :: l)) ->
  forall l, P l.
Proof.
  intros H0 H1 H2 H3 l.
  assert (H : P l /\ (forall x, P (x :: l)) /\ (forall x y, P (x :: y :: l))).
  { induction l as [|a l (IH0 & IH1 & IH2)].
    - repeat split; auto.
    - repeat split; auto. }
  apply H.
Qed.

Lemma in_all_bytes (b : byte) : In b all_bytes.
Proof.
  assert (H : existsb (Byte.eqb b) all_bytes = true) by (destruct b; vm_compute; reflexivity).
  apply existsb_exists in H as (x & Hin & Heq).
  apply byte_dec_bl in Heq. now subst.
Qed.

Lemma forall_bytes (P : byte -> bool) :
  forallb P all_bytes = true -> forall b, P b = true.
Proof. intros H b. exact (proj1 (forallb_forall P all_bytes) H b (in_all_bytes b)). Qed.

Lemma forall_bytes2 (P : byte -> byte -> bool) :
  forallb (fun x => forallb (P x) all_bytes) all_bytes = true ->
  forall x y, P x y = true.
Proof. intros H x y. apply forall_bytes. apply (forall_bytes _ H x). Qed.

Lemma in_all_sextets (v : Z) : is_sextet v = true -> In v all_sextets.
Proof.
  unfold is_sextet, all_sextets. intros H.
  apply andb_true_iff in H as [H0 H1].
  apply Z.leb_le in H0. apply Z.ltb_lt in H1.
  rewrite <- (Z2Nat.id v) by assumption.
  apply in_map, in_seq. lia.
Qed.

Lemma forall_sextets (P : Z -> bool) :
  forallb P all_sextets = true -> forall v, is_sextet v = true -> P v = true.
Proof.
  intros H v Hv. exact (proj1 (forallb_forall P all_sextets) H v (in_all_sextets v Hv)).
Qed.

(** A boolean property of one byte, of two bytes or of a six-bit value holds
    once it is computed on all of them. *)
Ltac by_bytes P := apply (forall_bytes P); vm_compute; reflexivity.
Ltac by_bytes2 P := apply (forall_bytes2 P); vm_compute; reflexivity.
Ltac by_sextets P H := apply (forall_sextets P); [vm_compute; reflexivity | exact H].

Lemma bytes_eqb_eq (l1 l2 : list byte) : bytes_eqb l1 l2 = true -> l1 = l2.
Proof.
  revert l2. induction l1 as [|x l1 IH]; destruct l2 as [|y l2]; simpl; try discriminate.
  - reflexivity.
  - intros H. apply andb_true_iff in H as [Hx Hl].
    apply byte_dec_bl in Hx. rewrite (IH _ Hl). now subst.
Qed.

Lemma returns_bytes_eq (r : result (list byte)) (l : list byte) :
  returns_bytes r l = true -> r = Ok l.
Proof.
  destruct r as [l'|e]; simpl; [|discriminate].
  intros H. now rewrite (bytes_eqb_eq _ _ H).
Qed.

Lemma chr_byteZ (b : byte) : chr (byteZ b) = ascii_of_byte b.
Proof. destruct b; reflexivity. Qed.

Lemma code_ascii_of_byte (b : byte) : code (ascii_of_byte b) = byteZ b.
Proof. destruct b; reflexivity. Qed.

(** *** UTF-8: decoding inverts encoding *)

Lemma bytes_decode_utf8_char (c : ascii) (rest : list byte) :
  bytes_decode (utf8_char c ++ rest)%list
  = (s <- bytes_decode rest ;; Ok (String c s)).
Proof.
  destruct c as [[] [] [] [] [] [] [] []]; reflexivity.
Qed.

Lemma bytes_decode_encode (s : string) : bytes_decode (str_encode s) = Ok s.
Proof.
  induction s as [|c s IH]; [reflexivity|].
  simpl str_encode. rewrite bytes_decode_utf8_char, IH. reflexivity.
Qed.

(** *** ASCII bytes decode to the text of the same codes *)

Lemma bytes_decode_ascii (bs : list byte) :
  forallb is_ascii_byte bs = true -> bytes_decode bs = Ok (ascii_text bs).
Proof.
  induction bs as [|b bs IH]; [reflexivity|].
  simpl forallb. intros H. apply andb_true_iff in H as [Hb Hbs].
  unfold is_ascii_byte in Hb. simpl bytes_decode. rewrite Hb, (IH Hbs).
  simpl. now rewrite chr_byteZ.
Qed.

Lemma ascii_text_is_ascii (bs : list byte) :
  forallb is_ascii_byte bs = true ->
  str_forallb (fun c => code c <? 128) (ascii_text bs) = true.
Proof.
  induction bs as [|b bs IH]; [reflexivity|].
  simpl. intros H. apply andb_true_iff in H as [Hb Hbs].
  rewrite code_ascii_of_byte. unfold is_ascii_byte in Hb. rewrite Hb. exact (IH Hbs).
Qed.

Lemma bytes_of_ascii_text (bs : list byte) :
  map byte_of_ascii (list_ascii_of_string (ascii_text bs)) = bs.
Proof.
  unfold ascii_text. rewrite list_ascii_of_string_of_list_ascii, map_map.
  induction bs as [|b bs IH]; simpl; [reflexivity|].
  now rewrite byte_of_ascii_of_byte, IH.
Qed.

(** *** Base64: the tables *)

Lemma b2a_not_pad (v : Z) : is_sextet v = true -> (byteZ (Base64.b2a v) =? 61) = false.
Proof.
  intros H. apply negb_true_iff.
  by_sextets (fun v => negb (byteZ (Base64.b2a v) =? 61)) H.
Qed.

Lemma a2b_b2a (v : Z) : is_sextet v = true -> Base64.a2b (Base64.b2a v) = Some v.
Proof.
  intros H.
  assert (E : match Base64.a2b (Base64.b2a v) with Some w => w =? v | None => false end = true).
  { by_sextets
      (fun v => match Base64.a2b (Base64.b2a v) with Some w => w =? v | None => false end) H. }
  destruct (Base64.a2b (Base64.b2a v)) as [w|]; [|discriminate].
  apply Z.eqb_eq in E. now subst.
Qed.

Lemma b2a_is_ascii (v : Z) : is_sextet v = true -> is_ascii_byte (Base64.b2a v) = true.
Proof.
  intros H. by_sextets (fun v => is_ascii_byte (Base64.b2a v)) H.
Qed.

Lemma sextet1_range (x : byte) : is_sextet (sextet1 x) = true.
Proof. by_bytes (fun x => is_sextet (sextet1 x)). Qed.

Lemma sextet4_range (z : byte) : is_sextet (sextet4 z) = true.
Proof. by_bytes (fun z => is_sextet (sextet4 z)). Qed.

Lemma sextet2_range (x y : byte) : is_sextet (sextet2 x y) = true.
Proof. by_bytes2 (fun x y => is_sextet (sextet2 x y)). Qed.

Lemma sextet3_range (y z : byte) : is_sextet (sextet3 y z) = true.
Proof. by_bytes2 (fun y z => is_sextet (sextet3 y z)). Qed.

(** *** Base64: the three bytes of a quad *)

Lemma quad_byte1 (x y : byte) :
  byte_ofZ (Z.lor (Z.shiftl (sextet1 x) 2) (Z.shiftr (sextet2 x y) 4)) = x.
Proof.
  apply byte_dec_bl.
  by_bytes2
    (fun x y => Byte.eqb
       (byte_ofZ (Z.lor (Z.shiftl (sextet1 x) 2) (Z.shiftr (sextet2 x y) 4))) x).
Qed.

Lemma sextet2_low (x y : byte) : Z.land (sextet2 x y) 15 = Z.shiftr (byteZ y) 4.
Proof.
  apply Z.eqb_eq.
  by_bytes2 (fun x y => Z.land (sextet2 x y) 15 =? Z.shiftr (byteZ y) 4).
Qed.

Lemma sextet3_high (y z : byte) : Z.shiftr (sextet3 y z) 2 = Z.land (byteZ y) 15.
Proof.
  apply Z.eqb_eq.
  by_bytes2 (fun y z => Z.shiftr (sextet3 y z) 2 =? Z.land (byteZ y) 15).
Qed.

Lemma sextet3_low (y z : byte) : Z.land (sextet3 y z) 3 = Z.shiftr (byteZ z) 6.
Proof.
  apply Z.eqb_eq.
  by_bytes2 (fun y z => Z.land (sextet3 y z) 3 =? Z.shiftr (byteZ z) 6).
Qed.

Lemma quad_byte2 (x y z : byte) :
  byte_ofZ (Z.lor (Z.shiftl (Z.land (sextet2 x y) 15) 4) (Z.shiftr (sextet3 y z) 2)) = y.
Proof.
  rewrite sextet2_low, sextet3_high.
  apply byte_dec_bl.
  by_bytes
    (fun y => Byte.eqb
       (byte_ofZ (Z.lor (Z.shiftl (Z.shiftr (byteZ y) 4) 4) (Z.land (byteZ y) 15))) y).
Qed.

Lemma quad_byte3 (y z : byte) :
  byte_ofZ (Z.lor (Z.shiftl (Z.land (sextet3 y z) 3) 6) (sextet4 z)) = z.
Proof.
  rewrite sextet3_low.
  apply byte_dec_bl.
  by_bytes
    (fun z => Byte.eqb
       (byte_ofZ (Z.lor (Z.shiftl (Z.shiftr (byteZ z) 6) 6) (sextet4 z))) z).
Qed.

(** *** Base64: the decoder on the encoder's output *)

Lemma b2a_base64_quad (x y z : byte) (rest : list byte) :
  Base64.b2a_base64 (x :: y :: z :: rest)
  = Base64.b2a (sextet1 x) :: Base64.b2a (sextet2 x y) :: Base64.b2a (sextet3 y z)
      :: Base64.b2a (sextet4 z) :: Base64.b2a_base64 rest.
Proof. reflexivity. Qed.

(** One turn of the loop on a character of the alphabet. *)
Lemma a2b_loop_sextet (v : Z) (rest : list byte) (quad_pos leftchar pads : Z) :
  is_sextet v = true ->
  Base64.a2b_loop (Base64.b2a v :: rest) quad_pos leftchar pads
  = if quad_pos =? 0 then Base64.a2b_loop rest 1 v 0
    else if quad_pos =? 1 then
      out <- Base64.a2b_loop rest 2 (Z.land v 15) 0 ;;
      Ok (byte_ofZ (Z.lor (Z.shiftl leftchar 2) (Z.shiftr v 4)) :: out)
    else if quad_pos =? 2 then
      out <- Base64.a2b_loop rest 3 (Z.land v 3) 0 ;;
      Ok (byte_ofZ (Z.lor (Z.shiftl leftchar 4) (Z.shiftr v 2)) :: out)
    else
      out <- Base64.a2b_loop rest 0 0 0 ;;
      Ok (byte_ofZ (Z.lor (Z.shiftl leftchar 6) v) :: out).
Proof.
  intros H. cbn [Base64.a2b_loop].
  rewrite (b2a_not_pad v H), (a2b_b2a v H). reflexivity.
Qed.

(** A full quad yields its three bytes and leaves the loop in its initial
    state. *)
Lemma a2b_loop_quad (x y z : byte) (rest : list byte) :
  Base64.a2b_loop
    (Base64.b2a (sextet1 x) :: Base64.b2a (sextet2 x y) :: Base64.b2a (sextet3 y z)
       :: Base64.b2a (sextet4 z) :: rest) 0 0 0
  = (out <- Base64.a2b_loop rest 0 0 0 ;; Ok (x :: y :: z :: out)).
Proof.
  rewrite (a2b_loop_sextet _ _ _ _ _ (sextet1_range x)). cbn [Z.eqb].
  rewrite (a2b_loop_sextet _ _ _ _ _ (sextet2_range x y)). cbn [Z.eqb Pos.eqb].
  rewrite (a2b_loop_sextet _ _ _ _ _ (sextet3_range y z)). cbn [Z.eqb Pos.eqb].
  rewrite (a2b_loop_sextet _ _ _ _ _ (sextet4_range z)). cbn [Z.eqb Pos.eqb].
  destruct (Base64.a2b_loop rest 0 0 0) as [out|e]; cbn [bind]; [|reflexivity].
  now rewrite quad_byte1, quad_byte2, quad_byte3.
Qed.

(** [a2b_base64] inverts [b2a_base64]. *)
Lemma a2b_b2a_base64 (data : list byte) :
  Base64.a2b_base64 (Base64.b2a_base64 data) = Ok data.
Proof.
  unfold Base64.a2b_base64.
  induction data as [|x|x y|x y z rest IH] using list_ind3.
  - reflexivity.
  - apply returns_bytes_eq.
    by_bytes (fun x => returns_bytes (Base64.a2b_loop (Base64.b2a_base64 [x]) 0 0 0) [x]).
  - apply returns_bytes_eq.
    by_bytes2
      (fun x y => returns_bytes (Base64.a2b_loop (Base64.b2a_base64 [x; y]) 0 0 0) [x; y]).
  - rewrite b2a_base64_quad, a2b_loop_quad, IH. reflexivity.
Qed.

(** The encoder writes ASCII. *)
Lemma b2a_base64_ascii (data : list byte) :
  forallb is_ascii_byte (Base64.b2a_base64 data) = true.
Proof.
  induction data as [|x|x y|x y z rest IH] using list_ind3.
  - reflexivity.
  - by_bytes (fun x => forallb is_ascii_byte (Base64.b2a_base64 [x])).
  - by_bytes2 (fun x y => forallb is_ascii_byte (Base64.b2a_base64 [x; y])).
  - rewrite b2a_base64_quad. cbn [forallb].
    rewrite (b2a_is_ascii _ (sextet1_range x)), (b2a_is_ascii _ (sextet2_range x y)),
      (b2a_is_ascii _ (sextet3_range y z)), (b2a_is_ascii _ (sextet4_range z)), IH.
    reflexivity.
Qed.

(** The text [base64.b64encode(s.encode()).decode()]. *)
Lemma b64encode_text (s : string) :
  bytes_decode (Base64.b64encode (str_encode s))
  = Ok (ascii_text (Base64.b64encode (str_encode s))).
Proof. apply bytes_decode_ascii, b2a_base64_ascii. Qed.

(** [base64.b64decode(...).decode()] gives back the encoded text. *)
Lemma b64decode_encoded (s : string) :
  (raw <- Base64.b64decode (PStr (ascii_text (Base64.b64encode (str_encode s)))) ;;
   bytes_decode raw) = Ok s.
Proof.
  unfold Base64.b64decode, Base64.b64encode.
  rewrite (ascii_text_is_ascii _ (b2a_base64_ascii _)), bytes_of_ascii_text, a2b_b2a_base64.
  cbn [bind]. apply bytes_decode_encode.
Qed.

(** ** Identifiers *)

(** What [encode_id] stores under [id]. *)
Lemma encode_id_id (x model_name : string) :
  DataConverterUtils.encode_id [("id", PStr x)] model_name
  = Ok [("id", PStr (ascii_text (Base64.b64encode (str_encode x))))].
Proof.
  unfold DataConverterUtils.encode_id. cbn [dict_get String.eqb Ascii.eqb Bool.eqb py_str].
  rewrite b64encode_text. reflexivity.
Qed.

(** [decode_id] splits the decoded text at its colon and keeps what follows. *)
Lemma decode_id_encoded (type_tag raw_id : string) :
  has_char ":" type_tag = false ->
  has_char ":" raw_id = false ->
  DataConverterUtils.decode_id
    (PStr (ascii_text (Base64.b64encode (str_encode (type_tag ++ ":" ++ raw_id)))))
  = Ok (PStr raw_id).
Proof.
  intros Ht Hr. unfold DataConverterUtils.decode_id.
  pose proof (b64decode_encoded (type_tag ++ ":" ++ raw_id)) as E.
  destruct (Base64.b64decode _) as [raw|e]; cbn [bind] in *; [|discriminate].
  rewrite E. cbn [bind].
  change (type_tag ++ ":" ++ raw_id) with (type_tag ++ String ":" raw_id).
  rewrite (str_split_app _ _ _ Ht), (str_split_none _ _ Hr). reflexivity.
Qed.

(** C3, as stated, fails: the identifier [Insuree:5] is encoded to
    [SW5zdXJlZTo1], and decoding that text yields [5], not the identifier. *)
Lemma C3_counterexample :
  DataConverterUtils.encode_id [("id", PStr "Insuree:5")] "Insuree"
  = Ok [("id", PStr "SW5zdXJlZTo1")]
  /\ DataConverterUtils.decode_id (PStr "SW5zdXJlZTo1") = Ok (PStr "5")
  /\ DataConverterUtils.decode_id (PStr "SW5zdXJlZTo1") <> Ok (PStr "Insuree:5").
Proof.
  split; [vm_compute; reflexivity|].
  split; [vm_compute; reflexivity|].
  vm_compute. discriminate.
Qed.

(** C3, amended: for every identifier [typeTag:rawId] whose two parts hold no
    colon, decoding the base64 text that [encode_id] produces for it returns
    [rawId], the part after the colon; the type tag is dropped.  Decoding is a
    function of the encoded text. *)
Theorem C3_decode_id_returns_raw_id (type_tag raw_id model_name : string) :
  has_char ":" type_tag = false ->
  has_char ":" raw_id = false ->
  (exists encoded,
      DataConverterUtils.encode_id [("id", PStr (type_tag ++ ":" ++ raw_id))] model_name
      = Ok [("id", PStr encoded)]
      /\ DataConverterUtils.decode_id (PStr encoded) = Ok (PStr raw_id))
  /\ (forall encoded r1 r2,
         DataConverterUtils.decode_id encoded = r1 ->
         DataConverterUtils.decode_id encoded = r2 -> r1 = r2).
Proof.
  intros Ht Hr. split.
  - eexists. split; [apply encode_id_id|]. now apply decode_id_encoded.
  - intros encoded r1 r2 <- <-. reflexivity.
Qed.

(** The amended C3 at the identifier [Insuree:5]. *)
Lemma C3_witness :
  (exists encoded,
      DataConverterUtils.encode_id [("id", PStr ("Insuree" ++ ":" ++ "5"))] "Insuree"
      = Ok [("id", PStr encoded)]
      /\ DataConverterUtils.decode_id (PStr encoded) = Ok (PStr "5"))
  /\ (forall encoded r1 r2,
         DataConverterUtils.decode_id encoded = r1 ->
         DataConverterUtils.decode_id encoded = r2 -> r1 = r2).
Proof.
  apply (C3_decode_id_returns_raw_id "Insuree" "5" "Insuree"); reflexivity.
Defined.

(** ** Forward mapping *)





(** The loop of [map_to_graphql] stops at the first field that is not
    allowed, and only there. *)
Lemma map_fields_outcome (self : DataMapper.t) (items mapped_data json_ext : dict pyval) :
  match first_unsupported self items with
  | None => exists m j, DataMapper.map_fields self items mapped_data json_ext = Ok (m, j)
  | Some k =>
      DataMapper.map_fields self items mapped_data json_ext
      = Raise (MutationError (PStr (DataMapper.unsupported_field_message self k)))
  end.
Proof.
  revert mapped_data json_ext.
  induction items as [|[k v] items IH]; intros mapped_data json_ext.
  - cbn. now eexists _, _.
  - unfold first_unsupported in *. cbn [dict_keys map fst find DataMapper.map_fields].
    unfold allowed, dict_mem.
    destruct (dict_get k (DataMapper.fields_mapping self)) as [g|]; cbn [orb negb].
    + apply IH.
    + destruct (mem k (DataMapper.special_fields self)); cbn [orb negb]; [apply IH|].
      destruct (mem k (DataMapper.meta_fields self)); cbn [negb]; [apply IH|reflexivity].
Qed.

Lemma map_to_graphql_outcome (self : DataMapper.t) (record : dict pyval) :
  match first_unsupported self record with
  | None => exists mapped, DataMapper.map_to_graphql self record = Ok mapped
  | Some k =>
      DataMapper.map_to_graphql self record
      = Raise (MutationError (PStr (DataMapper.unsupported_field_message self k)))
  end.
Proof.
  unfold DataMapper.map_to_graphql.
  pose proof (map_fields_outcome self record [] []) as H.
  destruct (first_unsupported self record) as [k|].
  - now rewrite H.
  - destruct H as (m & j & ->). cbn [bind fst snd]. destruct j; now eexists.
Qed.


Lemma first_unsupported_some (self : DataMapper.t) (record : dict pyval) (k : string) :
  In k (dict_keys record) -> allowed self k = false ->
  exists k', first_unsupported self record = Some k'
             /\ In k' (dict_keys record) /\ allowed self k' = false.
Proof.
  intros Hin Hk. unfold first_unsupported.
  destruct (find _ _) as [k'|] eqn:E.
  - apply find_some in E as [Hin' Hk']. apply negb_true_iff in Hk'. now exists k'.
  - apply (find_none _ _ E) in Hin. rewrite Hk in Hin. discriminate.
Qed.




(** ** Dictionaries *)

Lemma mem_In (k : string) (l : list string) : mem k l = true <-> In k l.
Proof.
  unfold mem. rewrite existsb_exists. split.
  - intros (x & Hin & Hx). apply String.eqb_eq in Hx. now subst.
  - intros Hin. exists k. split; [assumption|apply String.eqb_refl].
Qed.

Lemma mem_not_In (k : string) (l : list string) : mem k l = false <-> ~ In k l.
Proof.
  rewrite <- mem_In. destruct (mem k l); split; intros H; congruence.
Qed.

Lemma distinct_NoDup (l : list string) : distinct l = true -> NoDup l.
Proof.
  induction l as [|x l IH]; cbn [distinct]; intros H; [constructor|].
  apply andb_true_iff in H as [Hx Hl]. apply negb_true_iff, mem_not_In in Hx.
  constructor; auto.
Qed.

Lemma dict_get_In_values {V : Type} (k : string) (v : V) (d : dict V) :
  dict_get k d = Some v -> In v (dict_values d).
Proof.
  induction d as [|[k' v'] d IH]; cbn; [discriminate|].
  destruct (String.eqb k k'); [intros [= ->]; now left|intros H; right; auto].
Qed.

Lemma dict_get_not_In {V : Type} (k : string) (d : dict V) :
  ~ In k (dict_keys d) -> dict_get k d = None.
Proof.
  induction d as [|[k' v'] d IH]; cbn; [reflexivity|]. intros H.
  destruct (String.eqb_spec k k') as [->|_]; [exfalso; apply H; now left|].
  apply IH. intros Hin. apply H. now right.
Qed.

(** Assigning to a key that is not present appends. *)
Lemma dict_set_fresh {V : Type} (k : string) (v : V) (d : dict V) :
  ~ In k (dict_keys d) -> dict_set k v d = (d ++ [(k, v)])%list.
Proof.
  induction d as [|[k' v'] d IH]; cbn; [reflexivity|]. intros H.
  destruct (String.eqb_spec k k') as [->|_]; [exfalso; apply H; now left|].
  rewrite IH; [reflexivity|]. intros Hin. apply H. now right.
Qed.

(** Updating with items whose keys are new and distinct appends them. *)
Lemma dict_update_fresh {V : Type} (items d : dict V) :
  NoDup (dict_keys (d ++ items)%list) -> dict_update d items = (d ++ items)%list.
Proof.
  revert d. induction items as [|[k v] items IH]; intros d H.
  - cbn. now rewrite app_nil_r.
  - unfold dict_update in *. cbn [fold_left fst snd].
    assert (Hk : ~ In k (dict_keys d)).
    { unfold dict_keys in *. rewrite map_app in H. cbn in H.
      apply NoDup_remove_2 in H. intros Hin. apply H, in_or_app. now left. }
    rewrite (dict_set_fresh k v d Hk), IH.
    + now rewrite <- app_assoc.
    + now rewrite <- app_assoc.
Qed.

(** In a mapping with distinct values the swapped pairs look up the key of a
    value. *)
Lemma swapped_lookup (fm : dict string) (k g : string) :
  NoDup (dict_values fm) ->
  dict_get k fm = Some g -> dict_get g (map swap fm) = Some k.
Proof.
  induction fm as [|[k0 g0] fm IH]; cbn; [discriminate|].
  intros N H. inversion N as [|? ? Hg0 N']; subst.
  destruct (String.eqb_spec k k0) as [->|Hk].
  - injection H as ->. now rewrite String.eqb_refl.
  - destruct (String.eqb_spec g g0) as [->|_].
    + exfalso. apply Hg0. exact (dict_get_In_values _ _ _ H).
    + now apply IH.
Qed.

(** ** Reverse mapping after forward mapping *)

Section RoundTrip.

Variable self : DataMapper.t.

Hypothesis injective : distinct (dict_values (DataMapper.fields_mapping self)) = true.
Hypothesis plain : forallb (plain_target self) (dict_values (DataMapper.fields_mapping self)) = true.

Lemma target_plain (k g : string) :
  dict_get k (DataMapper.fields_mapping self) = Some g ->
  mem g (DataMapper.meta_fields self) = false
  /\ mem g (DataMapper.special_fields self) = false.
Proof.
  intros H. apply dict_get_In_values in H.
  pose proof (proj1 (forallb_forall _ _) plain g H) as P.
  unfold plain_target in P. apply andb_true_iff in P as [P1 P2].
  now rewrite negb_true_iff in P1, P2.
Qed.

(** The reversed mapping is the mapping with its pairs swapped. *)
Lemma reversed_is_swapped :
  DataMapper.reversed_fields_mapping self = map swap (DataMapper.fields_mapping self).
Proof.
  unfold DataMapper.reversed_fields_mapping.
  pose proof (distinct_NoDup _ injective) as N.
  assert (G : forall fm acc,
             NoDup (dict_keys (acc ++ map swap fm)%list) ->
             fold_left (fun acc kv => dict_set (snd kv) (fst kv) acc) fm acc
             = (acc ++ map swap fm)%list).
  { induction fm as [|[k g] fm IH]; intros acc H.
    - cbn. now rewrite app_nil_r.
    - cbn [fold_left fst snd map swap] in *.
      assert (Hg : ~ In g (dict_keys acc)).
      { unfold dict_keys in *. rewrite map_app in H. cbn in H.
        apply NoDup_remove_2 in H. intros Hin. apply H, in_or_app. now left. }
      rewrite (dict_set_fresh g k acc Hg), IH; now rewrite <- app_assoc. }
  apply (G _ []). cbn [app]. unfold dict_keys, dict_values in *.
  rewrite map_map. cbn [swap fst]. exact N.
Qed.

Lemma reversed_lookup (k g : string) :
  dict_get k (DataMapper.fields_mapping self) = Some g ->
  dict_get g (DataMapper.reversed_fields_mapping self) = Some k.
Proof.
  rewrite reversed_is_swapped. apply swapped_lookup.
  now apply distinct_NoDup.
Qed.

(** Forward mapping of a record of mapped and meta fields renames its
    keys. *)
Lemma map_fields_image (record mapped_data : dict pyval) :
  forallb (mapped_or_meta self) (dict_keys record) = true ->
  DataMapper.map_fields self record mapped_data []
  = Ok (dict_update mapped_data (forward_image self record), []).
Proof.
  revert mapped_data. induction record as [|[k v] record IH]; intros mapped_data H.
  - reflexivity.
  - cbn [dict_keys map fst forallb] in H. apply andb_true_iff in H as [Hk Hr].
    unfold mapped_or_meta, dict_mem in Hk.
    cbn [DataMapper.map_fields forward_image map fst snd].
    unfold dict_update. cbn [fold_left fst snd].
    change (forward_key self k)
      with (match dict_get k (DataMapper.fields_mapping self) with
            | Some g => g
            | None => k
            end).
    destruct (dict_get k (DataMapper.fields_mapping self)) as [g|].
    + apply (IH _ Hr).
    + cbn [orb] in Hk. apply andb_true_iff in Hk as [Hm Hs].
      apply negb_true_iff in Hs. rewrite Hs, Hm. apply (IH _ Hr).
Qed.

(** On such a record no two fields are stored under the same name. *)
Lemma forward_key_injective (record : dict pyval) :
  forallb (mapped_or_meta self) (dict_keys record) = true ->
  forall k1 k2, In k1 (dict_keys record) -> In k2 (dict_keys record) ->
                forward_key self k1 = forward_key self k2 -> k1 = k2.
Proof.
  intros H k1 k2 H1 H2.
  pose proof (proj1 (forallb_forall _ _) H k1 H1) as M1.
  pose proof (proj1 (forallb_forall _ _) H k2 H2) as M2.
  unfold mapped_or_meta, dict_mem, forward_key in *.
  destruct (dict_get k1 (DataMapper.fields_mapping self)) as [g1|] eqn:E1;
    destruct (dict_get k2 (DataMapper.fields_mapping self)) as [g2|] eqn:E2;
    cbn [orb] in *; intros E; subst.
  - apply reversed_lookup in E1, E2. congruence.
  - apply target_plain in E1 as [E1 _].
    apply andb_true_iff in M2 as [M2 _]. congruence.
  - apply target_plain in E2 as [E2 _].
    apply andb_true_iff in M1 as [M1 _]. congruence.
  - reflexivity.
Qed.

Lemma forward_image_keys (record : dict pyval) :
  dict_keys (forward_image self record) = map (forward_key self) (dict_keys record).
Proof. unfold dict_keys, forward_image. now rewrite !map_map. Qed.

Lemma map_to_graphql_image (record : dict pyval) :
  distinct (dict_keys record) = true ->
  forallb (mapped_or_meta self) (dict_keys record) = true ->
  DataMapper.map_to_graphql self record = Ok (forward_image self record).
Proof.
  intros D H. unfold DataMapper.map_to_graphql.
  rewrite (map_fields_image _ _ H). cbn [bind fst snd].
  rewrite dict_update_fresh; [reflexivity|].
  cbn [app]. rewrite forward_image_keys.
  apply NoDup_map_NoDup_ForallPairs; [|now apply distinct_NoDup].
  intros k1 k2 H1 H2. now apply (forward_key_injective record).
Qed.

(** Reverse mapping of the renamed record keeps the mapped fields, under
    their original names and in their order. *)
Lemma map_entry_image (record mapped_entry : dict pyval) :
  forallb (mapped_or_meta self) (dict_keys record) = true ->
  NoDup (dict_keys mapped_entry ++ dict_keys record)%list ->
  DataMapper.map_entry self (forward_image self record) mapped_entry
  = (mapped_entry ++ mapped_part self record)%list.
Proof.
  revert mapped_entry. induction record as [|[k v] record IH]; intros e H N.
  - cbn. now rewrite app_nil_r.
  - cbn [dict_keys map fst forallb] in H. apply andb_true_iff in H as [Hk Hr].
    unfold mapped_or_meta, dict_mem in Hk.
    cbn [forward_image map fst snd DataMapper.map_entry mapped_part filter].
    unfold forward_key, dict_mem.
    destruct (dict_get k (DataMapper.fields_mapping self)) as [g|] eqn:E.
    + destruct (target_plain _ _ E) as [Tm Ts]. rewrite Tm, Ts.
      rewrite (reversed_lookup _ _ E).
      assert (Hfresh : ~ In k (dict_keys e)).
      { cbn [dict_keys map fst] in N. apply NoDup_remove_2 in N.
        intros Hin. apply N, in_or_app. now left. }
      rewrite (dict_set_fresh k v e Hfresh).
      fold (forward_image self record). rewrite IH; [now rewrite <- app_assoc|exact Hr|].
      unfold dict_keys in *. rewrite map_app. cbn [map fst app] in *.
      now rewrite <- app_assoc.
    + cbn [orb] in Hk. apply andb_true_iff in Hk as [Hm _]. rewrite Hm.
      fold (forward_image self record). apply IH; [exact Hr|].
      cbn [dict_keys map fst] in N. now apply NoDup_remove_1 in N.
Qed.

End RoundTrip.

Lemma mapped_part_all (self : DataMapper.t) (record : dict pyval) :
  forallb (fun k => dict_mem k (DataMapper.fields_mapping self)) (dict_keys record) = true ->
  mapped_part self record = record.
Proof.
  unfold mapped_part, dict_keys.
  induction record as [|kv record IH]; cbn [map forallb filter]; [reflexivity|].
  intros H. apply andb_true_iff in H as [Hk Hr]. rewrite Hk. now rewrite (IH Hr).
Qed.

(** C4, as stated, fails: with the mapping [name -> firstName] and the default
    meta fields, the record [{name: Jo, uuid: u1}] is built from a mapped and
    a meta field name, and reverse-mapping its forward mapping returns
    [{name: Jo}]: the meta field is gone. *)
Lemma C4_counterexample :
  forallb (mapped_or_meta example_mapper)
    (dict_keys [("name", PStr "Jo"); ("uuid", PStr "u1")]) = true
  /\ DataMapper.map_to_graphql example_mapper [("name", PStr "Jo"); ("uuid", PStr "u1")]
     = Ok [("firstName", PStr "Jo"); ("uuid", PStr "u1")]
  /\ DataMapper.map_to_registry example_mapper
       [PDict [("firstName", PStr "Jo"); ("uuid", PStr "u1")]]
     = Ok [[("name", PStr "Jo")]]
  /\ DataMapper.map_to_registry example_mapper
       [PDict [("firstName", PStr "Jo"); ("uuid", PStr "u1")]]
     <> Ok [[("name", PStr "Jo"); ("uuid", PStr "u1")]].
Proof.
  repeat split; try (vm_compute; reflexivity).
  vm_compute. discriminate.
Qed.

(** C4, amended: for a mapping whose internal names are pairwise distinct and
    are neither meta nor special names, and for every record built only from
    mapped and meta field names, forward mapping succeeds and reverse-mapping
    its result recovers the mapped fields of the record, with their values and
    in their order; the meta fields are dropped.  So the record itself is
    recovered exactly when all its field names are mapped. *)
Theorem C4_reverse_recovers_mapped_fields (self : DataMapper.t) (record : dict pyval) :
  distinct (dict_values (DataMapper.fields_mapping self)) = true ->
  forallb (plain_target self) (dict_values (DataMapper.fields_mapping self)) = true ->
  distinct (dict_keys record) = true ->
  forallb (mapped_or_meta self) (dict_keys record) = true ->
  (exists mapped,
      DataMapper.map_to_graphql self record = Ok mapped
      /\ DataMapper.map_to_registry self [PDict mapped] = Ok [mapped_part self record])
  /\ (forallb (fun k => dict_mem k (DataMapper.fields_mapping self)) (dict_keys record) = true ->
      mapped_part self record = record).
Proof.
  intros Hinj Hplain Hdistinct Hfields. split.
  - exists (forward_image self record). split.
    + now apply map_to_graphql_image.
    + cbn [DataMapper.map_to_registry bind].
      rewrite (map_entry_image self Hinj Hplain record [] Hfields); [reflexivity|].
      cbn [dict_keys map app]. now apply distinct_NoDup.
  - apply mapped_part_all.
Qed.

(** The amended C4 at the record [{name: Jo, uuid: u1}]. *)
Lemma C4_witness :
  (exists mapped,
      DataMapper.map_to_graphql example_mapper [("name", PStr "Jo"); ("uuid", PStr "u1")]
      = Ok mapped
      /\ DataMapper.map_to_registry example_mapper [PDict mapped]
         = Ok [mapped_part example_mapper [("name", PStr "Jo"); ("uuid", PStr "u1")]])
  /\ (forallb (fun k => dict_mem k (DataMapper.fields_mapping example_mapper))
        (dict_keys [("name", PStr "Jo"); ("uuid", PStr "u1")]) = true ->
      mapped_part example_mapper [("name", PStr "Jo"); ("uuid", PStr "u1")]
      = [("name", PStr "Jo"); ("uuid", PStr "u1")]).
Proof.
  apply (C4_reverse_recovers_mapped_fields example_mapper
           [("name", PStr "Jo"); ("uuid", PStr "u1")]); reflexivity.
Defined.

(** ** Argument serialization *)






Lemma argument_other (field : string) (v : pyval) :
  field <> "id" -> is_list v = false -> (field = "jsonExt" -> is_text v = false) ->
  GQLPayloadBuilder.argument field v = Ok (field ++ ": " ++ dq ++ py_str v ++ dq).
Proof.
  intros Hid Hl Ht. unfold GQLPayloadBuilder.argument.
  apply String.eqb_neq in Hid. rewrite Hid.
  destruct (String.eqb_spec field "jsonExt") as [E|_].
  - specialize (Ht E). destruct v; try discriminate; reflexivity.
  - destruct v; try discriminate; reflexivity.
Qed.





(** ** The list query builder *)

(** The argument text of a list query is the serialized fields followed by
    the [first], [offset] and [orderBy] arguments. *)
Lemma list_query_arguments_parts (mapped_data : dict pyval) (ordering : option string)
    (page page_size : option Z) :
  GQLPayloadBuilder.list_query_arguments mapped_data ordering page page_size
  = (fields <- GQLPayloadBuilder.create_arguments_with_values
                 (dict_del "jsonExt" mapped_data) ;;
     offset <- offset_argument page page_size ;;
     Ok (fields ++ first_argument page_size ++ offset
           ++ order_argument (dict_del "jsonExt" mapped_data) ordering)).
Proof.
  unfold GQLPayloadBuilder.list_query_arguments.
  destruct (GQLPayloadBuilder.create_arguments_with_values _) as [fields|e];
    cbn [bind]; [|reflexivity].
  assert (E1 : (if GQLPayloadBuilder.given page_size
                then fields ++ " first:" ++ GQLPayloadBuilder.render page_size
                else fields) = fields ++ first_argument page_size).
  { destruct page_size as [s|]; cbn; [|now rewrite str_app_nil_r].
    destruct (s =? 0); cbn; [now rewrite str_app_nil_r|reflexivity]. }
  rewrite E1.
  destruct page as [p|]; cbn [GQLPayloadBuilder.given offset_argument].
  - destruct (p =? 0); cbn [negb bind].
    + destruct (dict_del "jsonExt" mapped_data) as [|[k v] rest]; cbn [order_argument].
      * now rewrite !str_app_nil_r.
      * destruct ordering as [o|]; cbn [GQLPayloadBuilder.given_text];
          [|now rewrite !str_app_nil_r].
        destruct (is_empty o); cbn [negb]; [now rewrite !str_app_nil_r|].
        destruct (String.eqb o "descending"); cbn; now rewrite !str_app_assoc.
    + destruct page_size as [s|]; cbn [GQLPayloadBuilder.times bind]; [|reflexivity].
      destruct (dict_del "jsonExt" mapped_data) as [|[k v] rest]; cbn [order_argument].
      * now rewrite !str_app_assoc, !str_app_nil_r.
      * destruct ordering as [o|]; cbn [GQLPayloadBuilder.given_text];
          [|now rewrite !str_app_assoc, !str_app_nil_r].
        destruct (is_empty o); cbn [negb]; [now rewrite !str_app_assoc, !str_app_nil_r|].
        destruct (String.eqb o "descending"); cbn; now rewrite !str_app_assoc.
  - cbn [bind].
    destruct (dict_del "jsonExt" mapped_data) as [|[k v] rest]; cbn [order_argument].
    + now rewrite !str_app_nil_r.
    + destruct ordering as [o|]; cbn [GQLPayloadBuilder.given_text];
        [|now rewrite !str_app_nil_r].
      destruct (is_empty o); cbn [negb]; [now rewrite !str_app_nil_r|].
      destruct (String.eqb o "descending"); cbn; now rewrite !str_app_assoc.
Qed.

(** The query document shows its argument text. *)
Lemma query_contains_arguments (query_name args fields : string) :
  contains args (GQLPayloadTemplate.get_single_model_query query_name args fields).
Proof.
  unfold GQLPayloadTemplate.get_single_model_query.
  do 2 apply contains_app_r. apply contains_app_l.
  unfold GQLPayloadTemplate.line.
  apply contains_app_r, contains_app_l.
  do 2 apply contains_app_r. apply contains_app_l, contains_refl.
Qed.

(** [build_list_query] fills the template with the argument text. *)
Lemma build_list_query_arguments (self : GQLPayloadBuilder.t) (query_name : string)
    (record mapped_data : dict pyval) (ordering : option string) (page page_size : option Z)
    (args : string) :
  DataMapper.map_to_graphql (GQLPayloadBuilder.gql_mapper self) record = Ok mapped_data ->
  GQLPayloadBuilder.list_query_arguments mapped_data ordering page page_size = Ok args ->
  exists document,
    GQLPayloadBuilder.build_list_query self query_name record ordering page page_size
    = Ok document
    /\ contains args document.
Proof.
  intros Hm Ha. unfold GQLPayloadBuilder.build_list_query.
  rewrite Hm. cbn [bind]. rewrite Ha. cbn [bind].
  eexists. split; [reflexivity|apply query_contains_arguments].
Qed.

Lemma order_argument_descending (sort_field : string) (v : pyval) (rest : dict pyval) :
  order_argument ((sort_field, v) :: rest) (Some "descending")
  = " orderBy: [" ++ dq ++ "-" ++ sort_field ++ dq ++ "]".
Proof. reflexivity. Qed.

Lemma order_argument_other (sort_field : string) (v : pyval) (rest : dict pyval) (o : string) :
  is_empty o = false -> o <> "descending" ->
  order_argument ((sort_field, v) :: rest) (Some o)
  = " orderBy: [" ++ dq ++ sort_field ++ dq ++ "]".
Proof.
  intros Hne Hd. cbn [order_argument]. rewrite Hne.
  apply String.eqb_neq in Hd. now rewrite Hd.
Qed.

Lemma example_mapped_ordered (o : string) (page page_size : option Z) (offset : string) :
  is_empty o = false ->
  offset_argument page page_size = Ok offset ->
  GQLPayloadBuilder.list_query_arguments example_mapped (Some o) page page_size
  = Ok (example_firstName_argument ++ first_argument page_size ++ offset
          ++ order_argument example_mapped (Some o)).
Proof.
  intros Hne Hoff. rewrite list_query_arguments_parts.
  change (dict_del "jsonExt" example_mapped) with example_mapped.
  change (GQLPayloadBuilder.create_arguments_with_values example_mapped)
    with (@Ok string example_firstName_argument).
  cbn [bind]. rewrite Hoff. reflexivity.
Qed.

(** C6.  The argument text of a list query ends with the ordering argument,
    which is made from the ordering and the first key of the mapped data
    (after the extension blob was taken out) and from nothing else:
    [orderBy: ["-key"]] for [descending], [orderBy: ["key"]] for any other
    ordering; it is empty when the mapped data is empty or the ordering is
    unset.  With the mapped data [{"firstName": "Jo"}] the text contains
    [orderBy: ["-firstName"]] for [descending] and [orderBy: ["firstName"]]
    for [ascending]. *)
Theorem C6_ordering_from_first_mapped_key :
  (forall mapped_data ordering page page_size,
      GQLPayloadBuilder.list_query_arguments mapped_data ordering page page_size
      = (fields <- GQLPayloadBuilder.create_arguments_with_values
                     (dict_del "jsonExt" mapped_data) ;;
         offset <- offset_argument page page_size ;;
         Ok (fields ++ first_argument page_size ++ offset
               ++ order_argument (dict_del "jsonExt" mapped_data) ordering)))
  /\ (forall sort_field v rest,
         order_argument ((sort_field, v) :: rest) (Some "descending")
         = " orderBy: [" ++ dq ++ "-" ++ sort_field ++ dq ++ "]")
  /\ (forall sort_field v rest o,
         is_empty o = false -> o <> "descending" ->
         order_argument ((sort_field, v) :: rest) (Some o)
         = " orderBy: [" ++ dq ++ sort_field ++ dq ++ "]")
  /\ (forall ordering, order_argument [] ordering = EmptyString)
  /\ (forall mapped_data, order_argument mapped_data None = EmptyString)
  /\ (forall page page_size offset,
         offset_argument page page_size = Ok offset ->
         exists args,
           GQLPayloadBuilder.list_query_arguments example_mapped (Some "descending")
             page page_size = Ok args
           /\ contains example_order_descending args)
  /\ (forall page page_size offset,
         offset_argument page page_size = Ok offset ->
         exists args,
           GQLPayloadBuilder.list_query_arguments example_mapped (Some "ascending")
             page page_size = Ok args
           /\ contains example_order_ascending args)
  /\ (exists document,
         GQLPayloadBuilder.build_list_query (GQLPayloadBuilder.init example_mapper "id")
           "insurees" [("name", PStr "Jo")] (Some "descending") None None = Ok document
         /\ contains example_order_descending document)
  /\ (exists document,
         GQLPayloadBuilder.build_list_query (GQLPayloadBuilder.init example_mapper "id")
           "insurees" [("name", PStr "Jo")] (Some "ascending") None None = Ok document
         /\ contains example_order_ascending document).
Proof.
  split; [exact list_query_arguments_parts|].
  split; [exact order_argument_descending|].
  split; [exact order_argument_other|].
  split; [reflexivity|].
  split; [now intros [|[k v] rest]|].
  split.
  { intros page page_size offset Hoff. eexists. split.
    - exact (example_mapped_ordered "descending" page page_size offset eq_refl Hoff).
    - do 3 apply contains_app_r.
      exists " ", EmptyString. cbn. reflexivity. }
  split.
  { intros page page_size offset Hoff. eexists. split.
    - exact (example_mapped_ordered "ascending" page page_size offset eq_refl Hoff).
    - do 3 apply contains_app_r.
      exists " ", EmptyString. cbn. reflexivity. }
  split.
  - eexists. split; [vm_compute; reflexivity|].
    apply contains_iff. vm_compute. reflexivity.
  - eexists. split; [vm_compute; reflexivity|].
    apply contains_iff. vm_compute. reflexivity.
Qed.

(** C6 at a record of two keys and at page 2 of size 10. *)
Lemma C6_witness :
  order_argument [("lastName", PStr "Doe"); ("firstName", PStr "Jo")] (Some "ascending")
  = " orderBy: [" ++ dq ++ "lastName" ++ dq ++ "]"
  /\ (exists args,
         GQLPayloadBuilder.list_query_arguments example_mapped (Some "descending")
           (Some 2) (Some 10) = Ok args
         /\ contains example_order_descending args)
  /\ (exists args,
         GQLPayloadBuilder.list_query_arguments example_mapped (Some "ascending")
           (Some 2) (Some 10) = Ok args
         /\ contains example_order_ascending args).
Proof.
  destruct C6_ordering_from_first_mapped_key as (_ & _ & Hother & _ & _ & Hdesc & Hasc & _).
  split.
  - refine (Hother "lastName" (PStr "Doe") [("firstName", PStr "Jo")] "ascending" eq_refl _).
    discriminate.
  - split.
    + exact (Hdesc (Some 2) (Some 10) " offset: 20" eq_refl).
    + exact (Hasc (Some 2) (Some 10) " offset: 20" eq_refl).
Defined.

(** ** Pagination *)






(** ** The record query builder *)

Lemma build_record_query_arguments (self : GQLPayloadBuilder.t) (query_name : string)
    (record mapped_data : dict pyval) (after_cursor : option string) (fetched_fields : pyval)
    (first : option Z) (fields args : string) :
  DataMapper.map_to_graphql (GQLPayloadBuilder.gql_mapper self) record = Ok mapped_data ->
  GQLPayloadBuilder.record_fetched_fields self fetched_fields = Ok fields ->
  GQLPayloadBuilder.record_query_arguments (GQLPayloadBuilder.rename_id self mapped_data)
    after_cursor first = Ok args ->
  GQLPayloadBuilder.build_record_query self query_name record after_cursor fetched_fields first
  = Ok (GQLPayloadTemplate.get_single_model_query query_name args fields).
Proof.
  intros Hm Hf Ha. unfold GQLPayloadBuilder.build_record_query.
  rewrite Hm. cbn [bind]. rewrite Hf. cbn [bind]. rewrite Ha. reflexivity.
Qed.

(** C9, as stated, fails: a [first] of 0 is given and nothing is appended; an
    empty cursor is supplied and the arguments are kept. *)
Lemma C9_counterexample :
  GQLPayloadBuilder.record_query_arguments example_mapped None (Some 0)
  = Ok example_firstName_argument
  /\ ~ contains "first:" example_firstName_argument
  /\ GQLPayloadBuilder.record_query_arguments example_mapped (Some EmptyString) (Some 10)
     = Ok (example_firstName_argument ++ " first:10")
  /\ ~ contains "after" (example_firstName_argument ++ " first:10")
  /\ GQLPayloadBuilder.build_record_query (GQLPayloadBuilder.init example_mapper "id")
       "insurees" [("name", PStr "Jo")] None PNone (Some 0)
     = Ok (GQLPayloadTemplate.get_single_model_query "insurees" example_firstName_argument
             "firstName  jsonExt").
Proof.
  split; [vm_compute; reflexivity|].
  split; [apply not_contains; vm_compute; reflexivity|].
  split; [vm_compute; reflexivity|].
  split; [apply not_contains; vm_compute; reflexivity|].
  vm_compute. reflexivity.
Qed.

(** C9, amended: when the fields serialize, a cursor that is supplied and is
    not empty makes the whole argument text [after: <cursor>], whatever the
    field filters and [first] are; without a cursor, or with an empty one, a
    [first] that is given and is not 0 is appended as [ first:<n>] to the
    serialized fields, and a [first] of 0 or none leaves them as they are.
    [build_record_query] fills the query template with that text. *)
Theorem C9_cursor_replaces_arguments :
  (forall mapped_data cursor first fields,
      GQLPayloadBuilder.create_arguments_with_values (dict_del "jsonExt" mapped_data)
      = Ok fields ->
      is_empty cursor = false ->
      GQLPayloadBuilder.record_query_arguments mapped_data (Some cursor) first
      = Ok ("after: " ++ cursor))
  /\ (forall mapped_data after_cursor n fields,
         GQLPayloadBuilder.create_arguments_with_values (dict_del "jsonExt" mapped_data)
         = Ok fields ->
         GQLPayloadBuilder.given_text after_cursor = false ->
         n <> 0 ->
         GQLPayloadBuilder.record_query_arguments mapped_data after_cursor (Some n)
         = Ok (fields ++ " first:" ++ str_of_Z n))
  /\ (forall mapped_data after_cursor first fields,
         GQLPayloadBuilder.create_arguments_with_values (dict_del "jsonExt" mapped_data)
         = Ok fields ->
         GQLPayloadBuilder.given_text after_cursor = false ->
         GQLPayloadBuilder.given first = false ->
         GQLPayloadBuilder.record_query_arguments mapped_data after_cursor first = Ok fields)
  /\ (forall self query_name record mapped_data after_cursor fetched_fields first fields args,
         DataMapper.map_to_graphql (GQLPayloadBuilder.gql_mapper self) record
         = Ok mapped_data ->
         GQLPayloadBuilder.record_fetched_fields self fetched_fields = Ok fields ->
         GQLPayloadBuilder.record_query_arguments
           (GQLPayloadBuilder.rename_id self mapped_data) after_cursor first = Ok args ->
         GQLPayloadBuilder.build_record_query self query_name record after_cursor
           fetched_fields first
         = Ok (GQLPayloadTemplate.get_single_model_query query_name args fields)).
Proof.
  split.
  { intros mapped_data cursor first fields Hf Hc.
    unfold GQLPayloadBuilder.record_query_arguments. rewrite Hf. cbn [bind]. now rewrite Hc. }
  split.
  { intros mapped_data after_cursor n fields Hf Hc Hn.
    unfold GQLPayloadBuilder.record_query_arguments. rewrite Hf. cbn [bind].
    apply Z.eqb_neq in Hn. cbn [GQLPayloadBuilder.given GQLPayloadBuilder.render].
    rewrite Hn. cbn [negb].
    destruct after_cursor as [c|]; [|reflexivity].
    cbn in Hc. apply negb_false_iff in Hc. now rewrite Hc. }
  split.
  { intros mapped_data after_cursor first fields Hf Hc Hfirst.
    unfold GQLPayloadBuilder.record_query_arguments. rewrite Hf. cbn [bind]. rewrite Hfirst.
    destruct after_cursor as [c|]; [|reflexivity].
    cbn in Hc. apply negb_false_iff in Hc. now rewrite Hc. }
  exact build_record_query_arguments.
Qed.

(** The amended C9 with the cursor [YXJyYXk6MQ==], with no cursor and a
    limit of 10, and with neither. *)
Lemma C9_witness :
  GQLPayloadBuilder.record_query_arguments example_mapped (Some "YXJyYXk6MQ==") (Some 10)
  = Ok "after: YXJyYXk6MQ=="
  /\ GQLPayloadBuilder.record_query_arguments example_mapped None (Some 10)
     = Ok (example_firstName_argument ++ " first:" ++ str_of_Z 10)
  /\ GQLPayloadBuilder.record_query_arguments example_mapped None None
     = Ok example_firstName_argument
  /\ GQLPayloadBuilder.build_record_query (GQLPayloadBuilder.init example_mapper "id")
       "insurees" [("name", PStr "Jo")] (Some "YXJyYXk6MQ==") PNone (Some 10)
     = Ok (GQLPayloadTemplate.get_single_model_query "insurees" "after: YXJyYXk6MQ=="
             "firstName  jsonExt").
Proof.
  destruct C9_cursor_replaces_arguments as (Hcursor & Hfirst & Hnone & Hbuild).
  split; [exact (Hcursor example_mapped "YXJyYXk6MQ==" (Some 10)
                   example_firstName_argument eq_refl eq_refl)|].
  split; [refine (Hfirst example_mapped None 10 example_firstName_argument
                    eq_refl eq_refl _); discriminate|].
  split; [exact (Hnone example_mapped None None example_firstName_argument
                   eq_refl eq_refl eq_refl)|].
  exact (Hbuild (GQLPayloadBuilder.init example_mapper "id") "insurees"
           [("name", PStr "Jo")] example_mapped (Some "YXJyYXk6MQ==") PNone (Some 10)
           "firstName  jsonExt" "after: YXJyYXk6MQ=="
           eq_refl eq_refl eq_refl).
Defined.

(** ** Extraction of records *)

Lemma dict_get_set_same {V : Type} (k : string) (v : V) (d : dict V) :
  dict_get k (dict_set k v d) = Some v.
Proof.
  induction d as [|[k' v'] d IH]; cbn.
  - now rewrite String.eqb_refl.
  - destruct (String.eqb k k') eqn:E; cbn.
    + now rewrite String.eqb_refl.
    + rewrite E. exact IH.
Qed.

Lemma dict_get_set_other {V : Type} (k k0 : string) (v : V) (d : dict V) :
  k <> k0 -> dict_get k (dict_set k0 v d) = dict_get k d.
Proof.
  intros H. apply String.eqb_neq in H.
  induction d as [|[k' v'] d IH]; cbn.
  - now rewrite H.
  - destruct (String.eqb_spec k0 k') as [->|_]; cbn.
    + now rewrite H.
    + destruct (String.eqb k k'); [reflexivity|exact IH].
Qed.

Lemma dict_get_del_same {V : Type} (k : string) (d : dict V) :
  dict_get k (dict_del k d) = None.
Proof.
  induction d as [|[k' v'] d IH]; cbn; [reflexivity|].
  destruct (String.eqb k k') eqn:E; cbn; [exact IH|]. now rewrite E.
Qed.

Lemma dict_get_del_other {V : Type} (k k0 : string) (d : dict V) :
  k <> k0 -> dict_get k (dict_del k0 d) = dict_get k d.
Proof.
  intros H. apply String.eqb_neq in H.
  induction d as [|[k' v'] d IH]; cbn; [reflexivity|].
  destruct (String.eqb_spec k0 k') as [->|_]; cbn.
  - now rewrite H.
  - destruct (String.eqb k k'); [reflexivity|exact IH].
Qed.

(** A key the update does not name keeps its binding. *)
Lemma dict_get_update_absent {V : Type} (k : string) (other d : dict V) :
  dict_get k other = None -> dict_get k (dict_update d other) = dict_get k d.
Proof.
  revert d. unfold dict_update.
  induction other as [|[k' v'] other IH]; intros d H; cbn in *; [reflexivity|].
  destruct (String.eqb_spec k k') as [->|Hk]; [discriminate|].
  rewrite (IH _ H). now apply dict_get_set_other.
Qed.

(** A key the update names once takes the value given there. *)
Lemma dict_get_update_present {V : Type} (k : string) (v : V) (other d : dict V) :
  NoDup (dict_keys other) ->
  dict_get k other = Some v -> dict_get k (dict_update d other) = Some v.
Proof.
  revert d. unfold dict_update.
  induction other as [|[k' v'] other IH]; intros d N H; cbn in *; [discriminate|].
  inversion N as [|? ? Hk' N']; subst.
  destruct (String.eqb_spec k k') as [->|Hk].
  - injection H as ->.
    change (fold_left (fun acc kv => dict_set (fst kv) (snd kv) acc) other (dict_set k' v d))
      with (dict_update (dict_set k' v d) other).
    rewrite dict_get_update_absent; [apply dict_get_set_same|].
    now apply dict_get_not_In.
  - now apply IH.
Qed.

(** Every key of the update is a key afterwards. *)
Lemma dict_mem_update {V : Type} (k : string) (other d : dict V) :
  dict_mem k (dict_update d other) = dict_mem k d || dict_mem k other.
Proof.
  revert d. unfold dict_update, dict_mem.
  induction other as [|[k' v'] other IH]; intros d; cbn.
  - now rewrite orb_false_r.
  - rewrite IH. destruct (String.eqb_spec k k') as [->|Hk].
    + rewrite dict_get_set_same. cbn. now rewrite orb_true_r.
    + now rewrite (dict_get_set_other _ _ _ _ Hk).
Qed.

Lemma merge_blank (record : dict pyval) :
  blank record = true -> DataConverterUtils.merge_json_ext record = Ok record.
Proof.
  unfold blank, DataConverterUtils.merge_json_ext.
  destruct (dict_get "jsonExt" record) as [blob|]; [|reflexivity].
  intros H. apply negb_true_iff in H. now rewrite H.
Qed.

Lemma merge_object (record ext : dict pyval) (blob : pyval) :
  dict_get "jsonExt" record = Some blob -> truthy blob = true ->
  Json.loads blob = Ok (PDict ext) ->
  DataConverterUtils.merge_json_ext record
  = Ok (dict_update (dict_del "jsonExt" record) ext).
Proof.
  intros Hg Ht Hl. unfold DataConverterUtils.merge_json_ext.
  rewrite Hg, Ht, Hl. reflexivity.
Qed.

Lemma extract_records_connection (query_name : string) (edges : list pyval) :
  DataConverterUtils.extract_records (connection query_name edges) query_name
  = (records <- DataConverterUtils.map_result
                  (fun edge => py_get edge "node" (PDict [])) edges ;;
     DataConverterUtils.map_result DataConverterUtils.convert_record records).
Proof.
  unfold DataConverterUtils.extract_records, connection.
  cbn [py_get dict_get String.eqb Ascii.eqb Bool.eqb bind].
  rewrite String.eqb_refl. reflexivity.
Qed.

(** C8, as stated, fails: a blob that has a key named [jsonExt] puts that key
    back when it is merged, so the final record has the blob key. *)
Lemma C8_counterexample :
  Json.loads (PStr example_blob_with_own_key)
  = Ok (PDict [("jsonExt", PStr "again"); ("b", PInt 2)])
  /\ DataConverterUtils.convert_record
       (PDict [("code", PStr "A1"); ("jsonExt", PStr example_blob_with_own_key)])
     = Ok (PDict [("code", PStr "A1"); ("jsonExt", PStr "again"); ("b", PInt 2)])
  /\ DataConverterUtils.extract_records
       (connection "insurees"
          [PDict [("node", PDict [("code", PStr "A1");
                                  ("jsonExt", PStr example_blob_with_own_key)])]])
       "insurees"
     = Ok [PDict [("code", PStr "A1"); ("jsonExt", PStr "again"); ("b", PInt 2)]].
Proof. repeat split; vm_compute; reflexivity. Qed.

(** C8, amended: for a record that is a dict and whose identifier, if it has
    one, decodes: when the blob field is absent or blank the record is
    returned as it is after the identifier step, nothing merged, no error;
    when the blob is not blank and parses to a JSON object, the result is the
    record without the blob field, updated with the object: every key of the
    object is a key of the result, with the object's value, the other keys
    keep their values, and the blob key is a key of the result exactly when
    the object itself has a key of that name.  [extract_records] applies this
    to the node of every edge of a connection-shaped response. *)
Theorem C8_extension_blob_merge :
  (forall record decoded,
      DataConverterUtils.decode_record_id record = Ok decoded ->
      blank decoded = true ->
      DataConverterUtils.convert_record (PDict record) = Ok (PDict decoded))
  /\ (forall record decoded blob ext,
         DataConverterUtils.decode_record_id record = Ok decoded ->
         dict_get "jsonExt" decoded = Some blob -> truthy blob = true ->
         Json.loads blob = Ok (PDict ext) ->
         let final := dict_update (dict_del "jsonExt" decoded) ext in
         DataConverterUtils.convert_record (PDict record) = Ok (PDict final)
         /\ (forall k, dict_mem k ext = true -> dict_mem k final = true)
         /\ (distinct (dict_keys ext) = true ->
             forall k v, dict_get k ext = Some v -> dict_get k final = Some v)
         /\ (forall k, k <> "jsonExt" -> dict_get k ext = None ->
                       dict_get k final = dict_get k decoded)
         /\ dict_mem "jsonExt" final = dict_mem "jsonExt" ext)
  /\ (forall query_name edges,
         DataConverterUtils.extract_records (connection query_name edges) query_name
         = (records <- DataConverterUtils.map_result
                         (fun edge => py_get edge "node" (PDict [])) edges ;;
            DataConverterUtils.map_result DataConverterUtils.convert_record records)).
Proof.
  split.
  { intros record decoded Hid Hb. cbn [DataConverterUtils.convert_record].
    rewrite Hid. cbn [bind]. now rewrite (merge_blank _ Hb). }
  split; [|exact extract_records_connection].
  intros record decoded blob ext Hid Hg Ht Hl final.
  split.
  { cbn [DataConverterUtils.convert_record]. rewrite Hid. cbn [bind].
    now rewrite (merge_object _ _ _ Hg Ht Hl). }
  split.
  { intros k Hk. unfold final. rewrite dict_mem_update, Hk. apply orb_true_r. }
  split.
  { intros D k v Hk. unfold final. apply dict_get_update_present; [|exact Hk].
    now apply distinct_NoDup. }
  split.
  { intros k Hne Hk. unfold final.
    rewrite (dict_get_update_absent _ _ _ Hk). now apply dict_get_del_other. }
  unfold final. rewrite dict_mem_update. unfold dict_mem at 1.
  now rewrite dict_get_del_same.
Qed.

(** The amended C8 at a record with an empty blob and at a record whose blob
    is [{"note": "hi"}]. *)
Lemma C8_witness :
  DataConverterUtils.convert_record
    (PDict [("id", PStr "SW5zdXJlZTo1"); ("jsonExt", PStr EmptyString)])
  = Ok (PDict [("id", PStr "5"); ("jsonExt", PStr EmptyString)])
  /\ DataConverterUtils.convert_record
       (PDict [("code", PStr "A1"); ("jsonExt", PStr example_blob)])
     = Ok (PDict [("code", PStr "A1"); ("note", PStr "hi")])
  /\ dict_get "note" [("code", PStr "A1"); ("note", PStr "hi")] = Some (PStr "hi")
  /\ dict_mem "jsonExt" [("code", PStr "A1"); ("note", PStr "hi")] = false.
Proof.
  destruct C8_extension_blob_merge as (Hblank & Hmerge & _).
  split.
  - exact (Hblank [("id", PStr "SW5zdXJlZTo1"); ("jsonExt", PStr EmptyString)]
             [("id", PStr "5"); ("jsonExt", PStr EmptyString)] eq_refl eq_refl).
  - destruct (Hmerge [("code", PStr "A1"); ("jsonExt", PStr example_blob)]
                [("code", PStr "A1"); ("jsonExt", PStr example_blob)]
                (PStr example_blob) [("note", PStr "hi")]
                eq_refl eq_refl eq_refl eq_refl)
      as (Hresult & _ & Hvalue & _ & Hkey).
    split; [exact Hresult|].
    split; [exact (Hvalue eq_refl "note" (PStr "hi") eq_refl)|exact Hkey].
Defined.

(** ** The outcome of a mutation *)

Section Mutation.

Variable execute_query : string -> result pyval.
Variable mutation_log_first : pyval -> option MutationLog.
Variable uuid4 : string.
Variable self : RegistryGQLManager.t.
Variable mutation_name : string.
Variable record : dict pyval.
Variable use_defaults : bool.

Let mutate : list event * result RegistryGQLManagerActionResult :=
  run (RegistryGQLManager.mutate_registry_record execute_query mutation_log_first uuid4
         self mutation_name record use_defaults).

Variable query : string.
Variable mutation_result : pyval.

Hypothesis built :
  GQLPayloadBuilder.build_mutation uuid4 (RegistryGQLManager.payload_builder self)
    record mutation_name use_defaults = Ok query.
Hypothesis executed : execute_query query = Ok mutation_result.

(** After the query was executed, the outcome is that of lines 278-291. *)
Lemma mutate_resolves :
  mutate = RegistryGQLManager.resolve_mutation mutation_log_first mutation_name
             mutation_result [Executed query].
Proof.
  unfold mutate, run, RegistryGQLManager.mutate_registry_record, io_bind, io_lift,
    RegistryGQLManager.client_execute_query.
  rewrite built. cbn [app]. rewrite executed. reflexivity.
Qed.

Variable errors : pyval.
Hypothesis errors_read : py_get mutation_result "errors" PNone = Ok errors.

Lemma mutate_errors :
  truthy errors = true -> mutate = ([Executed query], Raise (MutationError errors)).
Proof.
  intros H. rewrite mutate_resolves.
  unfold RegistryGQLManager.resolve_mutation, io_bind, io_lift, io_raise.
  rewrite errors_read, H. reflexivity.
Qed.

Hypothesis no_errors : truthy errors = false.

Variable client_mutation_id : pyval.
Hypothesis id_read :
  RegistryGQLManager.get_client_mutation_id mutation_result mutation_name
  = Ok client_mutation_id.

Lemma mutate_without_id :
  truthy client_mutation_id = false ->
  mutate = ([Executed query],
            Raise (MutationError
                     (PStr (RegistryGQLManager.invalid_mutation_data mutation_result)))).
Proof.
  intros H. rewrite mutate_resolves.
  unfold RegistryGQLManager.resolve_mutation, io_bind, io_lift, io_raise.
  rewrite errors_read, no_errors, id_read, H. reflexivity.
Qed.

Hypothesis id_present : truthy client_mutation_id = true.

Lemma mutate_looked_up :
  mutate
  = match mutation_log_first client_mutation_id with
    | None => ([Executed query; LookedUp client_mutation_id], Raise AttributeError)
    | Some log =>
        if is_error (status log)
        then ([Executed query; LookedUp client_mutation_id],
              Raise (MutationError (error log)))
        else ([Executed query; LookedUp client_mutation_id], Ok action_success)
    end.
Proof.
  rewrite mutate_resolves.
  unfold RegistryGQLManager.resolve_mutation, io_bind, io_lift, io_raise, io_ret,
    RegistryGQLManager.mutation_log_lookup.
  rewrite errors_read, no_errors, id_read, id_present. cbn [negb app].
  destruct (mutation_log_first client_mutation_id) as [log|]; [|reflexivity].
  destruct (is_error (status log)); reflexivity.
Qed.

End Mutation.

(** C1, as stated, fails: the response has no errors and carries a
    clientMutationId, the log holds no record for it (so no status Error is
    found), and the call does not return the success result: it raises
    [AttributeError]. *)
Lemma C1_counterexample :
  GQLPayloadBuilder.build_mutation example_uuid
    (RegistryGQLManager.payload_builder example_manager) example_record "createInsuree" true
  = Ok example_document
  /\ py_get response_accepted "errors" PNone = Ok PNone
  /\ RegistryGQLManager.get_client_mutation_id response_accepted "createInsuree"
     = Ok (PStr example_uuid)
  /\ run (RegistryGQLManager.mutate_registry_record
            (fun _ => Ok response_accepted) (fun _ => None) example_uuid
            example_manager "createInsuree" example_record true)
     = ([Executed example_document; LookedUp (PStr example_uuid)], Raise AttributeError)
  /\ snd (run (RegistryGQLManager.mutate_registry_record
                 (fun _ => Ok response_accepted) (fun _ => None) example_uuid
                 example_manager "createInsuree" example_record true))
     <> Ok action_success.
Proof.
  repeat split; try (vm_compute; reflexivity).
  vm_compute. discriminate.
Qed.

(** C1, amended: for a mutation call whose document builds and whose query
    the client executes, with [errors] the value of the response's [errors]
    entry: if [errors] is true the call raises [MutationError(errors)]; else,
    if the clientMutationId read from the response is missing or false, it
    raises [MutationError] with the invalid-mutation-data message; else the
    log is looked up by that id, after the execution, and when a log record is
    found the call raises [MutationError] with the record's error if its
    status is Error and returns [ActionResult{success: 1, data: None}] for any
    other status.  (The case where no log record is found is C10.) *)
Theorem C1_mutation_outcome
    (execute_query : string -> result pyval)
    (mutation_log_first : pyval -> option MutationLog) (uuid4 : string)
    (self : RegistryGQLManager.t) (mutation_name : string) (record : dict pyval)
    (use_defaults : bool) (query : string) (mutation_result errors : pyval) :
  GQLPayloadBuilder.build_mutation uuid4 (RegistryGQLManager.payload_builder self)
    record mutation_name use_defaults = Ok query ->
  execute_query query = Ok mutation_result ->
  py_get mutation_result "errors" PNone = Ok errors ->
  let mutate :=
    run (RegistryGQLManager.mutate_registry_record execute_query mutation_log_first uuid4
           self mutation_name record use_defaults) in
  (truthy errors = true -> mutate = ([Executed query], Raise (MutationError errors)))
  /\ (truthy errors = false ->
      forall client_mutation_id,
        RegistryGQLManager.get_client_mutation_id mutation_result mutation_name
        = Ok client_mutation_id ->
        (truthy client_mutation_id = false ->
         mutate = ([Executed query],
                   Raise (MutationError
                            (PStr (RegistryGQLManager.invalid_mutation_data
                                     mutation_result)))))
        /\ (truthy client_mutation_id = true ->
            forall log,
              mutation_log_first client_mutation_id = Some log ->
              (status log = Error ->
               mutate = ([Executed query; LookedUp client_mutation_id],
                         Raise (MutationError (error log))))
              /\ (status log <> Error ->
                  mutate = ([Executed query; LookedUp client_mutation_id],
                            Ok action_success)))).
Proof.
  intros Hb He Herr mutate. split.
  - intros Ht. exact (mutate_errors _ mutation_log_first _ _ _ _ _ _ _ Hb He _ Herr Ht).
  - intros Hno cid Hid. split.
    + intros Hfalse.
      exact (mutate_without_id _ mutation_log_first _ _ _ _ _ _ _ Hb He _ Herr Hno _ Hid Hfalse).
    + intros Htrue log Hlog.
      pose proof (mutate_looked_up _ mutation_log_first _ _ _ _ _ _ _ Hb He _ Herr Hno _ Hid
                    Htrue) as E.
      rewrite Hlog in E. split.
      * intros Hs. rewrite Hs in E. exact E.
      * intros Hs. destruct (status log); try exact E. now elim Hs.
Qed.

(** C10.  When the response has no errors and yields a clientMutationId that
    is true, and the log has no record for it, [mutate_registry_record] has
    executed the query and looked the id up and raises [AttributeError], the
    exception of [mutation_log.status] on [None]: the outcome is neither a
    result nor a [MutationError]. *)
Theorem C10_missing_log_record_raises
    (execute_query : string -> result pyval)
    (mutation_log_first : pyval -> option MutationLog) (uuid4 : string)
    (self : RegistryGQLManager.t) (mutation_name : string) (record : dict pyval)
    (use_defaults : bool) (query : string) (mutation_result errors client_mutation_id : pyval) :
  GQLPayloadBuilder.build_mutation uuid4 (RegistryGQLManager.payload_builder self)
    record mutation_name use_defaults = Ok query ->
  execute_query query = Ok mutation_result ->
  py_get mutation_result "errors" PNone = Ok errors ->
  truthy errors = false ->
  RegistryGQLManager.get_client_mutation_id mutation_result mutation_name
  = Ok client_mutation_id ->
  truthy client_mutation_id = true ->
  mutation_log_first client_mutation_id = None ->
  let mutate :=
    run (RegistryGQLManager.mutate_registry_record execute_query mutation_log_first uuid4
           self mutation_name record use_defaults) in
  mutate = ([Executed query; LookedUp client_mutation_id], Raise AttributeError)
  /\ (forall r, snd mutate <> Ok r)
  /\ (forall detail, snd mutate <> Raise (MutationError detail)).
Proof.
  intros Hb He Herr Hno Hid Htrue Hnone mutate.
  pose proof (mutate_looked_up _ mutation_log_first _ _ _ _ _ _ _ Hb He _ Herr Hno _ Hid
                Htrue) as E.
  rewrite Hnone in E. fold mutate in E. rewrite E.
  repeat split; intros; discriminate.
Qed.

(** The amended C1 on a response with errors, a response without an id, and
    an accepted response whose log record has the status Error, Success and
    Pending. *)
Lemma C1_witness :
  run (RegistryGQLManager.mutate_registry_record
         (fun _ => Ok response_errors) (fun _ => Some log_success) example_uuid
         example_manager "createInsuree" example_record true)
  = ([Executed example_document],
     Raise (MutationError (PList [PDict [("message", PStr "denied")]])))
  /\ run (RegistryGQLManager.mutate_registry_record
            (fun _ => Ok response_without_id) (fun _ => Some log_success) example_uuid
            example_manager "createInsuree" example_record true)
     = ([Executed example_document],
        Raise (MutationError
                 (PStr (RegistryGQLManager.invalid_mutation_data response_without_id))))
  /\ run (RegistryGQLManager.mutate_registry_record
            (fun _ => Ok response_accepted) (fun _ => Some log_error) example_uuid
            example_manager "createInsuree" example_record true)
     = ([Executed example_document; LookedUp (PStr example_uuid)],
        Raise (MutationError (PStr "duplicate insuree")))
  /\ run (RegistryGQLManager.mutate_registry_record
            (fun _ => Ok response_accepted) (fun _ => Some log_success) example_uuid
            example_manager "createInsuree" example_record true)
     = ([Executed example_document; LookedUp (PStr example_uuid)], Ok action_success)
  /\ run (RegistryGQLManager.mutate_registry_record
            (fun _ => Ok response_accepted) (fun _ => Some log_pending) example_uuid
            example_manager "createInsuree" example_record true)
     = ([Executed example_document; LookedUp (PStr example_uuid)], Ok action_success).
Proof.
  split.
  { refine (proj1 (C1_mutation_outcome (fun _ => Ok response_errors)
                     (fun _ => Some log_success) example_uuid example_manager
                     "createInsuree" example_record true example_document response_errors
                     (PList [PDict [("message", PStr "denied")]])
                     eq_refl eq_refl eq_refl) eq_refl). }
  split.
  { refine (proj1 (proj2 (C1_mutation_outcome (fun _ => Ok response_without_id)
                            (fun _ => Some log_success) example_uuid example_manager
                            "createInsuree" example_record true example_document
                            response_without_id PNone eq_refl eq_refl eq_refl)
                     eq_refl PNone eq_refl) eq_refl). }
  split.
  { refine (proj1 (proj2 (proj2 (C1_mutation_outcome (fun _ => Ok response_accepted)
                                   (fun _ => Some log_error) example_uuid example_manager
                                   "createInsuree" example_record true example_document
                                   response_accepted PNone eq_refl eq_refl eq_refl)
                            eq_refl (PStr example_uuid) eq_refl)
                     eq_refl log_error eq_refl) eq_refl). }
  split.
  { refine (proj2 (proj2 (proj2 (C1_mutation_outcome (fun _ => Ok response_accepted)
                                   (fun _ => Some log_success) example_uuid example_manager
                                   "createInsuree" example_record true example_document
                                   response_accepted PNone eq_refl eq_refl eq_refl)
                            eq_refl (PStr example_uuid) eq_refl)
                     eq_refl log_success eq_refl) _). discriminate. }
  refine (proj2 (proj2 (proj2 (C1_mutation_outcome (fun _ => Ok response_accepted)
                                 (fun _ => Some log_pending) example_uuid example_manager
                                 "createInsuree" example_record true example_document
                                 response_accepted PNone eq_refl eq_refl eq_refl)
                          eq_refl (PStr example_uuid) eq_refl)
                   eq_refl log_pending eq_refl) _). discriminate.
Defined.

(** C10 on an accepted response whose log has no record. *)
Lemma C10_witness :
  run (RegistryGQLManager.mutate_registry_record
         (fun _ => Ok response_accepted) (fun _ => None) example_uuid
         example_manager "createInsuree" example_record true)
  = ([Executed example_document; LookedUp (PStr example_uuid)], Raise AttributeError)
  /\ (forall r,
         snd (run (RegistryGQLManager.mutate_registry_record
                     (fun _ => Ok response_accepted) (fun _ => None) example_uuid
                     example_manager "createInsuree" example_record true)) <> Ok r)
  /\ (forall detail,
         snd (run (RegistryGQLManager.mutate_registry_record
                     (fun _ => Ok response_accepted) (fun _ => None) example_uuid
                     example_manager "createInsuree" example_record true))
         <> Raise (MutationError detail)).
Proof.
  exact (C10_missing_log_record_raises (fun _ => Ok response_accepted) (fun _ => None)
           example_uuid example_manager "createInsuree" example_record true
           example_document response_accepted PNone (PStr example_uuid)
           eq_refl eq_refl eq_refl eq_refl eq_refl eq_refl eq_refl).
Defined.

(** * Further properties of the code *)

(** ** Identifiers: [encode_id] and [decode_id] *)

Lemma str_split_length (c : ascii) (s : string) :
  length (str_split c s) = S (count_char c s).
Proof.
  induction s as [|a s IH]; [reflexivity|].
  cbn [str_split count_char]. destruct (Ascii.eqb a c).
  - cbn [length]. now rewrite IH.
  - destruct (str_split c s) as [|w ws]; [discriminate|]. exact IH.
Qed.

(** Decoding the encoding of any text splits that text at its colons. *)
Lemma decode_id_encoded_split (s : string) :
  DataConverterUtils.decode_id (PStr (encoded s))
  = match str_split ":" s with
    | [_; id_value] => Ok (PStr id_value)
    | _ => Raise ValueError
    end.
Proof.
  unfold DataConverterUtils.decode_id, encoded.
  pose proof (b64decode_encoded s) as E.
  destruct (Base64.b64decode _) as [raw|e]; cbn [bind] in *; [|discriminate].
  rewrite E. reflexivity.
Qed.


(** X1.  [decode_id] accepts the text that [encode_id] stored for an
    identifier exactly when the identifier, rendered as text, has one colon;
    for any other identifier, in particular a bare number, it raises
    [ValueError]. *)
Theorem X1_decode_of_encode_needs_one_colon
    (mapped_data : dict pyval) (model_name : string) (id_value : pyval) :
  dict_get "id" mapped_data = Some id_value ->
  DataConverterUtils.encode_id mapped_data model_name
  = Ok (dict_set "id" (PStr (encoded (py_str id_value))) mapped_data)
  /\ (count_char ":" (py_str id_value) = 1%nat ->
      exists raw_id,
        DataConverterUtils.decode_id (PStr (encoded (py_str id_value))) = Ok (PStr raw_id))
  /\ (count_char ":" (py_str id_value) <> 1%nat ->
      DataConverterUtils.decode_id (PStr (encoded (py_str id_value))) = Raise ValueError).
Proof.
  intros Hid. split.
  { unfold DataConverterUtils.encode_id. rewrite Hid, b64encode_text. reflexivity. }
  pose proof (str_split_length ":" (py_str id_value)) as L.
  rewrite decode_id_encoded_split.
  destruct (str_split ":" (py_str id_value)) as [|a [|b [|c l]]]; cbn [length] in L.
  - discriminate.
  - split; [intros H; rewrite H in L; discriminate|reflexivity].
  - split; [intros _; now eexists|intros H; exfalso; apply H; congruence].
  - split; [intros H; rewrite H in L; discriminate|reflexivity].
Qed.

(** X1 at the numeric identifier 5 and at the identifier [Insuree:5]. *)
Lemma X1_witness :
  DataConverterUtils.decode_id (PStr (encoded (py_str (PInt 5)))) = Raise ValueError
  /\ exists raw_id,
       DataConverterUtils.decode_id (PStr (encoded (py_str (PStr "Insuree:5"))))
       = Ok (PStr raw_id).
Proof.
  split.
  - refine (proj2 (proj2 (X1_decode_of_encode_needs_one_colon
                            [("id", PInt 5)] "Insuree" (PInt 5) eq_refl)) _).
    discriminate.
  - exact (proj1 (proj2 (X1_decode_of_encode_needs_one_colon
                           [("id", PStr "Insuree:5")] "Insuree" (PStr "Insuree:5") eq_refl))
             eq_refl).
Defined.



(** ** [extract_records] *)

Lemma map_result_Forall2 {A B : Type} (f : A -> result B) (l : list A) (l' : list B) :
  DataConverterUtils.map_result f l = Ok l' -> Forall2 (fun x y => f x = Ok y) l l'.
Proof.
  revert l'. induction l as [|x l IH]; intros l' H; cbn in H.
  - injection H as <-. constructor.
  - destruct (f x) as [y|e] eqn:E; cbn [bind] in H; [|discriminate].
    destruct (DataConverterUtils.map_result f l) as [ys|e]; cbn [bind] in H; [|discriminate].
    injection H as <-. constructor; auto.
Qed.

Lemma map_result_fails {A B : Type} (f : A -> result B) (l : list A) (x : A) (e : exn) :
  In x l -> f x = Raise e -> exists e', DataConverterUtils.map_result f l = Raise e'.
Proof.
  induction l as [|a l IH]; [intros []|]. intros [->|Hin] Hx; cbn.
  - rewrite Hx. now eexists.
  - destruct (f a) as [y|e0]; cbn [bind]; [|now eexists].
    destruct (IH Hin Hx) as [e' ->]. now eexists.
Qed.

(** X3.  [extract_records] reads a response that lacks [data], the query
    entry or [edges] as a response without records: it returns the empty list
    and raises nothing.  An edge without [node] gives an empty record. *)
Theorem X3_extract_records_missing_keys (query_get : string) :
  (forall envelope,
      dict_get "data" envelope = None ->
      DataConverterUtils.extract_records (PDict envelope) query_get = Ok [])
  /\ (forall envelope d,
         dict_get "data" envelope = Some (PDict d) -> dict_get query_get d = None ->
         DataConverterUtils.extract_records (PDict envelope) query_get = Ok [])
  /\ (forall envelope d c,
         dict_get "data" envelope = Some (PDict d) ->
         dict_get query_get d = Some (PDict c) -> dict_get "edges" c = None ->
         DataConverterUtils.extract_records (PDict envelope) query_get = Ok [])
  /\ (forall edges edge,
         dict_get "node" edge = None ->
         forall records,
           DataConverterUtils.extract_records (connection query_get edges) query_get
           = Ok records ->
           DataConverterUtils.extract_records
             (connection query_get (PDict edge :: edges)) query_get
           = Ok (PDict [] :: records)).
Proof.
  split; [|split; [|split]].
  - intros envelope H. unfold DataConverterUtils.extract_records.
    cbn [py_get]. now rewrite H.
  - intros envelope d H1 H2. unfold DataConverterUtils.extract_records.
    cbn [py_get]. rewrite H1. cbn [bind py_get]. now rewrite H2.
  - intros envelope d c H1 H2 H3. unfold DataConverterUtils.extract_records.
    cbn [py_get]. rewrite H1. cbn [bind py_get]. rewrite H2. cbn [bind py_get].
    now rewrite H3.
  - intros edges edge Hn records. rewrite !extract_records_connection.
    cbn [DataConverterUtils.map_result py_get]. rewrite Hn. cbn [bind].
    destruct (DataConverterUtils.map_result _ edges) as [nodes|e]; cbn [bind]; [|discriminate].
    intros H. cbn [DataConverterUtils.map_result].
    change (DataConverterUtils.convert_record (PDict [])) with (@Ok pyval (PDict [])).
    cbn [bind]. now rewrite H.
Qed.

(** X3 on [{}], on [{"data": {}}], on a connection without edges and on an
    edge without node. *)
Lemma X3_witness :
  DataConverterUtils.extract_records (PDict []) "insurees" = Ok []
  /\ DataConverterUtils.extract_records (PDict [("data", PDict [])]) "insurees" = Ok []
  /\ DataConverterUtils.extract_records
       (PDict [("data", PDict [("insurees", PDict [("totalCount", PInt 0)])])]) "insurees"
     = Ok []
  /\ DataConverterUtils.extract_records (connection "insurees" [PDict []]) "insurees"
     = Ok [PDict []].
Proof.
  destruct (X3_extract_records_missing_keys "insurees") as (H1 & H2 & H3 & H4).
  split; [exact (H1 [] eq_refl)|].
  split; [exact (H2 [("data", PDict [])] [] eq_refl eq_refl)|].
  split; [exact (H3 [("data", PDict [("insurees", PDict [("totalCount", PInt 0)])])]
                   [("insurees", PDict [("totalCount", PInt 0)])]
                   [("totalCount", PInt 0)] eq_refl eq_refl eq_refl)|].
  exact (H4 [] [] eq_refl [] eq_refl).
Defined.

(** X4.  When [extract_records] returns, it returns one record for each edge
    of the connection, in the order of the edges, each the conversion of that
    edge's node; if the node of any edge cannot be converted (an identifier
    that does not decode, a blob that is not a JSON object), the call raises
    and returns no record at all. *)
Theorem X4_extract_records_all_or_nothing (query_get : string) (edges : list pyval) :
  (forall records,
      DataConverterUtils.extract_records (connection query_get edges) query_get = Ok records ->
      length records = length edges
      /\ Forall2 (fun edge record =>
                    exists node,
                      py_get edge "node" (PDict []) = Ok node
                      /\ DataConverterUtils.convert_record node = Ok record)
           edges records)
  /\ (forall edge node e,
         In edge edges ->
         py_get edge "node" (PDict []) = Ok node ->
         DataConverterUtils.convert_record node = Raise e ->
         exists e',
           DataConverterUtils.extract_records (connection query_get edges) query_get
           = Raise e').
Proof.
  split.
  - intros records. rewrite extract_records_connection.
    destruct (DataConverterUtils.map_result _ edges) as [nodes|e] eqn:En; cbn [bind];
      [|discriminate].
    intros Hr. apply map_result_Forall2 in En, Hr.
    split.
    + apply Forall2_length in En, Hr. congruence.
    + clear - En Hr. revert records Hr.
      induction En as [|edge node edges nodes H En IH]; intros records Hr;
        inversion Hr; subst; constructor; eauto.
  - intros edge node e Hin Hn Hc. rewrite extract_records_connection.
    destruct (DataConverterUtils.map_result _ edges) as [nodes|e0] eqn:En; cbn [bind];
      [|now eexists].
    apply map_result_Forall2 in En.
    assert (Hnode : In node nodes).
    { clear - En Hin Hn. induction En as [|a b l l' H En IH]; [destruct Hin|].
      destruct Hin as [->|Hin]; [left; congruence|right; auto]. }
    exact (map_result_fails _ _ _ _ Hnode Hc).
Qed.

(** X4 on a page of two edges, and on a page whose second identifier is not
    base64 of a text with a colon. *)
Lemma X4_witness :
  (length [PDict [("id", PStr "5")]; PDict [("code", PStr "A1"); ("note", PStr "hi")]]
   = length [PDict [("node", PDict [("id", PStr "SW5zdXJlZTo1")])];
             PDict [("node", PDict [("code", PStr "A1"); ("jsonExt", PStr example_blob)])]])
  /\ exists e',
       DataConverterUtils.extract_records
         (connection "insurees"
            [PDict [("node", PDict [("id", PStr "SW5zdXJlZTo1")])];
             PDict [("node", PDict [("id", PStr "NQ==")])]]) "insurees"
       = Raise e'.
Proof.
  split.
  - exact (proj1 (proj1 (X4_extract_records_all_or_nothing "insurees"
                           [PDict [("node", PDict [("id", PStr "SW5zdXJlZTo1")])];
                            PDict [("node", PDict [("code", PStr "A1");
                                                   ("jsonExt", PStr example_blob)])]])
                    [PDict [("id", PStr "5")];
                     PDict [("code", PStr "A1"); ("note", PStr "hi")]] eq_refl)).
  - refine (proj2 (X4_extract_records_all_or_nothing "insurees"
                     [PDict [("node", PDict [("id", PStr "SW5zdXJlZTo1")])];
                      PDict [("node", PDict [("id", PStr "NQ==")])]])
              (PDict [("node", PDict [("id", PStr "NQ==")])])
              (PDict [("id", PStr "NQ==")]) ValueError _ eq_refl eq_refl).
    right. left. reflexivity.
Defined.

(** ** [map_to_registry] *)

Lemma dict_get_In {V : Type} (k : string) (v : V) (d : dict V) :
  dict_get k d = Some v -> In (k, v) d.
Proof.
  induction d as [|[k' v'] d IH]; cbn; [discriminate|].
  destruct (String.eqb_spec k k') as [->|_]; [intros [= ->]; now left|right; auto].
Qed.

Lemma In_dict_set {V : Type} (k k0 : string) (v v0 : V) (d : dict V) :
  In (k, v) (dict_set k0 v0 d) -> (k, v) = (k0, v0) \/ In (k, v) d.
Proof.
  induction d as [|[k' v'] d IH]; cbn.
  - intros [H|[]]. left. congruence.
  - destruct (String.eqb k0 k'); cbn.
    + intros [H|H]; [left; congruence|right; now right].
    + intros [H|H]; [right; now left|]. destruct (IH H) as [E|E]; [now left|right; now right].
Qed.

(** Every pair of the reversed mapping is a pair of the mapping, swapped. *)
Lemma reversed_pairs (self : DataMapper.t) (g h : string) :
  In (g, h) (DataMapper.reversed_fields_mapping self) ->
  In (h, g) (DataMapper.fields_mapping self).
Proof.
  unfold DataMapper.reversed_fields_mapping.
  assert (G : forall fm acc,
             In (g, h) (fold_left (fun acc kv => dict_set (snd kv) (fst kv) acc) fm acc) ->
             In (g, h) acc \/ In (h, g) fm).
  { induction fm as [|[k0 g0] fm IH]; intros acc H; cbn in *; [now left|].
    destruct (IH _ H) as [H'|H']; [|right; now right].
    destruct (In_dict_set _ _ _ _ _ H') as [E|E]; [|now left].
    right. left. congruence. }
  intros H. destruct (G _ _ H) as [[]|H']. exact H'.
Qed.

(** What the inner loop of [map_to_registry] adds to an entry. *)
Lemma map_entry_pairs (self : DataMapper.t) (items mapped_entry : dict pyval)
    (k : string) (v : pyval) :
  In (k, v) (DataMapper.map_entry self items mapped_entry) ->
  In (k, v) mapped_entry
  \/ exists k0,
       In (k0, v) items
       /\ mem k0 (DataMapper.meta_fields self) = false
       /\ (In (k, k0) (DataMapper.fields_mapping self)
           \/ (k = k0 /\ mem k0 (DataMapper.special_fields self) = true)).
Proof.
  revert mapped_entry. induction items as [|[k0 v0] items IH]; intros e H.
  - now left.
  - cbn [DataMapper.map_entry] in H.
    destruct (mem k0 (DataMapper.meta_fields self)) eqn:Em.
    + destruct (IH _ H) as [H'|(k1 & Hin & Hrest)]; [now left|].
      right. exists k1. split; [now right|exact Hrest].
    + destruct (IH _ H) as [H'|(k1 & Hin & Hrest)];
        [|right; exists k1; split; [now right|exact Hrest]].
      assert (Hspecial :
                forall e1, In (k, v)
                             (if mem k0 (DataMapper.special_fields self)
                              then dict_set k0 v0 e1 else e1) ->
                           In (k, v) e1
                           \/ ((k, v) = (k0, v0)
                               /\ mem k0 (DataMapper.special_fields self) = true)).
      { intros e1 He1. destruct (mem k0 (DataMapper.special_fields self)); [|now left].
        destruct (In_dict_set _ _ _ _ _ He1) as [E|E]; [right; now split|now left]. }
      destruct (Hspecial _ H') as [H1|[E Hs]].
      * destruct (dict_get k0 (DataMapper.reversed_fields_mapping self)) as [h|] eqn:Er;
          [|now left].
        destruct (In_dict_set _ _ _ _ _ H1) as [E|E]; [|now left].
        injection E as -> ->. right. exists k0. split; [now left|]. split; [exact Em|].
        left. apply reversed_pairs. now apply dict_get_In.
      * injection E as -> ->. right. exists k0. split; [now left|]. split; [exact Em|].
        right. now split.
Qed.

Lemma map_to_registry_dicts (self : DataMapper.t) (records : list (dict pyval)) :
  DataMapper.map_to_registry self (map PDict records)
  = Ok (map (fun r => DataMapper.map_entry self r []) records).
Proof.
  induction records as [|r records IH]; [reflexivity|].
  cbn [map DataMapper.map_to_registry]. rewrite IH. reflexivity.
Qed.

(** X5.  On records that are dicts [map_to_registry] never raises and maps
    each record on its own, in order.  Every field of a mapped record carries
    the value of a field of the source record that is not a meta field, and
    its name is either the external name that the field mapping gives to that
    internal name or that name itself when it is a special name: an internal
    field that is neither mapped nor special is dropped.  A record that is not
    a dict makes the call raise [AttributeError]. *)
Theorem X5_map_to_registry_keeps_known_fields (self : DataMapper.t) :
  (forall records,
      DataMapper.map_to_registry self (map PDict records)
      = Ok (map (fun r => DataMapper.map_entry self r []) records))
  /\ (forall record k v,
         In (k, v) (DataMapper.map_entry self record []) ->
         exists k0,
           In (k0, v) record
           /\ mem k0 (DataMapper.meta_fields self) = false
           /\ (In (k, k0) (DataMapper.fields_mapping self)
               \/ (k = k0 /\ mem k0 (DataMapper.special_fields self) = true)))
  /\ (forall graphql_data,
         existsb (fun r => negb (is_dict r)) graphql_data = true ->
         DataMapper.map_to_registry self graphql_data = Raise AttributeError).
Proof.
  split; [exact (map_to_registry_dicts self)|]. split.
  - intros record k v H. destruct (map_entry_pairs _ _ _ _ _ H) as [[]|H']. exact H'.
  - induction graphql_data as [|r l IH]; cbn [existsb]; [discriminate|].
    intros H. cbn [DataMapper.map_to_registry].
    destruct r; try reflexivity.
    cbn [is_dict negb orb] in H. now rewrite (IH H).
Qed.

(** X5 on a record with a mapped, a meta and an unknown internal field, and
    on a list with a record that is [None]. *)
Lemma X5_witness :
  (exists k0,
      In (k0, PStr "Jo") [("firstName", PStr "Jo"); ("uuid", PStr "u1"); ("age", PInt 30)]
      /\ mem k0 (DataMapper.meta_fields example_mapper) = false
      /\ (In ("name", k0) (DataMapper.fields_mapping example_mapper)
          \/ ("name" = k0 /\ mem k0 (DataMapper.special_fields example_mapper) = true)))
  /\ DataMapper.map_to_registry example_mapper [PDict [("firstName", PStr "Jo")]; PNone]
     = Raise AttributeError.
Proof.
  split.
  - refine (proj1 (proj2 (X5_map_to_registry_keeps_known_fields example_mapper))
              [("firstName", PStr "Jo"); ("uuid", PStr "u1"); ("age", PInt 30)]
              "name" (PStr "Jo") _).
    left. reflexivity.
  - exact (proj2 (proj2 (X5_map_to_registry_keeps_known_fields example_mapper))
             [PDict [("firstName", PStr "Jo")]; PNone] eq_refl).
Defined.

(** ** [map_to_graphql]: where the fields go *)

Lemma dict_update_cons {V : Type} (d : dict V) (k : string) (v : V) (items : dict V) :
  dict_update d ((k, v) :: items) = dict_update (dict_set k v d) items.
Proof. reflexivity. Qed.

Lemma first_unsupported_cons (self : DataMapper.t) (k : string) (v : pyval)
    (record : dict pyval) :
  first_unsupported self ((k, v) :: record) = None ->
  allowed self k = true /\ first_unsupported self record = None.
Proof.
  unfold first_unsupported. cbn [dict_keys map fst find].
  destruct (allowed self k); cbn [negb]; [now split|discriminate].
Qed.

(** The loop of [map_to_graphql] sends the special fields to the extension
    dict and every other field, under its forward name, to the mapped data. *)
Lemma map_fields_split (self : DataMapper.t) (record mapped_data json_ext : dict pyval) :
  first_unsupported self record = None ->
  DataMapper.map_fields self record mapped_data json_ext
  = Ok (dict_update mapped_data (forward_image self (plain_part self record)),
        dict_update json_ext (special_part self record)).
Proof.
  revert mapped_data json_ext.
  induction record as [|[k v] record IH]; intros m j H; [reflexivity|].
  apply first_unsupported_cons in H as [Hk Hr].
  unfold allowed, dict_mem in Hk.
  cbn [DataMapper.map_fields plain_part special_part filter fst].
  unfold special_only, dict_mem.
  change (forward_key self k)
    with (match dict_get k (DataMapper.fields_mapping self) with
          | Some g => g
          | None => k
          end).
  destruct (dict_get k (DataMapper.fields_mapping self)) as [g|] eqn:E.
  - cbn [negb andb forward_image map fst snd]. unfold forward_key at 1. rewrite E.
    rewrite dict_update_cons. apply (IH _ _ Hr).
  - cbn [orb negb andb] in *.
    destruct (mem k (DataMapper.special_fields self)).
    + cbn [negb]. rewrite dict_update_cons. apply (IH _ _ Hr).
    + cbn [orb negb forward_image map fst snd] in *. rewrite Hk.
      unfold forward_key at 1. rewrite E.
      rewrite dict_update_cons. apply (IH _ _ Hr).
Qed.

Lemma NoDup_keys_filter {V : Type} (f : string * V -> bool) (d : dict V) :
  NoDup (dict_keys d) -> NoDup (dict_keys (filter f d)).
Proof.
  unfold dict_keys. induction d as [|kv d IH]; cbn; [auto|].
  intros N. inversion N as [|? ? Hk N']; subst.
  destruct (f kv); cbn; [|auto]. constructor; [|auto].
  intros Hin. apply Hk. apply in_map_iff in Hin as (x & <- & Hx).
  apply filter_In in Hx as [Hx _]. now apply in_map.
Qed.

Lemma map_to_graphql_attached (self : DataMapper.t) (record : dict pyval) :
  distinct (dict_keys record) = true ->
  first_unsupported self record = None ->
  DataMapper.map_to_graphql self record
  = Ok (attach_json_ext (special_part self record)
          (dict_update [] (forward_image self (plain_part self record)))).
Proof.
  intros D H.
  unfold DataMapper.map_to_graphql. rewrite (map_fields_split _ _ _ _ H).
  cbn [bind fst snd].
  rewrite (dict_update_fresh (special_part self record) []).
  - cbn [app]. unfold attach_json_ext. now destruct (special_part self record).
  - cbn [app]. apply NoDup_keys_filter. now apply distinct_NoDup.
Qed.

(** X6.  For a record whose field names are all accepted, [map_to_graphql]
    returns the fields that are not special, each under its mapped name (or
    its own name for a meta field), in the order of the record, a later field
    with the same target overwriting an earlier one in place; if the record
    has special fields, the entry [jsonExt] holds the JSON text of exactly
    those fields, in their order; if it has none, nothing is added. *)
Theorem X6_map_to_graphql_packs_special_fields (self : DataMapper.t) (record : dict pyval) :
  distinct (dict_keys record) = true ->
  first_unsupported self record = None ->
  let plain := dict_update [] (forward_image self (plain_part self record)) in
  DataMapper.map_to_graphql self record
  = Ok (attach_json_ext (special_part self record) plain)
  /\ (special_part self record = [] ->
      DataMapper.map_to_graphql self record = Ok plain)
  /\ (special_part self record <> [] ->
      exists mapped,
        DataMapper.map_to_graphql self record = Ok mapped
        /\ dict_get "jsonExt" mapped
           = Some (PStr (Json.dumps (PDict (special_part self record))))
        /\ forall k, k <> "jsonExt" -> dict_get k mapped = dict_get k plain).
Proof.
  intros D H plain.
  assert (E : DataMapper.map_to_graphql self record
              = Ok (attach_json_ext (special_part self record) plain))
    by exact (map_to_graphql_attached self record D H).
  split; [exact E|]. split.
  - intros Hs. now rewrite E, Hs.
  - intros Hs. eexists. split; [exact E|].
    unfold attach_json_ext. destruct (special_part self record) as [|kv sp]; [now elim Hs|].
    split; [apply dict_get_set_same|].
    intros k Hk. now apply dict_get_set_other.
Qed.

(** X6 on the record [{name: Jo, note: hi, uuid: u1}] of the example mapper. *)
Lemma X6_witness :
  DataMapper.map_to_graphql example_mapper
    [("name", PStr "Jo"); ("note", PStr "hi"); ("uuid", PStr "u1")]
  = Ok [("firstName", PStr "Jo"); ("uuid", PStr "u1"); ("jsonExt", PStr example_blob)].
Proof.
  exact (proj1 (X6_map_to_graphql_packs_special_fields example_mapper
                  [("name", PStr "Jo"); ("note", PStr "hi"); ("uuid", PStr "u1")]
                  eq_refl eq_refl)).
Defined.

(** ** Queries do not filter on special fields *)

Lemma dict_del_set_same {V : Type} (k : string) (v : V) (d : dict V) :
  dict_del k (dict_set k v d) = dict_del k d.
Proof.
  induction d as [|[k' v'] d IH]; cbn.
  - now rewrite String.eqb_refl.
  - destruct (String.eqb k k') eqn:E; cbn.
    + now rewrite String.eqb_refl.
    + now rewrite E, IH.
Qed.


Lemma dict_del_comm {V : Type} (k1 k2 : string) (d : dict V) :
  dict_del k1 (dict_del k2 d) = dict_del k2 (dict_del k1 d).
Proof.
  induction d as [|[k' v'] d IH]; cbn; [reflexivity|].
  destruct (String.eqb k2 k') eqn:E2; destruct (String.eqb k1 k') eqn:E1; cbn;
    rewrite ?E1, ?E2, ?IH; reflexivity.
Qed.





(** ** The builder's own mapper *)

Lemma builder_mapper (mapper : DataMapper.t) (id_field : string) :
  GQLPayloadBuilder.gql_mapper (GQLPayloadBuilder.init mapper id_field)
  = DataMapper.init (DataMapper.fields_mapping mapper) (DataMapper.special_fields mapper)
      (DataMapper.default_values mapper) None.
Proof. reflexivity. Qed.

(** X8.  A builder maps with a mapper of its own that has the default meta
    fields [uuid] and [uuids], whatever meta fields the mapper it was made
    from has.  So a record with a field that is a meta field of that mapper
    only (not mapped, not special, not [uuid] or [uuids]) is rejected by the
    three build operations with the unsupported-field error, although the
    mapper itself accepts the field. *)
Theorem X8_builder_ignores_custom_meta_fields (mapper : DataMapper.t) (id_field : string)
    (record : dict pyval) (k : string) :
  In k (dict_keys record) ->
  mem k (DataMapper.meta_fields mapper) = true ->
  dict_mem k (DataMapper.fields_mapping mapper) = false ->
  mem k (DataMapper.special_fields mapper) = false ->
  mem k ["uuid"; "uuids"] = false ->
  let builder := GQLPayloadBuilder.init mapper id_field in
  allowed mapper k = true
  /\ exists k',
       In k' (dict_keys record)
       /\ let e := MutationError
                     (PStr (DataMapper.unsupported_field_message
                              (GQLPayloadBuilder.gql_mapper builder) k')) in
          (forall uuid4 mutation_name use_defaults,
              GQLPayloadBuilder.build_mutation uuid4 builder record mutation_name use_defaults
              = Raise e)
          /\ (forall query_name ordering page page_size,
                 GQLPayloadBuilder.build_list_query builder query_name record ordering
                   page page_size = Raise e)
          /\ (forall query_name after_cursor fetched_fields first,
                 GQLPayloadBuilder.build_record_query builder query_name record after_cursor
                   fetched_fields first = Raise e).
Proof.
  intros Hin Hmeta Hmapped Hspecial Hdefault builder. split.
  { unfold allowed. rewrite Hmeta. now rewrite !orb_true_r. }
  assert (Hk : allowed (GQLPayloadBuilder.gql_mapper builder) k = false).
  { unfold builder. rewrite builder_mapper. unfold allowed. cbn [DataMapper.init
      DataMapper.fields_mapping DataMapper.special_fields DataMapper.meta_fields].
    now rewrite Hmapped, Hspecial, Hdefault. }
  destruct (first_unsupported_some _ _ _ Hin Hk) as (k' & E & Hin' & _).
  pose proof (map_to_graphql_outcome (GQLPayloadBuilder.gql_mapper builder) record) as H.
  rewrite E in H. exists k'. split; [exact Hin'|]. cbn zeta. repeat split.
  - intros. unfold GQLPayloadBuilder.build_mutation. now rewrite H.
  - intros. unfold GQLPayloadBuilder.build_list_query. now rewrite H.
  - intros. unfold GQLPayloadBuilder.build_record_query. now rewrite H.
Qed.

(** X8 for a mapper that has the meta field [ids]. *)
Lemma X8_witness :
  allowed (DataMapper.init [("name", "firstName")] ["note"] [] (Some ["ids"])) "ids" = true
  /\ exists k',
       In k' (dict_keys [("ids", PList [PStr "1"])])
       /\ GQLPayloadBuilder.build_mutation example_uuid
            (GQLPayloadBuilder.init
               (DataMapper.init [("name", "firstName")] ["note"] [] (Some ["ids"])) "id")
            [("ids", PList [PStr "1"])] "deleteInsurees" true
          = Raise (MutationError
                     (PStr (DataMapper.unsupported_field_message example_mapper k'))).
Proof.
  destruct (X8_builder_ignores_custom_meta_fields
              (DataMapper.init [("name", "firstName")] ["note"] [] (Some ["ids"])) "id"
              [("ids", PList [PStr "1"])] "ids"
              (or_introl eq_refl) eq_refl eq_refl eq_refl eq_refl)
    as (Hallowed & k' & Hin & Hmutation & _).
  split; [exact Hallowed|].
  exists k'. split; [exact Hin|].
  exact (Hmutation example_uuid "deleteInsurees" true).
Defined.

(** ** [fill_payload_with_defaults] and [build_mutation] *)

Lemma dict_get_del_all {V : Type} (keys : list string) (k : string) (d : dict V) :
  dict_get k (fold_left (fun acc key => dict_del key acc) keys d)
  = if mem k keys then None else dict_get k d.
Proof.
  revert d. induction keys as [|k0 keys IH]; intros d; [reflexivity|].
  cbn [fold_left mem existsb]. rewrite IH.
  fold (mem k keys). destruct (mem k keys); [now rewrite orb_true_r|].
  rewrite orb_false_r. destruct (String.eqb_spec k k0) as [->|Hk].
  - apply dict_get_del_same.
  - now apply dict_get_del_other.
Qed.

Lemma In_dict_del {V : Type} (k k0 : string) (v : V) (d : dict V) :
  In (k, v) (dict_del k0 d) -> In (k, v) d.
Proof.
  induction d as [|[k' v'] d IH]; cbn; [auto|].
  destruct (String.eqb k0 k'); cbn; [auto|]. intros [H|H]; auto.
Qed.

Lemma In_del_all {V : Type} (keys : list string) (k : string) (v : V) (d : dict V) :
  In (k, v) (fold_left (fun acc key => dict_del key acc) keys d) -> In (k, v) d.
Proof.
  revert d. induction keys as [|k0 keys IH]; intros d H; [exact H|].
  cbn [fold_left] in H. apply IH in H. now apply In_dict_del in H.
Qed.

Lemma In_dict_update {V : Type} (k : string) (v : V) (other d : dict V) :
  In (k, v) (dict_update d other) -> In (k, v) d \/ In (k, v) other.
Proof.
  revert d. unfold dict_update.
  induction other as [|[k0 v0] other IH]; intros d H; cbn in *; [now left|].
  destruct (IH _ H) as [H'|H']; [|right; now right].
  destruct (In_dict_set _ _ _ _ _ H') as [E|E]; [right; left; congruence|now left].
Qed.

Lemma dict_get_not_mem_In {V : Type} (k : string) (v : V) (d : dict V) :
  In (k, v) d -> dict_get k d <> None.
Proof.
  induction d as [|[k' v'] d IH]; cbn; [intros []|].
  intros [H|H].
  - injection H as -> ->. now rewrite String.eqb_refl.
  - destruct (String.eqb k k'); [discriminate|auto].
Qed.

Lemma dict_get_map_text (k : string) (d : dict string) :
  dict_get k (map (fun kv => (fst kv, PStr (snd kv))) d) = option_map PStr (dict_get k d).
Proof.
  induction d as [|[k' v'] d IH]; cbn; [reflexivity|].
  destruct (String.eqb k k'); [reflexivity|exact IH].
Qed.

Lemma texts_of_text (vs : list pyval) :
  Forall (fun v => is_text v = true) vs -> exists ss, GQLPayloadTemplate.texts vs = Ok ss.
Proof.
  induction 1 as [|v vs Hv _ [ss IH]]; [now eexists|].
  destruct v; try discriminate. cbn. rewrite IH. now eexists.
Qed.

(** Every value that [fill_payload_with_defaults] returns is text. *)
Lemma defaults_are_text (self : GQLPayloadBuilder.t) (mapped_data : dict pyval) :
  Forall (fun v => is_text v = true)
    (dict_values (GQLPayloadBuilder.fill_payload_with_defaults self mapped_data)).
Proof.
  apply Forall_forall. intros v Hv.
  unfold dict_values in Hv. apply in_map_iff in Hv as ([k v'] & <- & Hin). cbn [snd].
  unfold GQLPayloadBuilder.fill_payload_with_defaults in Hin.
  pose proof Hin as Hget. apply dict_get_not_mem_In in Hget.
  rewrite dict_get_del_all in Hget.
  destruct (mem k (dict_keys mapped_data)) eqn:Hm; [now elim Hget|].
  apply In_del_all in Hin.
  assert (Hadapted1 :
            In (k, v') (dict_update
                          (map (fun kv => (fst kv, PStr (snd kv)))
                             (GQLPayloadBuilder.default_values self)) mapped_data) ->
            is_text v' = true).
  { intros H. apply In_dict_update in H as [H|H].
    - apply in_map_iff in H as (kv & E & _). now injection E as _ <-.
    - apply mem_not_In in Hm. elim Hm. unfold dict_keys.
      now apply (in_map fst) in H. }
  destruct (dict_get "id" mapped_data) as [i|]; [|auto].
  destruct (dict_mem (GQLPayloadBuilder.id_field self) _); [auto|].
  apply In_dict_set in Hin as [E|H]; [|auto]. now injection E as _ ->.
Qed.

(** X9.  [build_mutation] fails only where mapping or serialization fails:
    when the record is mapped and its arguments are serialized, the document
    is built, with or without defaults (the default fragments are always
    text, so joining them cannot fail), and it contains the correlation
    identifier, the fixed label and the arguments. *)
Theorem X9_build_mutation_succeeds (uuid4 : string) (self : GQLPayloadBuilder.t)
    (record mapped_data : dict pyval) (mutation_name : string) (use_defaults : bool)
    (args : string) :
  DataMapper.map_to_graphql (GQLPayloadBuilder.gql_mapper self) record = Ok mapped_data ->
  GQLPayloadBuilder.create_arguments_with_values mapped_data = Ok args ->
  exists document,
    GQLPayloadBuilder.build_mutation uuid4 self record mutation_name use_defaults = Ok document
    /\ contains ("clientMutationId: " ++ dq ++ uuid4 ++ dq) document
    /\ contains ("clientMutationLabel: " ++ dq ++ "GovStack Digital Registry BB Action" ++ dq)
         document
    /\ contains (mutation_name ++ "(") document
    /\ contains args document.
Proof.
  intros Hm Ha. unfold GQLPayloadBuilder.build_mutation. rewrite Hm. cbn [bind].
  rewrite Ha. cbn [bind]. unfold GQLPayloadTemplate.get_mutation.
  assert (Hd : exists s,
             match (if use_defaults
                    then GQLPayloadBuilder.fill_payload_with_defaults self mapped_data
                    else []) with
             | [] => Ok EmptyString
             | _ => ss <- GQLPayloadTemplate.texts
                           (dict_values
                              (if use_defaults
                               then GQLPayloadBuilder.fill_payload_with_defaults self mapped_data
                               else [])) ;;
                    Ok (str_join " " ss)
             end = Ok s).
  { destruct use_defaults; [|now eexists].
    destruct (texts_of_text _ (defaults_are_text self mapped_data)) as [ss Hss].
    rewrite Hss. destruct (GQLPayloadBuilder.fill_payload_with_defaults self mapped_data);
      now eexists. }
  destruct Hd as [s ->]. cbn [bind]. eexists. split; [reflexivity|].
  unfold GQLPayloadTemplate.line. repeat split.
  - do 4 apply contains_app_r. apply contains_app_l, contains_app_r, contains_app_l.
    apply contains_refl.
  - do 5 apply contains_app_r. apply contains_app_l, contains_app_r, contains_app_l.
    apply contains_refl.
  - do 2 apply contains_app_r. apply contains_app_l, contains_app_r, contains_app_l.
    apply contains_refl.
  - do 6 apply contains_app_r. apply contains_app_l, contains_app_r, contains_app_l.
    apply contains_refl.
Qed.

(** X9 on the example record. *)
Lemma X9_witness :
  exists document,
    GQLPayloadBuilder.build_mutation example_uuid
      (GQLPayloadBuilder.init example_mapper "id") example_record "createInsuree" true
    = Ok document
    /\ contains ("clientMutationId: " ++ dq ++ example_uuid ++ dq) document
    /\ contains ("clientMutationLabel: " ++ dq ++ "GovStack Digital Registry BB Action" ++ dq)
         document
    /\ contains ("createInsuree" ++ "(") document
    /\ contains example_firstName_argument document.
Proof.
  exact (X9_build_mutation_succeeds example_uuid (GQLPayloadBuilder.init example_mapper "id")
           example_record example_mapped "createInsuree" true example_firstName_argument
           eq_refl eq_refl).
Defined.

(** X10.  The fragments that [fill_payload_with_defaults] returns never name
    a key of the mapped data; a default whose key is not in the mapped data is
    returned as it is; and when the mapped data has [id] while the identifier
    field is neither in it nor among the defaults, the fragment
    [<id_field>: "<id>"] is returned under the identifier field. *)
Theorem X10_defaults_complete_the_payload (self : GQLPayloadBuilder.t)
    (mapped_data : dict pyval) :
  let defaults := GQLPayloadBuilder.fill_payload_with_defaults self mapped_data in
  (forall k, In k (dict_keys mapped_data) -> dict_get k defaults = None)
  /\ (forall k fragment,
         ~ In k (dict_keys mapped_data) ->
         dict_get k (GQLPayloadBuilder.default_values self) = Some fragment ->
         dict_get k defaults = Some (PStr fragment))
  /\ (forall i,
         dict_get "id" mapped_data = Some i ->
         ~ In (GQLPayloadBuilder.id_field self) (dict_keys mapped_data) ->
         dict_get (GQLPayloadBuilder.id_field self) (GQLPayloadBuilder.default_values self)
         = None ->
         dict_get (GQLPayloadBuilder.id_field self) defaults
         = Some (PStr (GQLPayloadBuilder.id_field self ++ ": " ++ dq ++ py_str i ++ dq))).
Proof.
  intros defaults. unfold defaults, GQLPayloadBuilder.fill_payload_with_defaults.
  split; [|split].
  - intros k Hk. rewrite dict_get_del_all. apply mem_In in Hk. now rewrite Hk.
  - intros k fragment Hk Hd. rewrite dict_get_del_all.
    pose proof Hk as Hk'. apply mem_not_In in Hk'. rewrite Hk'.
    assert (H1 : dict_get k (dict_update
                               (map (fun kv => (fst kv, PStr (snd kv)))
                                  (GQLPayloadBuilder.default_values self)) mapped_data)
                 = Some (PStr fragment)).
    { rewrite dict_get_update_absent; [|now apply dict_get_not_In].
      now rewrite dict_get_map_text, Hd. }
    destruct (dict_get "id" mapped_data) as [i|]; [|exact H1].
    unfold dict_mem.
    destruct (dict_get (GQLPayloadBuilder.id_field self) _) eqn:E; [exact H1|].
    rewrite dict_get_set_other; [exact H1|]. intros ->. congruence.
  - intros i Hi Hk Hd. rewrite dict_get_del_all.
    apply mem_not_In in Hk. rewrite Hk, Hi. unfold dict_mem.
    rewrite dict_get_update_absent; [|now apply dict_get_not_In, mem_not_In].
    rewrite dict_get_map_text, Hd. cbn [option_map]. apply dict_get_set_same.
Qed.

(** X10 for the identifier field [chfId], the defaults of [gender] and
    [firstName], and the mapped data [{firstName: Jo, id: 7}]. *)
Lemma X10_witness :
  let self := GQLPayloadBuilder.init
                (DataMapper.init [("name", "firstName"); ("ID", "id")] []
                   [("gender", "gender: M"); ("firstName", "firstName: X")] None) "chfId" in
  let defaults :=
    GQLPayloadBuilder.fill_payload_with_defaults self
      [("firstName", PStr "Jo"); ("id", PStr "7")] in
  dict_get "firstName" defaults = None
  /\ dict_get "gender" defaults = Some (PStr "gender: M")
  /\ dict_get "chfId" defaults = Some (PStr ("chfId" ++ ": " ++ dq ++ "7" ++ dq)).
Proof.
  intros self defaults.
  destruct (X10_defaults_complete_the_payload self
              [("firstName", PStr "Jo"); ("id", PStr "7")]) as (H1 & H2 & H3).
  split; [exact (H1 "firstName" (or_introl eq_refl))|].
  split.
  - refine (H2 "gender" "gender: M" _ eq_refl).
    intros [H|[H|[]]]; discriminate.
  - refine (H3 (PStr "7") eq_refl _ eq_refl).
    intros [H|[H|[]]]; discriminate.
Defined.

(** ** [mutate_registry_record]: calls and malformed responses *)

(** X11.  [mutate_registry_record] calls its collaborators in a fixed order
    and at most once each: nothing when the document cannot be built; the
    client once, with the built document; and the mutation log only after
    that, only when the client returned a response without errors, and only
    with the non-empty clientMutationId read from that response. *)
Theorem X11_mutation_calls_in_order
    (execute_query : string -> result pyval)
    (mutation_log_first : pyval -> option MutationLog) (uuid4 : string)
    (self : RegistryGQLManager.t) (mutation_name : string) (record : dict pyval)
    (use_defaults : bool) :
  let outcome :=
    run (RegistryGQLManager.mutate_registry_record execute_query mutation_log_first uuid4
           self mutation_name record use_defaults) in
  match GQLPayloadBuilder.build_mutation uuid4 (RegistryGQLManager.payload_builder self)
          record mutation_name use_defaults with
  | Raise e => outcome = ([], Raise e)
  | Ok query =>
      fst outcome = [Executed query]
      \/ exists response errors client_mutation_id,
           execute_query query = Ok response
           /\ py_get response "errors" PNone = Ok errors /\ truthy errors = false
           /\ RegistryGQLManager.get_client_mutation_id response mutation_name
              = Ok client_mutation_id
           /\ truthy client_mutation_id = true
           /\ fst outcome = [Executed query; LookedUp client_mutation_id]
  end.
Proof.
  intros outcome. unfold outcome, run, RegistryGQLManager.mutate_registry_record,
    io_bind, io_lift, RegistryGQLManager.client_execute_query.
  destruct (GQLPayloadBuilder.build_mutation _ _ _ _ _) as [query|e]; [|reflexivity].
  cbn [app]. destruct (execute_query query) as [response|e] eqn:Ex; [|now left].
  unfold RegistryGQLManager.resolve_mutation, io_bind, io_lift, io_raise, io_ret,
    RegistryGQLManager.mutation_log_lookup.
  destruct (py_get response "errors" PNone) as [errors|e] eqn:Ee; [|now left].
  destruct (truthy errors) eqn:Et; [now left|].
  destruct (RegistryGQLManager.get_client_mutation_id response mutation_name)
    as [cid|e] eqn:Ec; [|now left].
  destruct (truthy cid) eqn:Ei; cbn [negb]; [|now left].
  right. exists response, errors, cid. repeat split; try assumption.
  destruct (mutation_log_first cid) as [log|]; [|reflexivity].
  destruct (is_error (status log)); reflexivity.
Qed.

(** X12.  After the query was built: an exception of the client is the
    outcome of the call, with no look-up; a response that is not a dict, or
    that has no errors and whose [data] entry, or whose entry for the mutation
    inside [data], is present and is not a dict (for instance null), makes the
    call raise [AttributeError], not [MutationError]. *)
Theorem X12_mutation_malformed_response
    (execute_query : string -> result pyval)
    (mutation_log_first : pyval -> option MutationLog) (uuid4 : string)
    (self : RegistryGQLManager.t) (mutation_name : string) (record : dict pyval)
    (use_defaults : bool) (query : string) :
  GQLPayloadBuilder.build_mutation uuid4 (RegistryGQLManager.payload_builder self)
    record mutation_name use_defaults = Ok query ->
  let outcome :=
    run (RegistryGQLManager.mutate_registry_record execute_query mutation_log_first uuid4
           self mutation_name record use_defaults) in
  (forall e, execute_query query = Raise e -> outcome = ([Executed query], Raise e))
  /\ (forall response,
         execute_query query = Ok response -> is_dict response = false ->
         outcome = ([Executed query], Raise AttributeError))
  /\ (forall envelope errors d,
         execute_query query = Ok (PDict envelope) ->
         py_get (PDict envelope) "errors" PNone = Ok errors -> truthy errors = false ->
         dict_get "data" envelope = Some d -> is_dict d = false ->
         outcome = ([Executed query], Raise AttributeError))
  /\ (forall envelope errors d m,
         execute_query query = Ok (PDict envelope) ->
         py_get (PDict envelope) "errors" PNone = Ok errors -> truthy errors = false ->
         dict_get "data" envelope = Some (PDict d) ->
         dict_get mutation_name d = Some m -> is_dict m = false ->
         outcome = ([Executed query], Raise AttributeError)).
Proof.
  intros Hb outcome.
  assert (E : forall response,
             execute_query query = Ok response ->
             outcome = RegistryGQLManager.resolve_mutation mutation_log_first mutation_name
                         response [Executed query]).
  { intros response Hx. exact (mutate_resolves _ _ _ _ _ _ _ _ _ Hb Hx). }
  split; [|split; [|split]].
  - intros e Hx. unfold outcome, run, RegistryGQLManager.mutate_registry_record, io_bind,
      io_lift, RegistryGQLManager.client_execute_query.
    rewrite Hb. cbn [app]. now rewrite Hx.
  - intros response Hx Hd. rewrite (E _ Hx).
    unfold RegistryGQLManager.resolve_mutation, io_bind, io_lift.
    destruct response; try discriminate; reflexivity.
  - intros envelope errors d Hx He Ht Hdata Hd. rewrite (E _ Hx).
    unfold RegistryGQLManager.resolve_mutation, io_bind, io_lift.
    rewrite He, Ht. unfold RegistryGQLManager.get_client_mutation_id.
    cbn [py_get]. rewrite Hdata. cbn [bind].
    destruct d; try discriminate; reflexivity.
  - intros envelope errors d m Hx He Ht Hdata Hm Hd. rewrite (E _ Hx).
    unfold RegistryGQLManager.resolve_mutation, io_bind, io_lift.
    rewrite He, Ht. unfold RegistryGQLManager.get_client_mutation_id.
    cbn [py_get]. rewrite Hdata. cbn [bind py_get]. rewrite Hm. cbn [bind].
    destruct m; try discriminate; reflexivity.
Qed.

(** X12 for a client that raises, a response that is a list, the response
    [{"data": null}] and the response [{"data": {"createInsuree": null}}]. *)
Lemma X12_witness :
  run (RegistryGQLManager.mutate_registry_record (fun _ => Raise OutsideModel)
         (fun _ => None) example_uuid example_manager "createInsuree" example_record true)
  = ([Executed example_document], Raise OutsideModel)
  /\ run (RegistryGQLManager.mutate_registry_record (fun _ => Ok (PList []))
            (fun _ => None) example_uuid example_manager "createInsuree" example_record true)
     = ([Executed example_document], Raise AttributeError)
  /\ run (RegistryGQLManager.mutate_registry_record
            (fun _ => Ok (PDict [("data", PNone)]))
            (fun _ => None) example_uuid example_manager "createInsuree" example_record true)
     = ([Executed example_document], Raise AttributeError)
  /\ run (RegistryGQLManager.mutate_registry_record
            (fun _ => Ok (PDict [("data", PDict [("createInsuree", PNone)])]))
            (fun _ => None) example_uuid example_manager "createInsuree" example_record true)
     = ([Executed example_document], Raise AttributeError).
Proof.
  split.
  { exact (proj1 (X12_mutation_malformed_response (fun _ => Raise OutsideModel)
                    (fun _ => None) example_uuid example_manager "createInsuree"
                    example_record true example_document eq_refl) OutsideModel eq_refl). }
  split.
  { exact (proj1 (proj2 (X12_mutation_malformed_response (fun _ => Ok (PList []))
                           (fun _ => None) example_uuid example_manager "createInsuree"
                           example_record true example_document eq_refl))
             (PList []) eq_refl eq_refl). }
  split.
  { exact (proj1 (proj2 (proj2 (X12_mutation_malformed_response
                                  (fun _ => Ok (PDict [("data", PNone)]))
                                  (fun _ => None) example_uuid example_manager
                                  "createInsuree" example_record true example_document
                                  eq_refl)))
             [("data", PNone)] PNone PNone eq_refl eq_refl eq_refl eq_refl eq_refl). }
  exact (proj2 (proj2 (proj2 (X12_mutation_malformed_response
                                (fun _ => Ok (PDict [("data", PDict [("createInsuree", PNone)])]))
                                (fun _ => None) example_uuid example_manager
                                "createInsuree" example_record true example_document
                                eq_refl)))
           [("data", PDict [("createInsuree", PNone)])] PNone [("createInsuree", PNone)]
           PNone eq_refl eq_refl eq_refl eq_refl eq_refl eq_refl).
Defined.

(** ** [retrieve_filtered_records] and [get_record] *)

Section Reads.

Variable execute_query : string -> result pyval.
Variable self : RegistryGQLManager.t.
Variable query_name : string.
Variable record : dict pyval.

Lemma fetch_filtered_run (page page_size : option Z) (ordering : option string)
    (query : string) (response : pyval) (extracted : list pyval)
    (entries : list (dict pyval)) :
  GQLPayloadBuilder.build_list_query (RegistryGQLManager.payload_builder self) query_name
    record ordering page page_size = Ok query ->
  execute_query query = Ok response ->
  DataConverterUtils.extract_records response query_name = Ok extracted ->
  DataMapper.map_to_registry (RegistryGQLManager.qgl_mapper self) extracted = Ok entries ->
  run (RegistryGQLManager.fetch_filtered execute_query self record query_name page
         page_size ordering)
  = ([Executed query], Ok (response, entries)).
Proof.
  intros Hb Hx He Hm.
  unfold run, RegistryGQLManager.fetch_filtered, io_bind, io_lift, io_ret,
    RegistryGQLManager.client_execute_query.
  rewrite Hb. cbn [app]. rewrite Hx, He, Hm. reflexivity.
Qed.

Lemma retrieve_run (page page_size : option Z) (ordering : option string)
    (query : string) (response : pyval) (extracted : list pyval)
    (entries : list (dict pyval)) :
  GQLPayloadBuilder.build_list_query (RegistryGQLManager.payload_builder self) query_name
    record ordering page page_size = Ok query ->
  execute_query query = Ok response ->
  DataConverterUtils.extract_records response query_name = Ok extracted ->
  DataMapper.map_to_registry (RegistryGQLManager.qgl_mapper self) extracted = Ok entries ->
  RegistryGQLManager.retrieve_filtered_records execute_query self record query_name page
    page_size ordering
  = ([Executed query],
     _ <-? RegistryGQLManager.total_count response query_name ;;
     count <-? RegistryGQLManager.total_count response query_name ;;
     next <-? RegistryGQLManager.has_next_page response query_name ;;
     Returned {| success := 1; data := page_data entries count next |}).
Proof.
  intros Hb Hx He Hm. unfold RegistryGQLManager.retrieve_filtered_records.
  rewrite (fetch_filtered_run _ _ _ _ _ _ _ Hb Hx He Hm). reflexivity.
Qed.

End Reads.

(** X13.  On a response whose connection has [totalCount], [pageInfo] with
    [hasNextPage] and records that are extracted and mapped back,
    [retrieve_filtered_records] calls the client once and returns success 1
    with the mapped records as [entries], the response's [totalCount] as
    [count] and its [hasNextPage] as [has_next_page]. *)
Theorem X13_retrieve_filtered_records_result
    (execute_query : string -> result pyval) (self : RegistryGQLManager.t)
    (query_name : string) (record : dict pyval) (page page_size : option Z)
    (ordering : option string) (query : string)
    (envelope d connection_ page_info : dict pyval) (count next : pyval)
    (extracted : list pyval) (entries : list (dict pyval)) :
  GQLPayloadBuilder.build_list_query (RegistryGQLManager.payload_builder self) query_name
    record ordering page page_size = Ok query ->
  execute_query query = Ok (PDict envelope) ->
  dict_get "data" envelope = Some (PDict d) ->
  dict_get query_name d = Some (PDict connection_) ->
  dict_get "totalCount" connection_ = Some count ->
  dict_get "pageInfo" connection_ = Some (PDict page_info) ->
  dict_get "hasNextPage" page_info = Some next ->
  DataConverterUtils.extract_records (PDict envelope) query_name = Ok extracted ->
  DataMapper.map_to_registry (RegistryGQLManager.qgl_mapper self) extracted = Ok entries ->
  RegistryGQLManager.retrieve_filtered_records execute_query self record query_name page
    page_size ordering
  = ([Executed query], Returned {| success := 1; data := page_data entries count next |}).
Proof.
  intros Hb Hx Hd Hq Hc Hp Hn He Hm.
  rewrite (retrieve_run _ _ _ _ _ _ _ _ _ _ _ Hb Hx He Hm).
  unfold RegistryGQLManager.total_count, RegistryGQLManager.has_next_page.
  cbn [py_getitem]. rewrite Hd. cbn [outcome_bind py_getitem]. rewrite Hq.
  cbn [outcome_bind py_getitem]. rewrite Hc, Hp. cbn [outcome_bind py_getitem].
  rewrite Hn. reflexivity.
Qed.

(** X13 on a page of one insuree: the meta field [uuid] is not among the
    entries. *)
Lemma X13_witness :
  RegistryGQLManager.retrieve_filtered_records (fun _ => Ok response_page) example_manager
    example_record "insurees" None None None
  = ([Executed example_list_query],
     Returned {| success := 1;
                 data := page_data [[("name", PStr "Jo")]] (PInt 1) (PBool false) |}).
Proof.
  exact (X13_retrieve_filtered_records_result (fun _ => Ok response_page) example_manager
           "insurees" example_record None None None example_list_query
           _ _ _ _ (PInt 1) (PBool false)
           [PDict [("firstName", PStr "Jo"); ("uuid", PStr "u1")]] [[("name", PStr "Jo")]]
           eq_refl eq_refl eq_refl eq_refl eq_refl eq_refl eq_refl eq_refl eq_refl).
Defined.

(** X14.  [retrieve_filtered_records] raises [KeyError] on a response that
    [extract_records] reads as empty or complete but that lacks a key the
    result needs: [data] when the response has none, the query name when
    [data] has no entry for it, [totalCount] and [pageInfo] when the
    connection lacks them.  The query has been executed by then. *)
Theorem X14_retrieve_filtered_records_key_errors
    (execute_query : string -> result pyval) (self : RegistryGQLManager.t)
    (query_name : string) (record : dict pyval) (page page_size : option Z)
    (ordering : option string) (query : string) (envelope : dict pyval) :
  GQLPayloadBuilder.build_list_query (RegistryGQLManager.payload_builder self) query_name
    record ordering page page_size = Ok query ->
  execute_query query = Ok (PDict envelope) ->
  let outcome :=
    RegistryGQLManager.retrieve_filtered_records execute_query self record query_name page
      page_size ordering in
  (dict_get "data" envelope = None -> outcome = ([Executed query], RaisedKeyError "data"))
  /\ (forall d,
         dict_get "data" envelope = Some (PDict d) -> dict_get query_name d = None ->
         outcome = ([Executed query], RaisedKeyError query_name))
  /\ (forall d connection_ extracted entries,
         dict_get "data" envelope = Some (PDict d) ->
         dict_get query_name d = Some (PDict connection_) ->
         DataConverterUtils.extract_records (PDict envelope) query_name = Ok extracted ->
         DataMapper.map_to_registry (RegistryGQLManager.qgl_mapper self) extracted
         = Ok entries ->
         (dict_get "totalCount" connection_ = None ->
          outcome = ([Executed query], RaisedKeyError "totalCount"))
         /\ (forall count,
                dict_get "totalCount" connection_ = Some count ->
                dict_get "pageInfo" connection_ = None ->
                outcome = ([Executed query], RaisedKeyError "pageInfo"))).
Proof.
  intros Hb Hx outcome. split; [|split].
  - intros Hd.
    assert (He : DataConverterUtils.extract_records (PDict envelope) query_name = Ok []).
    { unfold DataConverterUtils.extract_records. cbn [py_get]. now rewrite Hd. }
    unfold outcome. rewrite (retrieve_run _ _ _ _ _ _ _ _ _ _ _ Hb Hx He eq_refl).
    unfold RegistryGQLManager.total_count. cbn [py_getitem]. now rewrite Hd.
  - intros d Hd Hq.
    assert (He : DataConverterUtils.extract_records (PDict envelope) query_name = Ok []).
    { unfold DataConverterUtils.extract_records. cbn [py_get]. rewrite Hd.
      cbn [bind py_get]. now rewrite Hq. }
    unfold outcome. rewrite (retrieve_run _ _ _ _ _ _ _ _ _ _ _ Hb Hx He eq_refl).
    unfold RegistryGQLManager.total_count. cbn [py_getitem]. rewrite Hd.
    cbn [outcome_bind py_getitem]. now rewrite Hq.
  - intros d connection_ extracted entries Hd Hq He Hm.
    unfold outcome. rewrite (retrieve_run _ _ _ _ _ _ _ _ _ _ _ Hb Hx He Hm).
    unfold RegistryGQLManager.total_count, RegistryGQLManager.has_next_page.
    cbn [py_getitem]. rewrite Hd. cbn [outcome_bind py_getitem]. rewrite Hq.
    cbn [outcome_bind py_getitem]. split.
    + intros Hc. now rewrite Hc.
    + intros count Hc Hp. now rewrite Hc, Hp.
Qed.

(** X14 on the responses [{}], [{"data": {}}] and a connection that has edges
    only. *)
Lemma X14_witness :
  RegistryGQLManager.retrieve_filtered_records (fun _ => Ok (PDict [])) example_manager
    example_record "insurees" None None None
  = ([Executed example_list_query], RaisedKeyError "data")
  /\ RegistryGQLManager.retrieve_filtered_records (fun _ => Ok (PDict [("data", PDict [])]))
       example_manager example_record "insurees" None None None
     = ([Executed example_list_query], RaisedKeyError "insurees")
  /\ RegistryGQLManager.retrieve_filtered_records (fun _ => Ok (connection "insurees" []))
       example_manager example_record "insurees" None None None
     = ([Executed example_list_query], RaisedKeyError "totalCount").
Proof.
  split.
  { exact (proj1 (X14_retrieve_filtered_records_key_errors (fun _ => Ok (PDict []))
                    example_manager "insurees" example_record None None None
                    example_list_query [] eq_refl eq_refl) eq_refl). }
  split.
  { exact (proj1 (proj2 (X14_retrieve_filtered_records_key_errors
                           (fun _ => Ok (PDict [("data", PDict [])]))
                           example_manager "insurees" example_record None None None
                           example_list_query [("data", PDict [])] eq_refl eq_refl))
             [] eq_refl eq_refl). }
  exact (proj1 (proj2 (proj2 (X14_retrieve_filtered_records_key_errors
                                (fun _ => Ok (connection "insurees" []))
                                example_manager "insurees" example_record None None None
                                example_list_query _ eq_refl eq_refl))
                  [("insurees", PDict [("edges", PList [])])] [("edges", PList [])] [] []
                  eq_refl eq_refl eq_refl eq_refl) eq_refl).
Defined.

(** X15.  The two read operations call the client at most once, with the
    document they built, and never read the mutation log: the calls they make
    are none (the document was not built) or the one execution. *)
Theorem X15_reads_call_the_client_once
    (execute_query : string -> result pyval) (self : RegistryGQLManager.t)
    (query_name : string) (record : dict pyval) :
  (forall page page_size ordering,
      match GQLPayloadBuilder.build_list_query (RegistryGQLManager.payload_builder self)
              query_name record ordering page page_size with
      | Raise e =>
          RegistryGQLManager.retrieve_filtered_records execute_query self record query_name
            page page_size ordering = ([], Raised e)
      | Ok query =>
          fst (RegistryGQLManager.retrieve_filtered_records execute_query self record
                 query_name page page_size ordering) = [Executed query]
      end)
  /\ (forall fetched_fields only_first after_cursor first skip_mapping,
         match GQLPayloadBuilder.build_record_query (RegistryGQLManager.payload_builder self)
                 query_name record after_cursor fetched_fields first with
         | Raise e =>
             run (RegistryGQLManager.get_record execute_query self record query_name
                    fetched_fields only_first after_cursor first skip_mapping)
             = ([], Raise e)
         | Ok query =>
             fst (run (RegistryGQLManager.get_record execute_query self record query_name
                         fetched_fields only_first after_cursor first skip_mapping))
             = [Executed query]
         end).
Proof.
  split.
  - intros page page_size ordering.
    unfold RegistryGQLManager.retrieve_filtered_records, run,
      RegistryGQLManager.fetch_filtered, io_bind, io_lift, io_ret,
      RegistryGQLManager.client_execute_query.
    destruct (GQLPayloadBuilder.build_list_query _ _ _ _ _ _) as [query|e]; [|reflexivity].
    cbn [app]. destruct (execute_query query) as [response|e]; [|reflexivity].
    destruct (DataConverterUtils.extract_records response query_name) as [extracted|e];
      [|reflexivity].
    destruct (DataMapper.map_to_registry _ extracted) as [entries|e]; reflexivity.
  - intros fetched_fields only_first after_cursor first skip_mapping.
    unfold run, RegistryGQLManager.get_record, io_bind, io_lift, io_ret,
      RegistryGQLManager.client_execute_query.
    destruct (GQLPayloadBuilder.build_record_query _ _ _ _ _ _) as [query|e]; [|reflexivity].
    cbn [app]. destruct (execute_query query) as [response|e]; [|reflexivity].
    destruct (DataConverterUtils.extract_records response query_name) as [extracted|e];
      [|reflexivity].
    destruct skip_mapping.
    + destruct only_first, extracted; reflexivity.
    + destruct (DataMapper.map_to_registry _ extracted) as [entries|e]; cbn [bind];
        [|reflexivity].
      destruct only_first, (map PDict entries); reflexivity.
Qed.

(** X16.  [get_record] returns success 1 with, as data: the first record when
    [only_first] is set and there is a record; the list of all records
    otherwise, which is the empty list (not [None]) when [only_first] is set
    and nothing was found.  The records are the extracted ones when
    [skip_mapping] is set and the reverse-mapped ones otherwise. *)
Theorem X16_get_record_result
    (execute_query : string -> result pyval) (self : RegistryGQLManager.t)
    (query_name : string) (record : dict pyval) (fetched_fields : pyval)
    (only_first : bool) (after_cursor : option string) (first : option Z)
    (query : string) (response : pyval) (extracted : list pyval) :
  GQLPayloadBuilder.build_record_query (RegistryGQLManager.payload_builder self)
    query_name record after_cursor fetched_fields first = Ok query ->
  execute_query query = Ok response ->
  DataConverterUtils.extract_records response query_name = Ok extracted ->
  run (RegistryGQLManager.get_record execute_query self record query_name fetched_fields
         only_first after_cursor first true)
  = ([Executed query], Ok {| success := 1; data := record_data only_first extracted |})
  /\ (forall entries,
         DataMapper.map_to_registry (RegistryGQLManager.qgl_mapper self) extracted
         = Ok entries ->
         run (RegistryGQLManager.get_record execute_query self record query_name
                fetched_fields only_first after_cursor first false)
         = ([Executed query],
            Ok {| success := 1; data := record_data only_first (map PDict entries) |}))
  /\ record_data true [] = PList []
  /\ (forall r rest, record_data true (r :: rest) = r)
  /\ (forall records, record_data false records = PList records).
Proof.
  intros Hb Hx He. split; [|split; [|repeat split]].
  - unfold run, RegistryGQLManager.get_record, io_bind, io_lift, io_ret,
      RegistryGQLManager.client_execute_query.
    rewrite Hb. cbn [app]. rewrite Hx, He.
    destruct only_first, extracted; reflexivity.
  - intros entries Hm.
    unfold run, RegistryGQLManager.get_record, io_bind, io_lift, io_ret,
      RegistryGQLManager.client_execute_query.
    rewrite Hb. cbn [app]. rewrite Hx, He, Hm. cbn [bind].
    destruct only_first, (map PDict entries); reflexivity.
Qed.

(** X16 on a page of one insuree, mapped and not, and on an empty page. *)
Lemma X16_witness :
  run (RegistryGQLManager.get_record (fun _ => Ok response_page) example_manager
         example_record "insurees" PNone true None (Some 10) true)
  = ([Executed example_record_query],
     Ok {| success := 1; data := PDict [("firstName", PStr "Jo"); ("uuid", PStr "u1")] |})
  /\ run (RegistryGQLManager.get_record (fun _ => Ok response_page) example_manager
            example_record "insurees" PNone true None (Some 10) false)
     = ([Executed example_record_query],
        Ok {| success := 1; data := PDict [("name", PStr "Jo")] |})
  /\ run (RegistryGQLManager.get_record (fun _ => Ok (connection "insurees" []))
            example_manager example_record "insurees" PNone true None (Some 10) false)
     = ([Executed example_record_query], Ok {| success := 1; data := PList [] |}).
Proof.
  split.
  { exact (proj1 (X16_get_record_result (fun _ => Ok response_page) example_manager
                    "insurees" example_record PNone true None (Some 10)
                    example_record_query response_page
                    [PDict [("firstName", PStr "Jo"); ("uuid", PStr "u1")]]
                    eq_refl eq_refl eq_refl)). }
  split.
  { exact (proj1 (proj2 (X16_get_record_result (fun _ => Ok response_page) example_manager
                           "insurees" example_record PNone true None (Some 10)
                           example_record_query response_page
                           [PDict [("firstName", PStr "Jo"); ("uuid", PStr "u1")]]
                           eq_refl eq_refl eq_refl))
             [[("name", PStr "Jo")]] eq_refl). }
  exact (proj1 (proj2 (X16_get_record_result (fun _ => Ok (connection "insurees" []))
                         example_manager "insurees" example_record PNone true None (Some 10)
                         example_record_query (connection "insurees" []) []
                         eq_refl eq_refl eq_refl))
           [] eq_refl).
Defined.

(** ** Serialization can only fail on [id] *)




(** ** The identifier in a record query *)

Lemma dict_get_app_fresh {V : Type} (k : string) (v : V) (d : dict V) :
  dict_get k d = None -> dict_get k (d ++ [(k, v)])%list = Some v.
Proof.
  induction d as [|[k' v'] d IH]; cbn.
  - now rewrite String.eqb_refl.
  - destruct (String.eqb k k'); [discriminate|exact IH].
Qed.

Lemma dict_keys_del {V : Type} (k k0 : string) (d : dict V) :
  In k (dict_keys (dict_del k0 d)) -> In k (dict_keys d).
Proof.
  unfold dict_keys. induction d as [|[k' v'] d IH]; cbn; [auto|].
  destruct (String.eqb k0 k'); cbn; [auto|]. intros [H|H]; auto.
Qed.

Lemma dict_get_None_not_In {V : Type} (k : string) (d : dict V) :
  dict_get k d = None -> ~ In k (dict_keys d).
Proof.
  unfold dict_keys. induction d as [|[k' v'] d IH]; cbn; [auto|].
  destruct (String.eqb_spec k k') as [->|Hk]; [discriminate|].
  intros H [E|Hin]; [now elim Hk|]. now apply IH.
Qed.

(** X18.  In [build_record_query], when the mapped data has [id] and the
    identifier field is another name that is not a key yet, the value moves
    from [id] to the identifier field, which becomes the last key; under that
    name a textual identifier is serialized quoted even when it is all digits
    (the numeric form is kept for the key [id] only).  When the identifier
    field is [id], or is a key already, the mapped data is unchanged. *)
Theorem X18_record_query_renames_id (self : GQLPayloadBuilder.t) (mapped_data : dict pyval) :
  (forall i,
      dict_get "id" mapped_data = Some i ->
      dict_mem (GQLPayloadBuilder.id_field self) mapped_data = false ->
      GQLPayloadBuilder.rename_id self mapped_data
      = (dict_del "id" mapped_data ++ [(GQLPayloadBuilder.id_field self, i)])%list
      /\ dict_get "id" (GQLPayloadBuilder.rename_id self mapped_data) = None
      /\ dict_get (GQLPayloadBuilder.id_field self)
           (GQLPayloadBuilder.rename_id self mapped_data) = Some i
      /\ (forall s,
             i = PStr s -> GQLPayloadBuilder.id_field self <> "jsonExt" ->
             GQLPayloadBuilder.argument (GQLPayloadBuilder.id_field self) i
             = Ok (GQLPayloadBuilder.id_field self ++ ": " ++ dq ++ s ++ dq)))
  /\ (dict_mem (GQLPayloadBuilder.id_field self) mapped_data = true ->
      GQLPayloadBuilder.rename_id self mapped_data = mapped_data)
  /\ (dict_get "id" mapped_data = None ->
      GQLPayloadBuilder.rename_id self mapped_data = mapped_data).
Proof.
  unfold GQLPayloadBuilder.rename_id. split; [|split].
  - intros i Hi Hm. rewrite Hi, Hm.
    assert (Hne : GQLPayloadBuilder.id_field self <> "id").
    { intros E. rewrite E in Hm. unfold dict_mem in Hm. now rewrite Hi in Hm. }
    assert (Hfresh : ~ In (GQLPayloadBuilder.id_field self)
                       (dict_keys (dict_del "id" mapped_data))).
    { intros Hin. apply dict_keys_del in Hin. revert Hin. apply dict_get_None_not_In.
      unfold dict_mem in Hm.
      now destruct (dict_get (GQLPayloadBuilder.id_field self) mapped_data). }
    rewrite (dict_set_fresh _ _ _ Hfresh). split; [reflexivity|]. split; [|split].
    + rewrite <- (dict_set_fresh _ i _ Hfresh).
      rewrite dict_get_set_other; [apply dict_get_del_same|]. congruence.
    + apply dict_get_app_fresh. now apply dict_get_not_In.
    + intros s -> Hj. apply argument_other; [exact Hne|reflexivity|]. intros E. now elim Hj.
  - intros Hm. rewrite Hm. now destruct (dict_get "id" mapped_data).
  - intros Hi. now rewrite Hi.
Qed.

(** X18 for the identifier field [chfId] and the mapped data
    [{id: 5, firstName: Jo}]. *)
Lemma X18_witness :
  let self := GQLPayloadBuilder.init example_mapper "chfId" in
  GQLPayloadBuilder.rename_id self [("id", PStr "5"); ("firstName", PStr "Jo")]
  = [("firstName", PStr "Jo"); ("chfId", PStr "5")]
  /\ GQLPayloadBuilder.argument "chfId" (PStr "5") = Ok ("chfId" ++ ": " ++ dq ++ "5" ++ dq)
  /\ GQLPayloadBuilder.rename_id (GQLPayloadBuilder.init example_mapper "id")
       [("id", PStr "5"); ("firstName", PStr "Jo")]
     = [("id", PStr "5"); ("firstName", PStr "Jo")].
Proof.
  intros self.
  destruct (proj1 (X18_record_query_renames_id self
                     [("id", PStr "5"); ("firstName", PStr "Jo")])
              (PStr "5") eq_refl eq_refl) as (Hrename & _ & _ & Hquoted).
  split; [exact Hrename|].
  split; [refine (Hquoted "5" eq_refl _); discriminate|].
  exact (proj1 (proj2 (X18_record_query_renames_id
                         (GQLPayloadBuilder.init example_mapper "id")
                         [("id", PStr "5"); ("firstName", PStr "Jo")])) eq_refl).
Defined.

(** ** Output formats *)



(** ** The view [UpdateOrCreateRecordView] *)



(** ** JSON: [json.loads] reads back what [json.dumps] wrote *)

Lemma str_length_app (a b : string) :
  String.length (a ++ b) = (String.length a + String.length b)%nat.
Proof. induction a as [|c a IH]; cbn; [reflexivity|now rewrite IH]. Qed.

(** *** Numbers *)

Lemma digits_value_acc (d : Decimal.uint) (a : positive) :
  digits_value (Z.pos a) (NilEmpty.string_of_uint d) = Z.pos (Pos.of_uint_acc d a).
Proof.
  revert a. induction d; intros a; cbn [NilEmpty.string_of_uint digits_value Pos.of_uint_acc];
    [reflexivity|..];
    rewrite <- IHd; f_equal;
    match goal with
    | |- context [code ?c] =>
        let v := eval vm_compute in (code c) in change (code c) with v
    end; lia.
Qed.

Lemma digits_value_uint (d : Decimal.uint) :
  digits_value 0 (NilEmpty.string_of_uint d) = Z.of_N (Pos.of_uint d).
Proof.
  induction d; cbn [NilEmpty.string_of_uint digits_value Pos.of_uint];
    [reflexivity|exact IHd|..]; apply digits_value_acc.
Qed.

Lemma span_digits_uint (d : Decimal.uint) (rest : string) :
  Json.starts_with_digit rest = false ->
  Json.span_digits (NilEmpty.string_of_uint d ++ rest) = (NilEmpty.string_of_uint d, rest).
Proof.
  intros H. induction d; cbn [NilEmpty.string_of_uint append Json.span_digits];
    try (rewrite IHd; reflexivity).
  destruct rest as [|c rest]; [reflexivity|]. cbn in *. now rewrite H.
Qed.

Lemma follows_not_digit (rest : string) : follows rest = true -> Json.starts_with_digit rest = false.
Proof.
  destruct rest as [|c rest]; [reflexivity|]. cbn. unfold is_ascii_digit.
  intros H. apply orb_true_iff in H as [H|H]; [apply orb_true_iff in H as [H|H]|];
    apply Z.eqb_eq in H; rewrite H; reflexivity.
Qed.

Lemma follows_not_float (rest : string) : follows rest = true -> Json.float_suffix rest = false.
Proof.
  destruct rest as [|c rest]; [reflexivity|]. cbn.
  intros H. apply orb_true_iff in H as [H|H]; [apply orb_true_iff in H as [H|H]|];
    apply Z.eqb_eq in H; rewrite H; reflexivity.
Qed.

Lemma follows_skip_ws (rest : string) : follows rest = true -> Json.skip_ws rest = rest.
Proof.
  destruct rest as [|c rest]; [reflexivity|]. cbn. unfold Json.is_ws.
  intros H. apply orb_true_iff in H as [H|H]; [apply orb_true_iff in H as [H|H]|];
    apply Z.eqb_eq in H; rewrite H; reflexivity.
Qed.

(** The numeral of a positive number has no leading zero. *)
Lemma to_uint_head (p : positive) :
  match Pos.to_uint p with
  | Decimal.Nil | Decimal.D0 _ => False
  | _ => True
  end.
Proof.
  pose proof (DecimalPos.Unsigned.to_of (Pos.to_uint p)) as H.
  rewrite DecimalPos.Unsigned.of_to in H. cbn [N.to_uint] in H.
  pose proof (DecimalPos.Unsigned.to_uint_nonnil p) as Hn.
  pose proof (DecimalPos.Unsigned.to_uint_nonzero p) as Hz.
  destruct (Pos.to_uint p) as [|d| | | | | | | | |]; try exact I; [now elim Hn|].
  unfold Decimal.unorm in H. cbn [Decimal.nzhead] in H.
  destruct (Decimal.nzhead d) as [|d'| | | | | | | | |] eqn:E; try discriminate.
  - injection H as Hd. subst d. now elim Hz.
  - now elim (DecimalFacts.nzhead_nonzero d d').
Qed.

Lemma scan_positive (p : positive) (rest : string) :
  follows rest = true ->
  Json.scan_natural (NilEmpty.string_of_uint (Pos.to_uint p) ++ rest) = Some (Z.pos p, rest).
Proof.
  intros H. pose proof (to_uint_head p) as Hh.
  pose proof (digits_value_uint (Pos.to_uint p)) as Hv.
  rewrite DecimalPos.Unsigned.of_to in Hv. cbn [Z.of_N] in Hv.
  pose proof (span_digits_uint (Pos.to_uint p) rest (follows_not_digit _ H)) as Hs.
  destruct (Pos.to_uint p); try (now elim Hh);
    cbn [NilEmpty.string_of_uint append] in *;
    unfold Json.scan_natural; cbn [code N_of_ascii Z.of_N Z.eqb N.add N.mul Pos.eqb
                                     is_ascii_digit];
    (cbv - [Json.span_digits digits_value append NilEmpty.string_of_uint];
     rewrite Hs, Hv; reflexivity).
Qed.

Lemma substring_all (s : string) : substring 0 (String.length s) s = s.
Proof. induction s as [|c s IH]; cbn; [reflexivity|now rewrite IH]. Qed.

(** One turn of [scan_once] on text that starts a number. *)
Lemma scan_once_number (fuel : nat) (c : ascii) (t rest : string) (z : Z) :
  is_ascii_digit c || (code c =? 45) = true ->
  Json.scan_natural (if code c =? 45 then t else String c t) = Some (z, rest) ->
  Json.float_suffix rest = false ->
  Json.scan_once (S fuel) (String c t) = Ok (PInt (if code c =? 45 then - z else z), rest).
Proof.
  intros Hc Hn Hf.
  destruct c as [[] [] [] [] [] [] [] []]; try discriminate Hc;
    cbn [Json.scan_once]; cbv [code N_of_ascii N.add N.mul Z.of_N Z.eqb Pos.eqb
                                is_prefix Ascii.eqb Bool.eqb andb orb] in *;
    rewrite Hn, Hf; reflexivity.
Qed.

Lemma scan_once_int (z : Z) (fuel : nat) (rest : string) :
  (1 <= fuel)%nat -> follows rest = true ->
  Json.scan_once fuel (str_of_Z z ++ rest) = Ok (PInt z, rest).
Proof.
  intros Hfuel H. destruct fuel as [|fuel]; [lia|].
  pose proof (follows_not_float _ H) as Hf.
  destruct z as [|p|p]; unfold str_of_Z; cbn [Z.to_int NilZero.string_of_int].
  - cbn [NilZero.string_of_uint append].
    exact (scan_once_number fuel "0" rest rest 0 eq_refl eq_refl Hf).
  - pose proof (to_uint_head p) as Hh. pose proof (scan_positive p rest H) as Hs.
    destruct (Pos.to_uint p); try (now elim Hh);
      cbn [NilZero.string_of_uint NilEmpty.string_of_uint append] in *;
      match goal with
      | |- Json.scan_once _ (String ?c ?t) = _ =>
          exact (scan_once_number fuel c t rest (Z.pos p) eq_refl Hs Hf)
      end.
  - pose proof (to_uint_head p) as Hh. pose proof (scan_positive p rest H) as Hs.
    assert (E : NilZero.string_of_uint (Pos.to_uint p)
                = NilEmpty.string_of_uint (Pos.to_uint p)).
    { destruct (Pos.to_uint p); try reflexivity. now elim Hh. }
    rewrite E. cbn [append].
    exact (scan_once_number fuel "-" _ rest (Z.pos p) eq_refl Hs Hf).
Qed.

(** *** Strings *)

Lemma scan_string_escape_char (c : ascii) (tail : string) :
  Json.scan_string (Json.escape_char c ++ tail)
  = (r <- Json.scan_string tail ;; Ok (String c (fst r), snd r)).
Proof. destruct c as [[] [] [] [] [] [] [] []]; reflexivity. Qed.

Lemma scan_string_escaped (s rest : string) :
  Json.scan_string (str_flat_map Json.escape_char s ++ dq ++ rest) = Ok (s, rest).
Proof.
  induction s as [|c s IH]; [reflexivity|].
  cbn [str_flat_map]. rewrite str_app_assoc, scan_string_escape_char, IH. reflexivity.
Qed.

Lemma scan_once_str (s : string) (fuel : nat) (rest : string) :
  (1 <= fuel)%nat ->
  Json.scan_once fuel (Json.encode_str s ++ rest) = Ok (PStr s, rest).
Proof.
  intros Hfuel. destruct fuel as [|fuel]; [lia|].
  unfold Json.encode_str. rewrite !str_app_assoc.
  change (dq ++ str_flat_map Json.escape_char s ++ dq ++ rest)
    with (String "034"%char (str_flat_map Json.escape_char s ++ dq ++ rest)).
  cbn [Json.scan_once code N_of_ascii]. 
  change (Z.of_N 34 =? 34) with true. cbn iota.
  rewrite scan_string_escaped. reflexivity.
Qed.

(** *** The shape of the text [json.dumps] writes *)

Lemma skip_ws_starts (s : string) : starts_value s = true -> Json.skip_ws s = s.
Proof.
  destruct s as [|c s]; [discriminate|]. cbn. intros H.
  apply andb_true_iff in H as [H _]. apply negb_true_iff in H. now rewrite H.
Qed.

Lemma str_of_Z_starts (z : Z) (rest : string) : starts_value (str_of_Z z ++ rest) = true.
Proof.
  destruct z as [|p|p]; unfold str_of_Z; cbn [Z.to_int NilZero.string_of_int];
    try reflexivity.
  pose proof (to_uint_head p) as Hh.
  destruct (Pos.to_uint p); try (now elim Hh); reflexivity.
Qed.

Lemma dumps_starts (v : pyval) (rest : string) : starts_value (Json.dumps v ++ rest) = true.
Proof.
  destruct v as [|[]| | | |]; try reflexivity. apply str_of_Z_starts.
Qed.

Lemma join_elements (x : pyval) (l : list pyval) (rest : string) :
  str_join ", " (map Json.dumps (x :: l)) ++ "]" ++ rest
  = Json.dumps x ++ elements_tail l rest.
Proof.
  destruct l as [|y l]; [reflexivity|].
  cbn [map str_join elements_tail]. now rewrite !str_app_assoc.
Qed.

Lemma join_members (kv : string * pyval) (d : dict pyval) (rest : string) :
  str_join ", " (map member_text (kv :: d)) ++ "}" ++ rest
  = dq ++ member_after_quote kv (members_tail d rest).
Proof.
  unfold member_after_quote.
  destruct d as [|kv' d]; cbn [map str_join members_tail]; unfold member_text at 1,
    Json.encode_str; now rewrite !str_app_assoc.
Qed.

Lemma follows_elements_tail (l : list pyval) (rest : string) :
  follows (elements_tail l rest) = true.
Proof. now destruct l. Qed.

Lemma follows_members_tail (d : dict pyval) (rest : string) :
  follows (members_tail d rest) = true.
Proof. now destruct d. Qed.

(** *** Arrays and objects *)

Lemma scan_elements_step (n : nat) (s : string) (acc : list pyval) :
  Json.scan_elements (S n) s acc
  = (vr <- Json.scan_once n s ;;
     match Json.skip_ws (snd vr) with
     | String c2 s2 =>
         if code c2 =? 93 then Ok (PList (acc ++ [fst vr])%list, s2)
         else if code c2 =? 44
              then Json.scan_elements n (Json.skip_ws s2) (acc ++ [fst vr])%list
              else Raise JSONDecodeError
     | EmptyString => Raise JSONDecodeError
     end).
Proof. reflexivity. Qed.

Lemma scan_members_step (n : nat) (s : string) (acc : dict pyval) :
  Json.scan_members (S n) s acc
  = (kr <- Json.scan_string s ;;
     match Json.skip_ws (snd kr) with
     | String c s1 =>
         if code c =? 58 then
           vr <- Json.scan_once n (Json.skip_ws s1) ;;
           match Json.skip_ws (snd vr) with
           | String c2 s2 =>
               if code c2 =? 125 then Ok (PDict (dict_set (fst kr) (fst vr) acc), s2)
               else if code c2 =? 44 then
                 s3 <- Json.expect_quote (Json.skip_ws s2) ;;
                 Json.scan_members n s3 (dict_set (fst kr) (fst vr) acc)
               else Raise JSONDecodeError
           | EmptyString => Raise JSONDecodeError
           end
         else Raise JSONDecodeError
     | EmptyString => Raise JSONDecodeError
     end).
Proof. reflexivity. Qed.

Lemma list_sum_cons (a : nat) (l : list nat) : list_sum (a :: l) = (a + list_sum l)%nat.
Proof. reflexivity. Qed.

Section Containers.

(** The values that are read back, for a bound [bound] on their weight. *)
Variable bound : nat.
Hypothesis read_back :
  forall v, (weight v <= bound)%nat -> well_formed v = true ->
            forall fuel rest, (weight v <= fuel)%nat -> follows rest = true ->
                              Json.scan_once fuel (Json.dumps v ++ rest) = Ok (v, rest).

Lemma scan_elements_dumps (l : list pyval) :
  forall x acc n rest,
    (list_sum (map (fun y => S (weight y)) (x :: l)) <= bound)%nat ->
    forallb well_formed (x :: l) = true ->
    (list_sum (map (fun y => S (weight y)) (x :: l)) <= n)%nat ->
    Json.scan_elements n (Json.dumps x ++ elements_tail l rest) acc
    = Ok (PList (acc ++ x :: l)%list, rest).
Proof.
  induction l as [|y l IH]; intros x acc n rest Hb Hwf Hn;
    cbn [map forallb] in Hb, Hwf, Hn; rewrite list_sum_cons in Hb, Hn;
    apply andb_true_iff in Hwf as [Hx Hl];
    (destruct n as [|n]; [lia|]); rewrite scan_elements_step.
  - rewrite read_back; [|lia|exact Hx|lia|reflexivity]. reflexivity.
  - rewrite read_back; [|lia|exact Hx|lia|reflexivity].
    cbn [bind fst snd elements_tail]. rewrite join_elements.
    change (Json.skip_ws (", " ++ Json.dumps y ++ elements_tail l rest))
      with (String "," (String " " (Json.dumps y ++ elements_tail l rest))).
    cbn iota. change (code "," =? 93) with false. change (code "," =? 44) with true.
    cbn iota.
    change (Json.skip_ws (String " " (Json.dumps y ++ elements_tail l rest)))
      with (Json.skip_ws (Json.dumps y ++ elements_tail l rest)).
    rewrite (skip_ws_starts _ (dumps_starts y _)).
    rewrite IH; [now rewrite <- app_assoc|cbn [map]; lia|exact Hl|cbn [map]; lia].
Qed.

Lemma scan_members_dumps (d : dict pyval) :
  forall kv acc n rest,
    (list_sum (map (fun kv => S (weight (snd kv))) (kv :: d)) <= bound)%nat ->
    forallb (fun kv => well_formed (snd kv)) (kv :: d) = true ->
    NoDup (map fst acc ++ map fst (kv :: d))%list ->
    (list_sum (map (fun kv => S (weight (snd kv))) (kv :: d)) <= n)%nat ->
    Json.scan_members n (member_after_quote kv (members_tail d rest)) acc
    = Ok (PDict (acc ++ kv :: d)%list, rest).
Proof.
  induction d as [|kv' d IH]; intros [k v] acc n rest Hb Hwf Hnd Hn;
    cbn [map forallb fst snd] in Hb, Hwf, Hn; rewrite list_sum_cons in Hb, Hn;
    apply andb_true_iff in Hwf as [Hv Hd];
    (destruct n as [|n]; [lia|]); rewrite scan_members_step;
    unfold member_after_quote; cbn [fst snd]; rewrite scan_string_escaped;
    cbn [bind fst snd];
    change (Json.skip_ws (": " ++ ?t)) with (String ":" (String " " t));
    assert (Hfresh : ~ In k (dict_keys acc))
      by (cbn [map fst] in Hnd; apply NoDup_remove_2 in Hnd;
          intros Hin; apply Hnd, in_or_app; now left).
  - change (Json.skip_ws (": " ++ Json.dumps v ++ members_tail [] rest))
      with (String ":" (String " " (Json.dumps v ++ members_tail [] rest))).
    cbn iota. change (code ":" =? 58) with true. cbn iota.
    change (Json.skip_ws (String " " (Json.dumps v ++ members_tail [] rest)))
      with (Json.skip_ws (Json.dumps v ++ members_tail [] rest)).
    rewrite (skip_ws_starts _ (dumps_starts v _)).
    rewrite read_back; [|lia|exact Hv|lia|reflexivity].
    cbn [bind fst snd members_tail]. rewrite (dict_set_fresh k v acc Hfresh). reflexivity.
  - change (Json.skip_ws (": " ++ Json.dumps v ++ members_tail (kv' :: d) rest))
      with (String ":" (String " " (Json.dumps v ++ members_tail (kv' :: d) rest))).
    cbn iota. change (code ":" =? 58) with true. cbn iota.
    change (Json.skip_ws (String " " (Json.dumps v ++ members_tail (kv' :: d) rest)))
      with (Json.skip_ws (Json.dumps v ++ members_tail (kv' :: d) rest)).
    rewrite (skip_ws_starts _ (dumps_starts v _)).
    rewrite read_back; [|lia|exact Hv|lia|reflexivity].
    cbn [bind fst snd members_tail]. rewrite join_members.
    change (Json.skip_ws (", " ++ dq ++ ?t)) with (String "," (String " " (dq ++ t))).
    change (Json.skip_ws
              (", " ++ dq ++ member_after_quote kv' (members_tail d rest)))
      with (String "," (String " " (dq ++ member_after_quote kv' (members_tail d rest)))).
    cbn iota. change (code "," =? 125) with false. change (code "," =? 44) with true.
    cbn iota.
    change (Json.expect_quote
              (Json.skip_ws
                 (String " " (dq ++ member_after_quote kv' (members_tail d rest)))))
      with (@Ok string (member_after_quote kv' (members_tail d rest))).
    cbn [bind]. rewrite (dict_set_fresh k v acc Hfresh).
    rewrite IH; [now rewrite <- app_assoc|cbn [map fst snd]; lia|exact Hd| |cbn [map fst snd]; lia].
    unfold dict_keys in *. rewrite map_app. cbn [map fst app] in *.
    now rewrite <- app_assoc.
Qed.

End Containers.

(** *** A whole value *)

Lemma scan_once_array (fuel : nat) (s : string) :
  starts_value s = true ->
  Json.scan_once (S fuel) (String "[" s) = Json.scan_elements fuel s [].
Proof.
  destruct s as [|c s]; [discriminate|]. cbn [starts_value]. intros H.
  apply andb_true_iff in H as [Hws Hc]. apply negb_true_iff in Hws, Hc.
  cbn [Json.scan_once]. change (code "[" =? 34) with false.
  change (code "[" =? 123) with false. change (code "[" =? 91) with true.
  cbn iota. cbn [Json.skip_ws]. rewrite Hws, Hc. reflexivity.
Qed.

Lemma scan_once_object (fuel : nat) (s : string) :
  Json.scan_once (S fuel) (String "{" (dq ++ s)) = Json.scan_members fuel s [].
Proof. reflexivity. Qed.

Lemma scan_once_literal (fuel : nat) (rest : string) :
  Json.scan_once (S fuel) ("null" ++ rest) = Ok (PNone, rest)
  /\ Json.scan_once (S fuel) ("true" ++ rest) = Ok (PBool true, rest)
  /\ Json.scan_once (S fuel) ("false" ++ rest) = Ok (PBool false, rest).
Proof.
  repeat split; cbn; rewrite Nat.sub_0_r, substring_all; reflexivity.
Qed.

Lemma scan_once_dumps (n : nat) :
  forall v, (weight v <= n)%nat -> well_formed v = true ->
            forall fuel rest, (weight v <= fuel)%nat -> follows rest = true ->
                              Json.scan_once fuel (Json.dumps v ++ rest) = Ok (v, rest).
Proof.
  induction n as [|n IH]; intros v Hw Hwf fuel rest Hfuel Hrest;
    [destruct v; cbn [weight] in Hw; lia|].
  destruct fuel as [|fuel]; [destruct v; cbn [weight] in Hfuel; lia|].
  destruct v as [|[]|z|s|l|d].
  - apply scan_once_literal.
  - apply scan_once_literal.
  - apply scan_once_literal.
  - apply scan_once_int; [lia|exact Hrest].
  - apply scan_once_str; lia.
  - cbn [Json.dumps weight well_formed] in *. rewrite !str_app_assoc.
    destruct l as [|x l]; [reflexivity|].
    rewrite join_elements.
    change ("[" ++ Json.dumps x ++ elements_tail l rest)
      with (String "[" (Json.dumps x ++ elements_tail l rest)).
    rewrite scan_once_array by apply dumps_starts.
    apply (scan_elements_dumps n IH l x [] fuel rest); [lia|exact Hwf|lia].
  - cbn [Json.dumps weight well_formed] in *. rewrite !str_app_assoc.
    apply andb_true_iff in Hwf as [Hk Hwf].
    destruct d as [|kv d]; [reflexivity|].
    change (str_join ", "
              (map (fun kv0 => Json.encode_str (fst kv0) ++ ": " ++ Json.dumps (snd kv0))
                 (kv :: d)) ++ "}" ++ rest)
      with (str_join ", " (map member_text (kv :: d)) ++ "}" ++ rest).
    rewrite join_members.
    change ("{" ++ dq ++ member_after_quote kv (members_tail d rest))
      with (String "{" (dq ++ member_after_quote kv (members_tail d rest))).
    rewrite scan_once_object.
    apply (scan_members_dumps n IH d kv [] fuel rest); [lia|exact Hwf| |lia].
    apply distinct_NoDup in Hk. exact Hk.
Qed.

Lemma dumps_nonempty (v : pyval) : (1 <= String.length (Json.dumps v))%nat.
Proof.
  pose proof (dumps_starts v EmptyString) as H. rewrite str_app_nil_r in H.
  destruct (Json.dumps v); [discriminate|cbn; lia].
Qed.

Lemma weight_elements (n : nat) :
  (forall v, (weight v <= n)%nat -> (weight v <= String.length (Json.dumps v))%nat) ->
  forall l, (list_sum (map (fun x => S (weight x)) l) <= n)%nat ->
            (list_sum (map (fun x => S (weight x)) l)
             <= S (String.length (str_join ", " (map Json.dumps l))))%nat.
Proof.
  intros IH. induction l as [|x l IHl]; cbn [map]; [cbn; lia|].
  rewrite list_sum_cons. intros H.
  assert (Hx : (weight x <= String.length (Json.dumps x))%nat) by (apply IH; lia).
  destruct l as [|y l]; [cbn; lia|].
  cbn [str_join map] in *. rewrite !str_length_app.
  assert (Hl := IHl ltac:(lia)). cbn [String.length]. lia.
Qed.

Lemma weight_members (n : nat) :
  (forall v, (weight v <= n)%nat -> (weight v <= String.length (Json.dumps v))%nat) ->
  forall d : dict pyval,
    (list_sum (map (fun kv => S (weight (snd kv))) d) <= n)%nat ->
    (list_sum (map (fun kv => S (weight (snd kv))) d)
     <= S (String.length (str_join ", " (map member_text d))))%nat.
Proof.
  intros IH. induction d as [|[k v] d IHd]; cbn [map]; [cbn; lia|].
  rewrite list_sum_cons. cbn [snd]. intros H.
  assert (Hv : (weight v <= String.length (Json.dumps v))%nat) by (apply IH; lia).
  assert (Hm : (String.length (Json.dumps v) <= String.length (member_text (k, v)))%nat).
  { unfold member_text. cbn [fst snd]. rewrite !str_length_app. lia. }
  destruct d as [|kv' d]; [cbn [str_join list_sum map fold_right]; lia|].
  cbn [str_join map] in *. rewrite !str_length_app.
  assert (Hd := IHd ltac:(lia)). cbn [String.length]. lia.
Qed.

(** The weight of a value is at most the length of its JSON text. *)
Lemma weight_length (n : nat) :
  forall v, (weight v <= n)%nat -> (weight v <= String.length (Json.dumps v))%nat.
Proof.
  induction n as [|n IH]; intros v Hw; [destruct v; cbn [weight] in Hw; lia|].
  destruct v as [|b|z|s|l|d]; try apply dumps_nonempty.
  - cbn [weight Json.dumps] in *. rewrite !str_length_app. cbn [String.length].
    pose proof (weight_elements n IH l ltac:(lia)). lia.
  - cbn [weight Json.dumps] in *. rewrite !str_length_app. cbn [String.length].
    pose proof (weight_members n IH d ltac:(lia)) as H. unfold member_text in H. lia.
Qed.

(** [json.loads] reads back what [json.dumps] wrote. *)
Lemma loads_dumps (v : pyval) :
  well_formed v = true -> Json.loads (PStr (Json.dumps v)) = Ok v.
Proof.
  intros Hwf. unfold Json.loads.
  pose proof (dumps_starts v EmptyString) as Hs. rewrite str_app_nil_r in Hs.
  rewrite (skip_ws_starts _ Hs).
  pose proof (weight_length (weight v) v (le_n _)) as Hl.
  pose proof (scan_once_dumps (weight v) v (le_n _) Hwf
                (2 * String.length (Json.dumps v) + 2) EmptyString ltac:(lia) eq_refl) as H.
  rewrite str_app_nil_r in H. rewrite H. reflexivity.
Qed.

(** ** Special fields written by [map_to_graphql] and read by [extract_records] *)

Lemma dict_get_special_part (self : DataMapper.t) (k : string) (record : dict pyval) :
  special_only self k = true ->
  dict_get k (special_part self record) = dict_get k record.
Proof.
  intros Hk. unfold special_part.
  induction record as [|[k' v'] record IH]; [reflexivity|].
  cbn [filter fst]. destruct (special_only self k') eqn:E; cbn [dict_get].
  - now rewrite IH.
  - destruct (String.eqb_spec k k') as [->|_]; [congruence|exact IH].
Qed.

Lemma merge_attached (sp plain : dict pyval) :
  sp <> [] -> well_formed (PDict sp) = true ->
  DataConverterUtils.merge_json_ext (attach_json_ext sp plain)
  = Ok (dict_update (dict_del "jsonExt" plain) sp).
Proof.
  intros Hs Hwf. unfold attach_json_ext. destruct sp as [|kv sp]; [now elim Hs|].
  unfold DataConverterUtils.merge_json_ext. rewrite dict_get_set_same.
  assert (Ht : truthy (PStr (Json.dumps (PDict (kv :: sp)))) = true).
  { cbn [truthy]. pose proof (dumps_nonempty (PDict (kv :: sp))) as H.
    destruct (Json.dumps (PDict (kv :: sp))); [cbn in H; lia|reflexivity]. }
  rewrite Ht, (loads_dumps _ Hwf). cbn [bind py_update].
  now rewrite dict_del_set_same.
Qed.

(** X21.  Writing and reading fit together for the special fields: when
    [map_to_graphql] accepts a record that has special fields, the merge of
    [extract_records] (lines 26-28) applied to the mapped record parses the
    blob [jsonExt] back: the result is the mapped record without [jsonExt],
    updated with the special fields of the record, so every special field is
    found again under its own name with the value it had. *)
Theorem X21_special_fields_are_read_back (self : DataMapper.t) (record : dict pyval) :
  distinct (dict_keys record) = true ->
  first_unsupported self record = None ->
  special_part self record <> [] ->
  forallb (fun kv => well_formed (snd kv)) (special_part self record) = true ->
  let plain := dict_update [] (forward_image self (plain_part self record)) in
  exists mapped merged,
    DataMapper.map_to_graphql self record = Ok mapped
    /\ DataConverterUtils.merge_json_ext mapped = Ok merged
    /\ merged = dict_update (dict_del "jsonExt" plain) (special_part self record)
    /\ forall k v, special_only self k = true -> dict_get k record = Some v ->
                   dict_get k merged = Some v.
Proof.
  intros D H Hs Hwf plain.
  assert (N : NoDup (dict_keys (special_part self record)))
    by (apply NoDup_keys_filter; now apply distinct_NoDup).
  assert (D' : distinct (map fst (special_part self record)) = true).
  { unfold special_part. clear - D. unfold dict_keys in D.
    induction record as [|[k v] record IH]; [reflexivity|].
    cbn [map fst distinct] in D. apply andb_true_iff in D as [Hk Hd].
    cbn [filter fst]. destruct (special_only self k); [|auto].
    cbn [map fst distinct]. rewrite (IH Hd), andb_true_r.
    apply negb_true_iff. apply negb_true_iff in Hk.
    destruct (mem k (map fst (filter _ record))) eqn:E; [|reflexivity].
    apply mem_In, in_map_iff in E as (x & <- & Hx). apply filter_In in Hx as [Hx _].
    assert (In (fst x) (map fst record)) by now apply in_map.
    apply mem_In in H. congruence. }
  exists (attach_json_ext (special_part self record) plain),
    (dict_update (dict_del "jsonExt" plain) (special_part self record)).
  split; [exact (map_to_graphql_attached self record D H)|].
  split; [apply merge_attached; [exact Hs|cbn [well_formed]; now rewrite D', Hwf]|].
  split; [reflexivity|].
  intros k v Hk Hv. apply dict_get_update_present; [exact N|].
  now rewrite dict_get_special_part.
Qed.

(** X21 on the record [{name: Jo, note: hi, uuid: u1}] of the example
    mapper: the special field [note] comes back beside the mapped fields. *)
Lemma X21_witness :
  exists mapped,
    DataMapper.map_to_graphql example_mapper
      [("name", PStr "Jo"); ("note", PStr "hi"); ("uuid", PStr "u1")] = Ok mapped
    /\ DataConverterUtils.merge_json_ext mapped
       = Ok [("firstName", PStr "Jo"); ("uuid", PStr "u1"); ("note", PStr "hi")].
Proof.
  destruct (X21_special_fields_are_read_back example_mapper
              [("name", PStr "Jo"); ("note", PStr "hi"); ("uuid", PStr "u1")]
              eq_refl eq_refl)
    as (mapped & merged & H1 & H2 & H3 & _);
    [vm_compute; discriminate|reflexivity|].
  exists mapped. split; [exact H1|]. rewrite H2, H3. reflexivity.
Defined.
